(* Shallow embedding of the authentication core of FastAPI-TitanicData
   (stages 4 and 5: auth/jwt_handler.py, auth/auth_service.py,
   auth/dependencies.py, api/auth_routes.py, create_users.py, init_data.py)
   and proofs of its properties.

   Conventions of the model.
   - Python exceptions are the constructors of [exc]; a Python function that
     may raise returns [result A].  Messages are abbreviated where they carry
     formatted values.
   - A Python [str] is modelled by its UTF-8 encoding (a Rocq [string] of
     bytes); functions that count or slice characters decode it first
     ([codes]).  Strings with lone surrogates are outside the model.
   - The interpreter is CPython 3.11 (Unicode 14 tables) on a 64-bit Linux
     host with glibc: [int()], [datetime.fromtimestamp] and [localtime] are
     modelled after its C sources.  The host's local time zone is a constant
     UTC offset ([tz_offset], seconds).
   - Clock values are microseconds since the epoch (UTC), as
     [datetime.utcnow()] resolves them.  Each call of [datetime.utcnow()] in
     a request is a separate read of the clock ([clock_read]).
   - A token string is modelled by what it decodes to: either an undecodable
     string, or a header algorithm, a JSON payload and the key the HMAC was
     computed with (an ideal signature: it verifies exactly under that key).
   - passlib 1.7.4 with the pyca [bcrypt] backend (a release before 5.0,
     which hashes secrets longer than 72 bytes).  bcrypt's EksBlowfish digest
     is a parameter ([digest]); passlib's parsing and checks around it are
     modelled.
   - The database is PostgreSQL through psycopg2; the project does not pin a
     server release, and the two families of integer input parsing (12 to 15
     and 16 or later) are both modelled.  The test suite's SQLite database is
     not modelled.
   - FastAPI is not pinned either: its [HTTPBearer] answers differ between
     releases, and the release is part of the environment. *)

From Stdlib Require Import String Ascii ZArith List Bool Lia.
From Stdlib Require Import Floats.SpecFloat.
Import ListNotations.
Open Scope string_scope.
Open Scope Z_scope.

(* ------------------------------------------------------------------------- *)
(** * Python values and exceptions *)

Inductive exc : Type :=
| ValidationError (message : string)     (* exceptions.ValidationError *)
| HTTPException (status_code : Z) (detail : string)
| JWTError (message : string)            (* jose.JWTError and its subclasses *)
| ValueError (message : string)          (* incl. passlib's PasswordValueError *)
| TypeError (message : string)
| OverflowError (message : string)
| OSError (message : string)
| DBError (message : string).            (* sqlalchemy.exc.DBAPIError *)

Inductive result (A : Type) : Type :=
| Ret (a : A)
| Raise (e : exc).
Arguments Ret {A} a.
Arguments Raise {A} e.

Definition bind {A B : Type} (m : result A) (k : A -> result B) : result B :=
  match m with
  | Ret a => k a
  | Raise e => Raise e
  end.

Notation "x <- m ;; k" := (bind m (fun x => k))
  (at level 61, m at next level, right associativity).

(** A JSON value as [json.loads] produces it: numbers with a fraction or an
    exponent (and [NaN], [Infinity]) are binary64 floats. *)
#[warnings="-register-all"]
Inductive json : Type :=
| JNull
| JBool (b : bool)
| JInt (z : Z)
| JFloat (f : spec_float)
| JStr (s : string)
| JList (l : list json)
| JObj (kvs : list (string * json)).

Definition payload := list (string * json).

(** [dict] lookup in a decoded JSON object: with duplicate keys [json.loads]
    keeps the last one. *)
Definition dict_get (k : string) (p : payload) : option json :=
  fold_left (fun acc kv => if String.eqb (fst kv) k then Some (snd kv) else acc) p None.

(** [payload.get(k)]: [None] (JSON null) when the key is absent. *)
Definition py_get (k : string) (p : payload) : json :=
  match dict_get k p with
  | Some v => v
  | None => JNull
  end.

Definition py_truthy (v : json) : bool :=
  match v with
  | JNull => false
  | JBool b => b
  | JInt z => negb (Z.eqb z 0)
  | JFloat (S754_zero _) => false
  | JFloat _ => true
  | JStr s => negb (String.eqb s "")
  | JList l => negb (Nat.eqb (length l) 0)
  | JObj kvs => negb (Nat.eqb (length kvs) 0)
  end.

(* ------------------------------------------------------------------------- *)
(** * Characters of a [str] *)

Definition bytes_of (s : string) : list Z :=
  map (fun c => Z.of_nat (nat_of_ascii c)) (list_ascii_of_string s).

Definition utf8_cont (b : Z) : bool := (128 <=? b) && (b <=? 191).

(** UTF-8 decoding into code points; [-1] stands for a byte that does not
    start a well-formed sequence. *)
Fixpoint utf8_decode (l : list Z) : list Z :=
  match l with
  | [] => []
  | b0 :: r0 =>
      if b0 <? 128 then b0 :: utf8_decode r0
      else if (194 <=? b0) && (b0 <=? 223) then
        match r0 with
        | b1 :: r1 =>
            if utf8_cont b1 then (Z.land b0 31 * 64 + Z.land b1 63) :: utf8_decode r1
            else -1 :: utf8_decode r0
        | [] => [-1]
        end
      else if (224 <=? b0) && (b0 <=? 239) then
        match r0 with
        | b1 :: b2 :: r2 =>
            if utf8_cont b1 && utf8_cont b2
            then (Z.land b0 15 * 4096 + Z.land b1 63 * 64 + Z.land b2 63) :: utf8_decode r2
            else -1 :: utf8_decode r0
        | _ => -1 :: utf8_decode r0
        end
      else if (240 <=? b0) && (b0 <=? 244) then
        match r0 with
        | b1 :: b2 :: b3 :: r3 =>
            if utf8_cont b1 && utf8_cont b2 && utf8_cont b3
            then (Z.land b0 7 * 262144 + Z.land b1 63 * 4096 + Z.land b2 63 * 64
                  + Z.land b3 63) :: utf8_decode r3
            else -1 :: utf8_decode r0
        | _ => -1 :: utf8_decode r0
        end
      else -1 :: utf8_decode r0
  end.

(** The characters (code points) of a [str]. *)
Definition codes (s : string) : list Z := utf8_decode (bytes_of s).

(** [len(s)]. *)
Definition py_len (s : string) : nat := length (codes s).

(** A string of code points below 256, one byte each (used for ASCII). *)
Definition string_of_codes (cs : list Z) : string :=
  string_of_list_ascii (map (fun c => ascii_of_nat (Z.to_nat c)) cs).

(** The decimal digits of [|n|], as ASCII codes. *)
Fixpoint decimal_codes_aux (fuel : nat) (n : Z) (acc : list Z) : list Z :=
  match fuel with
  | O => acc
  | S f =>
      let acc' := (48 + n mod 10) :: acc in
      if n <? 10 then acc' else decimal_codes_aux f (n / 10) acc'
  end.

Definition decimal_codes (n : Z) : list Z :=
  decimal_codes_aux (S (Z.to_nat (Z.log2 (Z.abs n)))) (Z.abs n) [].

(** [str(n)]. *)
Definition str_of_Z (n : Z) : string :=
  string_of_codes ((if n <? 0 then [45] else []) ++ decimal_codes n).

(* ------------------------------------------------------------------------- *)
(** * [int()] *)

(** [Py_UNICODE_ISSPACE] above ASCII. *)
Definition is_unicode_space (c : Z) : bool :=
  (c =? 133) || (c =? 160) || (c =? 5760) || ((8192 <=? c) && (c <=? 8202))
  || (c =? 8232) || (c =? 8233) || (c =? 8239) || (c =? 8287) || (c =? 12288).

(** The digit zero of every run of decimal digits (category Nd). *)
Definition decimal_zeros : list Z :=
  [48; 1632; 1776; 1984; 2406; 2534; 2662; 2790; 2918; 3046; 3174; 3302; 3430;
   3558; 3664; 3792; 3872; 4160; 4240; 6112; 6160; 6470; 6608; 6784; 6800; 6992;
   7088; 7232; 7248; 42528; 43216; 43264; 43472; 43504; 43600; 44016; 65296;
   66720; 68912; 69734; 69872; 69942; 70096; 70384; 70736; 70864; 71248; 71360;
   71472; 71904; 72016; 72784; 73040; 73120; 92768; 92864; 93008; 120782; 120792;
   120802; 120812; 120822; 123200; 123632; 125264; 130032].

(** [Py_UNICODE_TODECIMAL]. *)
Definition unicode_decimal (c : Z) : option Z :=
  match find (fun z => (z <=? c) && (c <? z + 10)) decimal_zeros with
  | Some z => Some (c - z)
  | None => None
  end.

(** [_PyUnicode_TransformDecimalAndSpaceToASCII]: a character above ASCII
    becomes a space or a digit, and anything else ends the string with ['?']. *)
Fixpoint py_transform (cs : list Z) : list Z :=
  match cs with
  | [] => []
  | c :: r =>
      if c <? 127 then c :: py_transform r
      else if is_unicode_space c then 32 :: py_transform r
      else match unicode_decimal c with
           | Some d => (48 + d) :: py_transform r
           | None => [63]
           end
  end.

(** [Py_ISSPACE]. *)
Definition is_c_space (c : Z) : bool := ((9 <=? c) && (c <=? 13)) || (c =? 32).

Fixpoint skip_spaces (l : list Z) : list Z :=
  match l with
  | c :: r => if is_c_space c then skip_spaces r else l
  | [] => []
  end.

Definition is_ascii_digit (c : Z) : bool := (48 <=? c) && (c <=? 57).

(** The scan of [PyLong_FromString] in base 10: digits and single
    underscores between digits; [None] on a doubled or trailing underscore.
    It returns the value, the number of digits and the rest. *)
Fixpoint scan_decimal (l : list Z) (prev_underscore : bool) (acc digits : Z)
  : option (Z * Z * list Z) :=
  match l with
  | c :: r =>
      if is_ascii_digit c then scan_decimal r false (acc * 10 + (c - 48)) (digits + 1)
      else if c =? 95 then
        (if prev_underscore then None else scan_decimal r true acc digits)
      else if prev_underscore then None else Some (acc, digits, l)
  | [] => if prev_underscore then None else Some (acc, digits, [])
  end.

Definition INT_MAX_STR_DIGITS : Z := 4300.

Definition invalid_literal {A : Type} : result A :=
  Raise (ValueError "invalid literal for int() with base 10").

(** [PyLong_FromString(s, &end, 10)] followed by the check that the whole
    string was read. *)
Definition long_from_string (l : list Z) : result Z :=
  let l1 := skip_spaces l in
  let '(sign, l2) :=
    match l1 with
    | c :: r => if c =? 43 then (1, r) else if c =? 45 then (-1, r) else (1, l1)
    | [] => (1, l1)
    end in
  match l2 with
  | c :: _ =>
      if c =? 95 then invalid_literal else
      match scan_decimal l2 false 0 0 with
      | None => invalid_literal
      | Some (v, digits, rest) =>
          if INT_MAX_STR_DIGITS <? digits
          then Raise (ValueError "Exceeds the limit (4300 digits) for integer string conversion")
          else if digits =? 0 then invalid_literal
          else match skip_spaces rest with
               | [] => Ret (sign * v)
               | _ => invalid_literal
               end
      end
  | [] => invalid_literal
  end.

(** [int(s)] for a [str] given by its characters. *)
Definition int_of_codes (cs : list Z) : result Z := long_from_string (py_transform cs).

Definition int_of_str (s : string) : result Z := int_of_codes (codes s).

(** The value of a finite float truncated toward zero. *)
Definition float_trunc_finite (s : bool) (m : positive) (e : Z) : Z :=
  let v := if 0 <=? e then Z.pos m * 2 ^ e else Z.pos m / 2 ^ (- e) in
  if s then - v else v.

(** [int(f)] for a float. *)
Definition float_trunc (f : spec_float) : result Z :=
  match f with
  | S754_zero _ => Ret 0
  | S754_infinity _ => Raise (OverflowError "cannot convert float infinity to integer")
  | S754_nan => Raise (ValueError "cannot convert float NaN to integer")
  | S754_finite s m e => Ret (float_trunc_finite s m e)
  end.

(** [int(v)] on a JSON value. *)
Definition py_int (v : json) : result Z :=
  match v with
  | JNull => Raise (TypeError "int() argument must be a string, a bytes-like object or a real number, not 'NoneType'")
  | JBool b => Ret (if b then 1 else 0)
  | JInt z => Ret z
  | JFloat f => float_trunc f
  | JStr s => int_of_str s
  | JList _ => Raise (TypeError "int() argument must be a string, a bytes-like object or a real number, not 'list'")
  | JObj _ => Raise (TypeError "int() argument must be a string, a bytes-like object or a real number, not 'dict'")
  end.

(* ------------------------------------------------------------------------- *)
(** * Clock and time conversions *)

Definition USEC : Z := 1000000.

(** Days since 1970-01-01 of a date of the proleptic Gregorian calendar. *)
Definition days_from_civil (y m d : Z) : Z :=
  let y := if m <=? 2 then y - 1 else y in
  let era := y / 400 in
  let yoe := y - era * 400 in
  let mp := if 2 <? m then m - 3 else m + 9 in
  let doy := (153 * mp + 2) / 5 + d - 1 in
  let doe := yoe * 365 + yoe / 4 - yoe / 100 + doy in
  era * 146097 + doe - 719468.

(** The year of a day counted from 1970-01-01, as [localtime] breaks it down. *)
Definition year_of_days (days : Z) : Z :=
  let z := days + 719468 in
  let era := z / 146097 in
  let doe := z - era * 146097 in
  let yoe := (doe - doe / 1460 + doe / 36524 - doe / 146096) / 365 in
  let y := yoe + era * 400 in
  let doy := doe - (365 * yoe + yoe / 4 - yoe / 100) in
  let mp := (5 * doy + 2) / 153 in
  let m := if mp <? 10 then mp + 3 else mp - 9 in
  if m <=? 2 then y + 1 else y.

Definition year_of_ts (l : Z) : Z := year_of_days (l / 86400).

(** glibc's [localtime] fails with [EOVERFLOW] when [tm_year] leaves [int]. *)
Definition LOCALTIME_MIN : Z := days_from_civil (-2147483648 + 1900) 1 1 * 86400.
Definition LOCALTIME_MAX : Z := days_from_civil (2147483647 + 1900 + 1) 1 1 * 86400.

(** [datetime.min] and [datetime.max] (whole seconds) as POSIX timestamps. *)
Definition DATETIME_MIN_TS : Z := days_from_civil 1 1 1 * 86400.
Definition DATETIME_MAX_TS : Z := days_from_civil 10000 1 1 * 86400 - 1.

Inductive clock_read : Type :=
| IssueExp      (* create_access_token: expire = datetime.utcnow() + ... *)
| IssueIat      (* create_access_token: "iat": datetime.utcnow() *)
| JoseNbf       (* jose's _validate_nbf *)
| JoseExp       (* jose's _validate_exp *)
| DecodeExp.    (* decode_token: datetime.utcnow() > datetime.fromtimestamp(exp) *)

Inductive fastapi_release : Type :=
| FastAPILegacy     (* HTTPBearer answers 403 *)
| FastAPICurrent.   (* HTTPBearer answers 401 "Not authenticated" *)

Record env : Type := mkEnvAt {
  utcnow : clock_read -> Z;     (* the value of each datetime.utcnow() call *)
  tz_offset : Z;                (* local time minus UTC, seconds *)
  fastapi : fastapi_release
}.

(** An environment whose clock reads [t] at every call. *)
Definition mkEnv (t tz : Z) : env := mkEnvAt (fun _ => t) tz FastAPILegacy.

(** [timegm(dt.utctimetuple())]: whole seconds, fraction dropped. *)
Definition timegm (t_us : Z) : Z := t_us / USEC.

Definition max_fold_seconds : Z := 86400.

(** [_PyTime_localtime(t)] followed by [tm_year + 1900]. *)
Definition localtime_year (tz timet : Z) : result Z :=
  let l := timet + tz in
  if (l <? LOCALTIME_MIN) || (LOCALTIME_MAX <=? l)
  then Raise (OSError "[Errno 75] Value too large for defined data type")
  else Ret (year_of_ts l).

(** The year check of [utc_to_seconds]. *)
Definition check_year (y : Z) : result unit :=
  if (y <? 1) || (9999 <? y)
  then Raise (ValueError ("year " ++ str_of_Z y ++ " is out of range"))
  else Ret tt.

(** [datetime_from_timet_and_us(cls, _PyTime_localtime, timet, us, None)]:
    the naive local date-time, in microseconds of local time.  The fold probe
    reads [localtime] one day earlier; with a constant offset there is no
    fold. *)
Definition local_datetime (tz timet us : Z) : result Z :=
  y <- localtime_year tz timet ;;
  _ <- check_year y ;;
  probe <- localtime_year tz (timet - max_fold_seconds) ;;
  _ <- check_year probe ;;
  Ret ((timet + tz) * USEC + us).

(** [modf]'s fractional part of a finite float. *)
Definition frac_part (s : bool) (m : positive) (e : Z) : spec_float :=
  if 0 <=? e then S754_zero s
  else match Z.pos m mod 2 ^ (- e) with
       | Z.pos r => S754_finite s r e
       | _ => S754_zero s
       end.

(** [_PyTime_RoundHalfEven] of a float to an integer. *)
Definition round_half_even (f : spec_float) : Z :=
  match f with
  | S754_finite s m e =>
      let v := if 0 <=? e then Z.pos m * 2 ^ e
               else let d := 2 ^ (- e) in
                    let q := Z.pos m / d in
                    let r := Z.pos m mod d in
                    if 2 * r <? d then q
                    else if d <? 2 * r then q + 1
                    else if Z.even q then q else q + 1 in
      if s then - v else v
  | _ => 0
  end.

Definition TIME_T_MIN : Z := - 2 ^ 63.
Definition TIME_T_MAX : Z := 2 ^ 63 - 1.

(** [_PyTime_DoubleToDenominator(d, &sec, &us, 1e6, ROUND_HALF_EVEN)].  The
    range test compares with [(double)TIME_T_MAX], which is [2^63]; the cast
    of [2^63] to [time_t] gives [TIME_T_MIN] on x86-64. *)
Definition double_to_timeval (f : spec_float) : result (Z * Z) :=
  match f with
  | S754_nan => Raise (ValueError "Invalid value NaN (not a number)")
  | S754_infinity _ => Raise (OverflowError "timestamp out of range for platform time_t")
  | S754_zero _ => Ret (0, 0)
  | S754_finite s m e =>
      let intpart := float_trunc_finite s m e in
      let floatpart :=
        round_half_even (SFmul 53 1024 (frac_part s m e) (S754_finite false 1000000 0)) in
      let '(intpart, floatpart) :=
        if USEC <=? floatpart then (intpart + 1, floatpart - USEC)
        else if floatpart <? 0 then (intpart - 1, floatpart + USEC)
        else (intpart, floatpart) in
      if (intpart <? TIME_T_MIN) || (2 ^ 63 <? intpart)
      then Raise (OverflowError "timestamp out of range for platform time_t")
      else Ret (if intpart =? 2 ^ 63 then TIME_T_MIN else intpart, floatpart)
  end.

(** [_PyTime_ObjectToTimeval(v, &timet, &us, ROUND_HALF_EVEN)]: a float,
    or an [int] (a [bool] is one) that fits [time_t]. *)
Definition py_timestamp (v : json) : result (Z * Z) :=
  match v with
  | JInt z =>
      if (z <? TIME_T_MIN) || (TIME_T_MAX <? z)
      then Raise (OverflowError "timestamp out of range for platform time_t")
      else Ret (z, 0)
  | JBool b => Ret (if b then 1 else 0, 0)
  | JFloat f => double_to_timeval f
  | JNull => Raise (TypeError "'NoneType' object cannot be interpreted as an integer")
  | JStr _ => Raise (TypeError "'str' object cannot be interpreted as an integer")
  | JList _ => Raise (TypeError "'list' object cannot be interpreted as an integer")
  | JObj _ => Raise (TypeError "'dict' object cannot be interpreted as an integer")
  end.

(** [datetime.fromtimestamp(v)]: the naive LOCAL date-time of [v]. *)
Definition fromtimestamp (tz : Z) (v : json) : result Z :=
  tv <- py_timestamp v ;;
  let '(timet, us) := tv in
  local_datetime tz timet us.

(* ------------------------------------------------------------------------- *)
(** * python-jose: [jwt.encode] / [jwt.decode] *)

Inductive token : Type :=
| Garbage (raw : string)
| Signed (alg : string) (claims : payload) (signing_key : string).

Module Jose.

Definition encode (claims : payload) (key : string) (algorithm : string) : token :=
  Signed algorithm claims key.

(** [int(claims[name])], a [ValueError] turned into a [JWTClaimsError]. *)
Definition int_claim (msg : string) (v : json) : result Z :=
  match py_int v with
  | Raise (ValueError _) => Raise (JWTError msg)
  | r => r
  end.

Definition validate_iat (claims : payload) : result unit :=
  match dict_get "iat" claims with
  | None => Ret tt
  | Some v => _ <- int_claim "Issued At claim (iat) must be an integer." v ;; Ret tt
  end.

(** [now] is read after the claim is converted. *)
Definition validate_nbf (clock : clock_read -> Z) (claims : payload) : result unit :=
  match dict_get "nbf" claims with
  | None => Ret tt
  | Some v =>
      nbf <- int_claim "Not Before claim (nbf) must be an integer." v ;;
      let now := timegm (clock JoseNbf) in
      if now <? nbf then Raise (JWTError "The token is not yet valid (nbf)") else Ret tt
  end.

Definition validate_exp (clock : clock_read -> Z) (claims : payload) : result unit :=
  match dict_get "exp" claims with
  | None => Ret tt
  | Some v =>
      exp <- int_claim "Expiration Time claim (exp) must be an integer." v ;;
      let now := timegm (clock JoseExp) in
      if exp <? now then Raise (JWTError "Signature has expired.") else Ret tt
  end.

(** No audience is passed to [jwt.decode]: any [aud] claim is refused. *)
Definition validate_aud (claims : payload) : result unit :=
  match dict_get "aud" claims with
  | None => Ret tt
  | Some _ => Raise (JWTError "Invalid audience")
  end.

Definition validate_string_claim (name msg : string) (claims : payload) : result unit :=
  match dict_get name claims with
  | None | Some (JStr _) => Ret tt
  | Some _ => Raise (JWTError msg)
  end.

(** No access token is passed: any [at_hash] claim is refused. *)
Definition validate_at_hash (claims : payload) : result unit :=
  match dict_get "at_hash" claims with
  | None => Ret tt
  | Some _ => Raise (JWTError "No access_token provided to compare against at_hash claim.")
  end.

(** [_validate_claims], in jose's order, with [leeway = 0]. *)
Definition validate_claims (clock : clock_read -> Z) (claims : payload) : result unit :=
  _ <- validate_iat claims ;;
  _ <- validate_nbf clock claims ;;
  _ <- validate_exp clock claims ;;
  _ <- validate_aud claims ;;
  _ <- validate_string_claim "sub" "Subject must be a string." claims ;;
  _ <- validate_string_claim "jti" "JWT ID must be a string." claims ;;
  validate_at_hash claims.

Definition decode (clock : clock_read -> Z) (tok : token) (key : string)
  (algorithms : list string) : result payload :=
  match tok with
  | Garbage _ => Raise (JWTError "Error decoding token headers.")
  | Signed alg claims k =>
      if negb (existsb (String.eqb alg) algorithms)
      then Raise (JWTError "The specified alg value is not allowed")
      else if negb (String.eqb k key)
      then Raise (JWTError "Signature verification failed.")
      else _ <- validate_claims clock claims ;; Ret claims
  end.

End Jose.

(* ------------------------------------------------------------------------- *)
(** * String helpers *)

(** [s.startswith(p)] together with [s[len(p):]], on characters. *)
Fixpoint list_strip_prefix (p l : list Z) : option (list Z) :=
  match p, l with
  | [], _ => Some l
  | c :: p', d :: l' => if c =? d then list_strip_prefix p' l' else None
  | _ :: _, [] => None
  end.

(** [s.split(sep)] on characters. *)
Fixpoint split_on (sep : Z) (l : list Z) : list (list Z) :=
  match l with
  | [] => [[]]
  | c :: r =>
      if c =? sep then [] :: split_on sep r
      else match split_on sep r with
           | w :: ws => (c :: w) :: ws
           | [] => [[c]]
           end
  end.

Fixpoint codes_eqb (a b : list Z) : bool :=
  match a, b with
  | [], [] => true
  | x :: a', y :: b' => (x =? y) && codes_eqb a' b'
  | _, _ => false
  end.

(** ["%02d" % n]. *)
Definition format_02d (n : Z) : list Z :=
  let ds := decimal_codes n in
  if n <? 0 then 45 :: ds
  else if Nat.ltb (length ds) 2 then 48 :: ds else ds.

Fixpoint contains_nul (s : string) : bool :=
  match s with
  | EmptyString => false
  | String c s' => Ascii.eqb c (ascii_of_nat 0) || contains_nul s'
  end.

Fixpoint str_repeat (n : nat) (s : string) : string :=
  match n with
  | O => EmptyString
  | S k => s ++ str_repeat k s
  end.

(** [repeat_string(s, size)]: [s] repeated, cut to [size] bytes. *)
Definition repeat_string (s : string) (size : nat) : string :=
  let mult := (1 + (size - 1) / String.length s)%nat in
  substring 0 size (str_repeat mult s).

(* ------------------------------------------------------------------------- *)
(** * passlib: [CryptContext(schemes=["bcrypt"])] *)

Section Passlib.

(** [_bcrypt.hashpw(secret, config)[-31:]]: bcrypt's checksum of a secret
    (bytes) under a config string ([$2a$NN$] or [$2b$NN$] or [$2y$NN$] and a
    22-character salt). *)
Variable digest : string -> string -> string.

Definition MAX_PASSWORD_SIZE : nat := 4096.

(** bcrypt's base64 alphabet, in the order of its values. *)
Definition bcrypt64_charmap : list Z :=
  bytes_of "./ABCDEFGHIJKLMNOPQRSTUVWXYZabcdefghijklmnopqrstuvwxyz0123456789".

Definition bcrypt64_code (c : Z) : bool := existsb (Z.eqb c) bcrypt64_charmap.

Definition bcrypt64_codes (cs : list Z) : bool := forallb bcrypt64_code cs.

Fixpoint list_index (c : Z) (l : list Z) : Z :=
  match l with
  | [] => -1
  | x :: r => if x =? c then 0 else let i := list_index c r in if i <? 0 then i else i + 1
  end.

(** [charmap.index(c)] and [charmap[i]]. *)
Definition bcrypt64_index (c : Z) : Z := list_index c bcrypt64_charmap.
Definition bcrypt64_char_at (i : Z) : Z := nth (Z.to_nat i) bcrypt64_charmap 0.

Fixpoint map_last (f : Z -> Z) (l : list Z) : list Z :=
  match l with
  | [] => []
  | [x] => [f x]
  | x :: r => x :: map_last f r
  end.

(** Clearing the padding bits [mask] of the last character. *)
Definition repair_last (mask : Z) (c : Z) : Z :=
  let last := bcrypt64_index c in
  if Z.land last mask =? 0 then c else bcrypt64_char_at (Z.ldiff last mask).

(** [bcrypt64.check_repair_unused(s)[1]] (big-endian [Base64Engine]): a
    string of [4k+2] characters has 4 padding bits, one of [4k+3] has 2. *)
Definition check_repair_unused (src : list Z) : list Z :=
  let tail := Z.land (Z.of_nat (length src)) 3 in
  if tail =? 2 then map_last (repair_last 15) src
  else if tail =? 3 then map_last (repair_last 3) src
  else src.

(** The [ident_values] of passlib's bcrypt handler, in its order. *)
Definition bcrypt_idents : list string := ["$2$"; "$2a$"; "$2x$"; "$2y$"; "$2b$"].

(** [HasManyIdents._parse_ident]: the identifying prefix and the rest. *)
Fixpoint parse_ident (idents : list string) (h : list Z) : option (string * list Z) :=
  match idents with
  | [] => None
  | i :: rest =>
      match list_strip_prefix (codes i) h with
      | Some tail => Some (i, tail)
      | None => parse_ident rest h
      end
  end.

(** [_get_config(ident)]. *)
Definition bcrypt_config (ident : string) (rounds : Z) (salt : string) : string :=
  ident ++ string_of_codes (format_02d rounds) ++ "$" ++ salt.

(** [_norm_checksum]: size, alphabet, then the padding repair. *)
Definition norm_checksum (chk : list Z) : result (list Z) :=
  if negb (Nat.eqb (length chk) 31)
  then Raise (ValueError "checksum wrong size (bcrypt checksum must be exactly 31 chars)")
  else if negb (bcrypt64_codes chk)
  then Raise (ValueError "invalid characters in bcrypt checksum")
  else Ret (check_repair_unused chk).

(** [_norm_salt]: alphabet, minimum size, then the padding repair. *)
Definition norm_salt (salt : list Z) : result (list Z) :=
  if negb (bcrypt64_codes salt)
  then Raise (ValueError "invalid characters in bcrypt salt")
  else if Nat.ltb (length salt) 22
  then Raise (ValueError "salt too small (bcrypt requires exactly 22 chars)")
  else Ret (check_repair_unused salt).

(** [_norm_rounds]: [min_rounds = 4], [max_rounds = 31]. *)
Definition norm_rounds (rounds : Z) : result Z :=
  if rounds <? 4 then Raise (ValueError "bcrypt: rounds is too low (min_value=4)")
  else if 31 <? rounds then Raise (ValueError "bcrypt: rounds is too high (max_value=31)")
  else Ret rounds.

(** [bcrypt.from_string(hash)] and the constructor it calls, which
    normalises the checksum, then the salt, then the rounds.  It gives the
    ident, the rounds, the salt and the checksum ([data[22:] or None]). *)
Definition bcrypt_from_string (h : list Z) : result (string * Z * string * option string) :=
  match parse_ident bcrypt_idents h with
  | None => Raise (ValueError "not a valid bcrypt hash")
  | Some (ident, tail) =>
      if String.eqb ident "$2x$"
      then Raise (ValueError "crypt_blowfish's buggy '2x' hashes are not currently supported")
      else
        match split_on 36 tail with
        | [rounds_str; data] =>
            rounds <- int_of_codes rounds_str ;;
            if negb (codes_eqb rounds_str (format_02d rounds))
            then Raise (ValueError "malformed bcrypt hash (malformed cost field)")
            else
              let salt := firstn 22 data in
              let chk := skipn 22 data in
              chk' <- match chk with
                      | [] => Ret None
                      | _ => c <- norm_checksum chk ;; Ret (Some c)
                      end ;;
              salt' <- norm_salt salt ;;
              rounds' <- norm_rounds rounds ;;
              Ret (ident, rounds', string_of_codes salt', option_map string_of_codes chk')
        | [_] => Raise (ValueError "not enough values to unpack (expected 2, got 1)")
        | _ => Raise (ValueError "too many values to unpack (expected 2)")
        end
  end.

(** [validate_secret]: the size limit of every passlib handler, on [len]
    of the [str]. *)
Definition validate_secret (secret : string) : result unit :=
  if Nat.ltb MAX_PASSWORD_SIZE (py_len secret)
  then Raise (ValueError "password exceeds maximum allowed size")
  else Ret tt.

(** The variant handling of [_norm_digest_args] for the pyca backend, which
    lacks [$2$]: such a hash is computed as [$2a$] over the password repeated
    to 72 bytes. *)
Definition digest_variant (secret ident : string) : string * string :=
  if String.eqb ident "$2$"
  then ((if String.eqb secret "" then secret else repeat_string secret 72), "$2a$")
  else (secret, ident).

(** [_norm_digest_args] on [secret.encode("utf-8")]: the size limit again, on
    bytes, and NUL bytes refused. *)
Definition norm_digest_args (secret ident : string) : result (string * string) :=
  if Nat.ltb MAX_PASSWORD_SIZE (String.length secret)
  then Raise (ValueError "password exceeds maximum allowed size")
  else if contains_nul secret
  then Raise (ValueError "bcrypt does not allow NULL bytes in password")
  else Ret (digest_variant secret ident).

(** [_BcryptBackend._calc_checksum]. *)
Definition calc_checksum (ident : string) (rounds : Z) (salt secret : string) : result string :=
  args <- norm_digest_args secret ident ;;
  let '(secret', ident') := args in
  Ret (digest secret' (bcrypt_config ident' rounds salt)).

(** [pwd_context.hash(secret)]: default ident [$2b$], 12 rounds; [salt] is the
    22 characters passlib draws from bcrypt's alphabet, whose padding bits
    [_generate_salt] clears. *)
Definition passlib_hash (salt secret : string) : result string :=
  _ <- validate_secret secret ;;
  let salt := string_of_codes (check_repair_unused (codes salt)) in
  chk <- calc_checksum "$2b$" 12 salt secret ;;
  Ret (bcrypt_config "$2b$" 12 salt ++ chk).

(** [pwd_context.verify(secret, hash)]: the context identifies the scheme,
    then [GenericHandler.verify] checks the secret's size, parses the hash,
    requires a checksum and compares checksums. *)
Definition passlib_verify (secret hash : string) : result bool :=
  match parse_ident bcrypt_idents (codes hash) with
  | None => Raise (ValueError "hash could not be identified")
  | Some _ =>
      _ <- validate_secret secret ;;
      parsed <- bcrypt_from_string (codes hash) ;;
      let '(ident, rounds, salt, chk) := parsed in
      match chk with
      | None => Raise (ValueError "expected bcrypt hash, got bcrypt config string instead")
      | Some chk =>
          chk' <- calc_checksum ident rounds salt secret ;;
          Ret (String.eqb chk' chk)
      end
  end.

(** The fields of a hash string passlib accepts as a bcrypt hash with a
    checksum. *)
Definition parse_bcrypt (hash : string) : option (string * Z * string * string) :=
  match bcrypt_from_string (codes hash) with
  | Ret (ident, rounds, salt, Some chk) => Some (ident, rounds, salt, chk)
  | _ => None
  end.

End Passlib.

(** A string of bcrypt's alphabet. *)
Definition bcrypt64_str (s : string) : bool := bcrypt64_codes (bytes_of s).

(** What bcrypt returns as a checksum: 31 characters of its alphabet whose
    padding bits are clear. *)
Definition clean_checksum (chk : string) : bool :=
  Nat.eqb (String.length chk) 31 && bcrypt64_str chk
  && codes_eqb (check_repair_unused (bytes_of chk)) (bytes_of chk).

(* ------------------------------------------------------------------------- *)
(** * auth/jwt_handler.py *)

(** The dictionary [decode_token] returns. *)
Record claims : Type := mkClaims {
  c_user_id : json;
  c_email : json;
  c_role : json
}.

Module JWTHandler.

Definition SECRET_KEY : string := "votre_cle_secrete_super_securisee_123456789".
Definition ALGORITHM : string := "HS256".
Definition ACCESS_TOKEN_EXPIRE_MINUTES : Z := 30.

Definition hash_password (digest : string -> string -> string) (salt password : string)
  : result string :=
  passlib_hash digest salt password.

Definition verify_password (digest : string -> string -> string)
  (plain_password hashed_password : string) : result bool :=
  passlib_verify digest plain_password hashed_password.

(** [datetime.max] in microseconds. *)
Definition DATETIME_MAX_US : Z := DATETIME_MAX_TS * USEC + (USEC - 1).

(** Two reads of the clock: [expire] and [iat]; [jwt.encode] turns each
    [datetime] into [timegm(dt.utctimetuple())]. *)
Definition create_access_token (e : env) (user_id : Z) (email role : string) : result token :=
  let expire := utcnow e IssueExp + ACCESS_TOKEN_EXPIRE_MINUTES * 60 * USEC in
  if DATETIME_MAX_US <? expire then Raise (OverflowError "date value out of range")
  else
    let iat := utcnow e IssueIat in
    let payload :=
      [("user_id", JInt user_id); ("email", JStr email); ("role", JStr role);
       ("exp", JInt (timegm expire)); ("iat", JInt (timegm iat))] in
    Ret (Jose.encode payload SECRET_KEY ALGORITHM).

(** [decode_token]: only [JWTError] is caught. *)
Definition decode_token (e : env) (tok : token) : result (option claims) :=
  match Jose.decode (utcnow e) tok SECRET_KEY [ALGORITHM] with
  | Raise (JWTError _) => Ret None
  | Raise x => Raise x
  | Ret payload =>
      let exp := py_get "exp" payload in
      let result_claims :=
        {| c_user_id := py_get "user_id" payload;
           c_email := py_get "email" payload;
           c_role := py_get "role" payload |} in
      if py_truthy exp then
        let now := utcnow e DecodeExp in
        local <- fromtimestamp (tz_offset e) exp ;;
        if local <? now then Ret None else Ret (Some result_claims)
      else Ret (Some result_claims)
  end.

End JWTHandler.

(* ------------------------------------------------------------------------- *)
(** * models/user.py and the session over the [users] table (PostgreSQL) *)

Module Models.

Record User : Type := mkUser {
  id : Z;
  email : string;
  password_hash : string;
  is_active : bool;
  role : string
}.

(** The server's release decides how [int4in] reads a string. *)
Inductive pg_release : Type :=
| Postgres12to15
| Postgres16.

(** The committed [users] table, in insertion order, the next value of the
    [users_id_seq] sequence, and the server. *)
Record Session : Type := mkSession {
  users : list User;
  next_id : Z;
  server : pg_release
}.

Definition empty_session (srv : pg_release) : Session :=
  {| users := []; next_id := 1; server := srv |}.

(** [db.query(User).filter(User.email == e).first()]; an [EmailStr] holds
    no NUL character, which psycopg2 would refuse. *)
Definition query_by_email (db : Session) (e : string) : option User :=
  find (fun u => String.eqb (email u) e) (users db).

Definition find_by_id (db : Session) (i : Z) : option User :=
  find (fun u => Z.eqb (id u) i) (users db).

Definition NUL_LITERAL : string := "A string literal cannot contain NUL (0x00) characters.".
Definition PG_INVALID_INT : string := "invalid input syntax for type integer".
Definition PG_INT_RANGE : string := "value out of range for type integer".

(** psycopg2's adaptation of the items of a Python list ([ARRAY[...]]). *)
Fixpoint psycopg2_adapt (v : json) : result unit :=
  match v with
  | JObj _ => Raise (DBError "can't adapt type 'dict'")
  | JStr s => if contains_nul s then Raise (ValueError NUL_LITERAL) else Ret tt
  | JList l =>
      (fix adapt_all (l : list json) : result unit :=
         match l with
         | [] => Ret tt
         | x :: r => _ <- psycopg2_adapt x ;; adapt_all r
         end) l
  | _ => Ret tt
  end.

(** [pg_strtoint32] of PostgreSQL 12 to 15, the digits part: the magnitude,
    refused beyond [2^31]. *)
Fixpoint pg_scan_decimal_legacy (tmp : Z) (l : list Z) : result (Z * list Z) :=
  match l with
  | c :: r =>
      if is_ascii_digit c then
        let t := tmp * 10 + (c - 48) in
        if 2147483648 <? t then Raise (DBError PG_INT_RANGE) else pg_scan_decimal_legacy t r
      else Ret (tmp, l)
  | [] => Ret (tmp, [])
  end.

Definition pg_sign (l : list Z) : bool * list Z :=
  match l with
  | 45 :: r => (true, r)
  | 43 :: r => (false, r)
  | _ => (false, l)
  end.

(** [pg_strtoint32] (PostgreSQL 12 to 15): spaces, a sign, at least one
    decimal digit, trailing spaces. *)
Definition pg_strtoint32_legacy (l : list Z) : result Z :=
  let '(neg, l) := pg_sign (skip_spaces l) in
  match l with
  | c :: _ =>
      if negb (is_ascii_digit c) then Raise (DBError PG_INVALID_INT)
      else
        scanned <- pg_scan_decimal_legacy 0 l ;;
        let '(tmp, rest) := scanned in
        if negb (forallb is_c_space rest) then Raise (DBError PG_INVALID_INT)
        else if neg then Ret (- tmp)
        else if tmp =? 2147483648 then Raise (DBError PG_INT_RANGE)
        else Ret tmp
  | [] => Raise (DBError PG_INVALID_INT)
  end.

(** A digit of [base] ([isxdigit], ['0'..'7'], ['0'..'1'], [isdigit]). *)
Definition pg_digit (base c : Z) : option Z :=
  if (48 <=? c) && (c <=? 57) && (c - 48 <? base) then Some (c - 48)
  else if (base =? 16) && (97 <=? c) && (c <=? 102) then Some (c - 87)
  else if (base =? 16) && (65 <=? c) && (c <=? 70) then Some (c - 55)
  else None.

(** The digit loop of [pg_strtoint32_safe] (PostgreSQL 16): [tmp] is refused
    above [-(PG_INT32_MIN / base)] before each digit; an underscore must be
    followed by a digit and, in decimal ([strict]), come after one.  The
    flag records whether the loop moved past [firstdigit]. *)
Fixpoint pg_scan (base : Z) (strict moved : bool) (tmp : Z) (l : list Z)
  : result (Z * bool * list Z) :=
  match l with
  | c :: r =>
      match pg_digit base c with
      | Some d =>
          if 2147483648 / base <? tmp then Raise (DBError PG_INT_RANGE)
          else pg_scan base strict true (tmp * base + d) r
      | None =>
          if c =? 95 then
            if strict && negb moved then Raise (DBError PG_INVALID_INT)
            else match r with
                 | c' :: _ =>
                     match pg_digit base c' with
                     | Some _ => pg_scan base strict true tmp r
                     | None => Raise (DBError PG_INVALID_INT)
                     end
                 | [] => Raise (DBError PG_INVALID_INT)
                 end
          else Ret (tmp, moved, l)
      end
  | [] => Ret (tmp, moved, [])
  end.

(** The prefix of the digits: [0x], [0o], [0b] (either case) or none. *)
Definition pg_base (l : list Z) : Z * list Z :=
  match l with
  | 48 :: x :: r =>
      if (x =? 120) || (x =? 88) then (16, r)
      else if (x =? 111) || (x =? 79) then (8, r)
      else if (x =? 98) || (x =? 66) then (2, r)
      else (10, l)
  | _ => (10, l)
  end.

(** [pg_strtoint32_safe] (PostgreSQL 16), whose fast path agrees with the
    slow path modelled here. *)
Definition pg_strtoint32_16 (l : list Z) : result Z :=
  let '(neg, l) := pg_sign (skip_spaces l) in
  let '(base, l) := pg_base l in
  scanned <- pg_scan base (base =? 10) false 0 l ;;
  let '(tmp, moved, rest) := scanned in
  if negb moved then Raise (DBError PG_INVALID_INT)
  else if negb (forallb is_c_space rest) then Raise (DBError PG_INVALID_INT)
  else if neg then
    (if 2147483648 <? tmp then Raise (DBError PG_INT_RANGE) else Ret (- tmp))
  else if 2147483647 <? tmp then Raise (DBError PG_INT_RANGE)
  else Ret tmp.

(** [int4in] on the UTF-8 bytes of a string literal. *)
Definition pg_int4in (srv : pg_release) (l : list Z) : result Z :=
  match srv with
  | Postgres12to15 => pg_strtoint32_legacy l
  | Postgres16 => pg_strtoint32_16 l
  end.

(** The integer a finite float equals, if any. *)
Definition float_integral (f : spec_float) : option Z :=
  match f with
  | S754_zero _ => Some 0
  | S754_finite s m e =>
      if 0 <=? e then Some (float_trunc_finite s m e)
      else if Z.pos m mod 2 ^ (- e) =? 0 then Some (float_trunc_finite s m e)
      else None
  | _ => None
  end.

(** [db.query(User).filter(User.id == v).first()] through psycopg2:
    - [None] is [IS NULL], which no primary key satisfies;
    - an [int] or a [float] is a numeric literal, compared by value ([inf]
      and [nan] equal no integer);
    - a [str] is a string literal the server reads with [int4in] (psycopg2
      refuses a NUL character first);
    - a [bool] has no [integer = boolean] operator, a [dict] cannot be
      adapted, an empty [list] is the literal ['{}'] and another [list] an
      [ARRAY] with no comparison to an integer. *)
Definition query_by_id (db : Session) (v : json) : result (option User) :=
  match v with
  | JNull => Ret None
  | JInt i => Ret (find_by_id db i)
  | JFloat f => Ret (match float_integral f with
                     | Some i => find_by_id db i
                     | None => None
                     end)
  | JBool _ => Raise (DBError "operator does not exist: integer = boolean")
  | JStr s =>
      if contains_nul s then Raise (ValueError NUL_LITERAL)
      else i <- pg_int4in (server db) (bytes_of s) ;; Ret (find_by_id db i)
  | JList [] => Raise (DBError PG_INVALID_INT)
  | JList l => _ <- psycopg2_adapt (JList l) ;; Raise (DBError "operator does not exist")
  | JObj _ => Raise (DBError "can't adapt type 'dict'")
  end.

(** The committed table with one more row. *)
Definition add_user (db : Session) (u : User) : Session :=
  {| users := (users db ++ [u])%list; next_id := next_id db; server := server db |}.

Definition INT4_MAX : Z := 2147483647.

(** The [INSERT] of a new row at [flush]: the [SERIAL] id is drawn with
    [nextval] (never given back, even when the insert fails), then the
    primary key and the unique index on [email] are checked. *)
Definition insert_user (db : Session) (em h : string) (act : bool) (r : string)
  : Session * result User :=
  let i := next_id db in
  if INT4_MAX <? i
  then (db, Raise (DBError "nextval: reached maximum value of sequence users_id_seq (2147483647)"))
  else
    let db1 := {| users := users db; next_id := i + 1; server := server db |} in
    if existsb (fun u => Z.eqb (id u) i) (users db)
    then (db1, Raise (DBError "duplicate key value violates unique constraint users_pkey"))
    else if existsb (fun u => String.eqb (email u) em) (users db)
    then (db1, Raise (DBError "duplicate key value violates unique constraint ix_users_email"))
    else
      let u := {| id := i; email := em; password_hash := h; is_active := act; role := r |} in
      (add_user db1 u, Ret u).

(** A transaction that fails: its rows are rolled back, the sequence
    values it drew stay consumed. *)
Definition rollback (db db' : Session) : Session :=
  {| users := users db; next_id := next_id db'; server := server db |}.

End Models.
Import Models.

(* ------------------------------------------------------------------------- *)
(** * schemas/auth.py *)

Record UserCreate : Type := mkUserCreate {
  create_email : string;
  create_password : string;
  create_role : string
}.

(** [UserCreate(email=..., password=...)]: [role] defaults to ["user"]. *)
Definition user_create_default (e p : string) : UserCreate :=
  {| create_email := e; create_password := p; create_role := "user" |}.

Record UserLogin : Type := mkUserLogin {
  login_email : string;
  login_password : string
}.

(** [UserResponse.from_orm(user)]: the public fields of a row, no hash. *)
Record UserResponse : Type := mkUserResponse {
  ur_id : Z;
  ur_email : string;
  ur_role : string;
  ur_is_active : bool
}.

Definition from_orm (u : User) : UserResponse :=
  {| ur_id := id u; ur_email := email u; ur_role := role u; ur_is_active := is_active u |}.

(* ------------------------------------------------------------------------- *)
(** * schemas/response.py

    Stage 5's [schemas/__init__.py] imports [success_response] from
    [.response], a file absent from the tree; the model follows the same
    module of stage 3 ([3-Structure-projet/schemas/response.py]). *)

(** [str(n)] for a natural number. *)
Fixpoint str_of_nat_aux (fuel n : nat) (acc : string) : string :=
  match fuel with
  | O => acc
  | S f =>
      let acc' := String (ascii_of_nat (48 + n mod 10)%nat) acc in
      if Nat.ltb n 10 then acc' else str_of_nat_aux f (n / 10)%nat acc'
  end.

Definition str_of_nat (n : nat) : string := str_of_nat_aux (S n) n "".

(** The [data] argument: [None], a single object, or a list. *)
Inductive py_data (A : Type) : Type :=
| DNone
| DItem (a : A)
| DList (l : list A).
Arguments DNone {A}.
Arguments DItem {A} a.
Arguments DList {A} l.

Record StandardResponse (A : Type) : Type := mkStandardResponse {
  success : bool;
  message : string;
  data : option (list A);
  count : option Z;
  metadata : payload
}.
Arguments mkStandardResponse {A}.
Arguments success {A} _.
Arguments message {A} _.
Arguments data {A} _.
Arguments count {A} _.
Arguments metadata {A} _.

Definition success_response {A : Type} (data : py_data A) (message : string)
  (count : option Z) : StandardResponse A :=
  let data := match data with
              | DNone => None
              | DItem a => Some [a]
              | DList l => Some l
              end in
  let len_or_zero := match data with
                     | Some ((_ :: _) as l) => Z.of_nat (length l)
                     | _ => 0
                     end in
  {| success := true;
     message := message;
     data := data;
     count := Some (match count with
                    | Some c => if Z.eqb c 0 then len_or_zero else c
                    | None => len_or_zero
                    end);
     metadata := [] |}.

(* ------------------------------------------------------------------------- *)
(** * auth/auth_service.py *)

Module AuthService.

Definition EMAIL_EXISTS : string := "Un utilisateur avec cet email existe déjà".
Definition INVALID_ROLE : string := "Le rôle doit être 'user' ou 'admin'".
Definition INVALID_CREDENTIALS : string := "Email ou mot de passe incorrect".
Definition ACCOUNT_DISABLED : string := "Compte désactivé".
Definition INVALID_TOKEN : string := "Token invalide ou expiré".
Definition USER_NOT_FOUND : string := "Utilisateur non trouvé".

Section WithHasher.
Variable digest : string -> string -> string.

(** [create_user]; [salt] is the one passlib draws for the new hash.  It
    returns the session after the commit and the stored user.  A failed
    insert raises (the sequence value it drew is lost, see
    [reachable_failed_insert]). *)
Definition create_user (salt : string) (db : Session) (user_data : UserCreate)
  : result (Session * User) :=
  match query_by_email db (create_email user_data) with
  | Some _ => Raise (ValidationError EMAIL_EXISTS)
  | None =>
      if negb (existsb (String.eqb (create_role user_data)) ["user"; "admin"])
      then Raise (ValidationError INVALID_ROLE)
      else
        password_hash <- JWTHandler.hash_password digest salt (create_password user_data) ;;
        (* is_active takes its column default *)
        match insert_user db (create_email user_data) password_hash true (create_role user_data) with
        | (db', Ret db_user) => Ret (db', db_user)
        | (_, Raise x) => Raise x
        end
  end.

Definition login (e : env) (db : Session) (login_data : UserLogin) : result (token * User) :=
  match query_by_email db (login_email login_data) with
  | None => Raise (ValidationError INVALID_CREDENTIALS)
  | Some user =>
      ok <- JWTHandler.verify_password digest (login_password login_data) (password_hash user) ;;
      if negb ok then Raise (ValidationError INVALID_CREDENTIALS)
      else if negb (is_active user) then Raise (ValidationError ACCOUNT_DISABLED)
      else
        access_token <- JWTHandler.create_access_token e (id user) (email user) (role user) ;;
        Ret (access_token, user)
  end.

End WithHasher.

(** [get_current_user]: a returned claims dictionary is never empty, so
    [if not payload] only rejects [None]. *)
Definition get_current_user (e : env) (db : Session) (tok : token) : result User :=
  payload <- JWTHandler.decode_token e tok ;;
  match payload with
  | None => Raise (ValidationError INVALID_TOKEN)
  | Some c =>
      found <- query_by_id db (c_user_id c) ;;
      match found with
      | None => Raise (ValidationError USER_NOT_FOUND)
      | Some user =>
          if negb (is_active user) then Raise (ValidationError ACCOUNT_DISABLED)
          else Ret user
      end
  end.

(** [get_all_users]: every row, in table order, as [UserResponse]. *)
Definition get_all_users (db : Session) : StandardResponse UserResponse :=
  let us := users db in
  success_response (DList (map from_orm us))
    (str_of_nat (length us) ++ " utilisateurs trouvés") None.

End AuthService.

(* ------------------------------------------------------------------------- *)
(** * api/auth_routes.py: the boundary's mapping of exceptions *)

Module AuthRoutes.

Definition register (digest : string -> string -> string) (salt : string) (db : Session)
  (user_data : UserCreate) : result (Session * User) :=
  match AuthService.create_user digest salt db user_data with
  | Raise (ValidationError m) => Raise (HTTPException 400 m)
  | Raise _ => Raise (HTTPException 500 "Erreur lors de la création du compte")
  | Ret r => Ret r
  end.

Definition login (digest : string -> string -> string) (e : env) (db : Session)
  (login_data : UserLogin) : result (token * User) :=
  match AuthService.login digest e db login_data with
  | Raise (ValidationError m) => Raise (HTTPException 401 m)
  | Raise _ => Raise (HTTPException 500 "Erreur lors de la connexion")
  | Ret r => Ret r
  end.

(** The handlers of [/me], [/users] and [/logout], given the user their
    dependency resolved.  [/users] reads the committed table. *)
Definition get_me (current_user : User) : result (StandardResponse payload) :=
  Ret (success_response
         (DItem [("id", JInt (id current_user)); ("email", JStr (email current_user));
                 ("role", JStr (role current_user));
                 ("is_active", JBool (is_active current_user))])
         "Informations utilisateur récupérées" None).

Definition get_all_users (db : Session) (current_user : User)
  : result (StandardResponse UserResponse) :=
  Ret (AuthService.get_all_users db).

Definition logout (current_user : User) : result (StandardResponse unit) :=
  Ret (success_response DNone ("Déconnexion réussie pour " ++ email current_user) None).

End AuthRoutes.

(** The status code of an outcome at the boundary: 200 on success, the
    [HTTPException]'s code, and 500 for any other exception. *)
Definition response_status {A : Type} (r : result A) : Z :=
  match r with
  | Ret _ => 200
  | Raise (HTTPException s _) => s
  | Raise _ => 500
  end.

(* ------------------------------------------------------------------------- *)
(** * auth/dependencies.py *)

(** The [Authorization] header of a request. *)
Inductive auth_header : Type :=
| NoAuthorization
| Bearer (t : token)
| OtherScheme (raw : string).

(** The gates of a request, in the order FastAPI runs them. *)
Inductive gate : Type :=
| Authenticate
| ActiveCheck
| RoleCheck
| Handler.

(** A computation that records the gates it enters. *)
Definition traced (A : Type) : Type := (list gate * result A)%type.

(** FastAPI solves a dependency's sub-dependencies first and stops at the
    first exception; the trace of the rest is then empty. *)
Definition tbind {A B : Type} (m : traced A) (k : A -> traced B) : traced B :=
  let '(tr, r) := m in
  match r with
  | Ret a => let '(tr', r') := k a in ((tr ++ tr')%list, r')
  | Raise e => (tr, Raise e)
  end.

Definition enter {A : Type} (g : gate) (r : result A) : traced A := ([g], r).

Module Dependencies.

(** [HTTPBearer()] with [auto_error=True]; the requirements leave FastAPI
    unpinned, and its releases answer differently. *)
Definition security (rel : fastapi_release) (h : auth_header) : result token :=
  match h with
  | Bearer t => Ret t
  | NoAuthorization =>
      Raise (match rel with
             | FastAPILegacy => HTTPException 403 "Not authenticated"
             | FastAPICurrent => HTTPException 401 "Not authenticated"
             end)
  | OtherScheme _ =>
      Raise (match rel with
             | FastAPILegacy => HTTPException 403 "Invalid authentication credentials"
             | FastAPICurrent => HTTPException 401 "Not authenticated"
             end)
  end.

Definition get_current_user (e : env) (db : Session) (h : auth_header) : result User :=
  tok <- security (fastapi e) h ;;
  match AuthService.get_current_user e db tok with
  | Raise (ValidationError m) => Raise (HTTPException 401 m)
  | r => r
  end.

Definition get_current_active_user (current_user : User) : result User :=
  if negb (is_active current_user)
  then Raise (HTTPException 400 "Utilisateur inactif")
  else Ret current_user.

Definition require_admin (current_user : User) : result User :=
  if negb (String.eqb (role current_user) "admin")
  then Raise (HTTPException 403 "Droits administrateur requis")
  else Ret current_user.

Definition require_user_or_admin (current_user : User) : result User :=
  if negb (existsb (String.eqb (role current_user)) ["user"; "admin"])
  then Raise (HTTPException 403 "Authentification requise")
  else Ret current_user.

(** The dependency chain of a route guarded by a role gate
    ([Depends(require_admin)] or [Depends(require_user_or_admin)]), then the
    route's handler. *)
Definition run_get_current_user (e : env) (db : Session) (h : auth_header) : traced User :=
  enter Authenticate (get_current_user e db h).

Definition run_get_current_active_user (e : env) (db : Session) (h : auth_header)
  : traced User :=
  tbind (run_get_current_user e db h) (fun u => enter ActiveCheck (get_current_active_user u)).

Definition run_role_gate (role_gate : User -> result User) (e : env) (db : Session)
  (h : auth_header) : traced User :=
  tbind (run_get_current_active_user e db h) (fun u => enter RoleCheck (role_gate u)).

Definition run_endpoint {R : Type} (role_gate : User -> result User)
  (handler : User -> result R) (e : env) (db : Session) (h : auth_header) : traced R :=
  tbind (run_role_gate role_gate e db h) (fun u => enter Handler (handler u)).

(** A route that depends on [get_current_active_user] alone ([/me],
    [/logout]). *)
Definition run_active_endpoint {R : Type} (handler : User -> result R) (e : env)
  (db : Session) (h : auth_header) : traced R :=
  tbind (run_get_current_active_user e db h) (fun u => enter Handler (handler u)).

End Dependencies.

(* ------------------------------------------------------------------------- *)
(** * create_users.py (stage 4)

    The session is [SessionLocal()] with [autoflush=False] (the setting of
    the stage 3 [models/database.py]; later stages' are absent from the
    tree): the existence checks of the loop read the committed table, and the
    new rows are inserted at [db.commit()], in loop order.  [salt_of] gives
    the salt passlib draws for each account's hash.  [create_all], before the
    [try], is taken to succeed. *)

Module CreateUsers.

Definition default_users : list UserCreate :=
  [ {| create_email := "admin@titanic.com"; create_password := "admin123"; create_role := "admin" |};
    {| create_email := "user@titanic.com"; create_password := "user123"; create_role := "user" |};
    {| create_email := "jack@titanic.com"; create_password := "rose123"; create_role := "user" |} ].

(** The loop: the pending rows ([email], [password_hash], [role]). *)
Fixpoint stage_users (digest : string -> string -> string) (salt_of : string -> string)
  (db : Session) (us : list UserCreate) : result (list (string * string * string)) :=
  match us with
  | [] => Ret []
  | user_data :: rest =>
      match query_by_email db (create_email user_data) with
      | Some _ => stage_users digest salt_of db rest
      | None =>
          password_hash <- JWTHandler.hash_password digest (salt_of (create_email user_data))
                             (create_password user_data) ;;
          pending <- stage_users digest salt_of db rest ;;
          Ret ((create_email user_data, password_hash, create_role user_data) :: pending)
      end
  end.

(** [db.commit()]: the pending rows are inserted in order; the first failing
    insert stops the flush. *)
Fixpoint commit (db : Session) (pending : list (string * string * string))
  : Session * result unit :=
  match pending with
  | [] => (db, Ret tt)
  | (em, h, r) :: rest =>
      match insert_user db em h true r with
      | (db', Ret _) => commit db' rest
      | (db', Raise x) => (db', Raise x)
      end
  end.

(** [create_default_users()]: the session after [close] and the return
    value; an exception rolls back. *)
Definition create_default_users (digest : string -> string -> string)
  (salt_of : string -> string) (db : Session) : Session * bool :=
  match stage_users digest salt_of db default_users with
  | Ret pending =>
      match commit db pending with
      | (db', Ret _) => (db', true)
      | (db', Raise _) => (rollback db db', false)
      end
  | Raise _ => (db, false)
  end.

End CreateUsers.

(* ------------------------------------------------------------------------- *)
(** * init_data.py (stage 5)

    The same loop over the same accounts as [create_users.py], followed by
    the passengers, in one transaction.  The flags say whether each database
    step outside the [users] table succeeds: the connection test, the
    [create_all], the passenger count (before the commit), the passenger
    inserts (flushed after the users) and the final counts (after the
    commit). *)

Module InitData.

Definition init_complete_data (digest : string -> string -> string)
  (salt_of : string -> string)
  (connected tables_ok count_ok passengers_ok summary_ok : bool) (db : Session)
  : Session * bool :=
  if negb connected then (db, false)
  else if negb tables_ok then (db, false)
  else
    match CreateUsers.stage_users digest salt_of db CreateUsers.default_users with
    | Raise _ => (db, false)
    | Ret pending =>
        if negb count_ok then (db, false)
        else
          match CreateUsers.commit db pending with
          | (db', Ret _) =>
              if negb passengers_ok then (rollback db db', false) else (db', summary_ok)
          | (db', Raise _) => (rollback db db', false)
          end
    end.

End InitData.

(* ------------------------------------------------------------------------- *)
(** * Stores the repository's code produces, and concrete runs *)

(** Every id in the table is below the sequence's next value. *)
Definition session_wf (db : Session) : Prop :=
  Forall (fun u => id u < next_id db) (users db).

(** The stores an empty database reaches through [create_user] alone. *)
Inductive registered (digest : string -> string -> string) : Session -> Prop :=
| registered_empty : forall srv, registered digest (empty_session srv)
| registered_create : forall db salt user_data db' u,
    registered digest db ->
    AuthService.create_user digest salt db user_data = Ret (db', u) ->
    registered digest db'.

(** The stores an empty database reaches through the repository's writes:
    registration, a registration whose insert fails after drawing an id,
    [create_users.py] and [init_data.py]. *)
Inductive reachable (digest : string -> string -> string) : Session -> Prop :=
| reachable_empty : forall srv, reachable digest (empty_session srv)
| reachable_register : forall db salt user_data db' u,
    reachable digest db ->
    AuthService.create_user digest salt db user_data = Ret (db', u) ->
    reachable digest db'
| reachable_failed_insert : forall db,
    reachable digest db ->
    reachable digest {| users := users db; next_id := next_id db + 1; server := server db |}
| reachable_create_users : forall db salt_of,
    reachable digest db ->
    reachable digest (fst (CreateUsers.create_default_users digest salt_of db))
| reachable_init_data : forall db salt_of c t n p s,
    reachable digest db ->
    reachable digest (fst (InitData.init_complete_data digest salt_of c t n p s db)).

(** A stand-in for bcrypt's digest in concrete runs: 31 characters of its
    alphabet with clear padding bits, one value for the secret ["pw1234"] and
    another for the rest. *)
Definition sample_digest (secret config : string) : string :=
  if String.eqb secret "pw1234" then "abcdefghijklmnopqrstuvwxyzABCDG"
  else "ABCDEFGHIJKLMNOPQRSTUVWXYZabcde".

Definition sample_salt : string := "abcdefghijklmnopqrstuO".

(** 2023-11-14T22:13:20Z on a host whose local time is UTC. *)
Definition issue_env : env := mkEnv 1700000000000000 0.

Definition alice_hash : string :=
  "$2b$12$abcdefghijklmnopqrstuOabcdefghijklmnopqrstuvwxyzABCDG".

Definition alice_disabled : User :=
  {| id := 1; email := "alice@example.com"; password_hash := alice_hash;
     is_active := false; role := "user" |}.

Definition alice_active : User :=
  {| id := 1; email := "alice@example.com"; password_hash := alice_hash;
     is_active := true; role := "user" |}.

Definition db_alice_disabled : Session :=
  {| users := [alice_disabled]; next_id := 2; server := Postgres16 |}.
Definition db_alice_active : Session :=
  {| users := [alice_active]; next_id := 2; server := Postgres16 |}.

(** The token [create_access_token] issues for alice at [issue_env]. *)
Definition alice_token : token :=
  Jose.encode
    [("user_id", JInt 1); ("email", JStr "alice@example.com"); ("role", JStr "user");
     ("exp", JInt 1700001800); ("iat", JInt 1700000000)]
    JWTHandler.SECRET_KEY JWTHandler.ALGORITHM.

(** A password of valid length holding a NUL character (JSON ["ab\u0000cd"]). *)
Definition pw_with_nul : string := "ab" ++ String (ascii_of_nat 0) "cd".

(** 3000 times ["é"]: 3000 characters, 6000 UTF-8 bytes. *)
Definition pw_oversize : string := str_repeat 3000 "é".

Definition ok_handler (u : User) : result unit := Ret tt.

(** [payload] with every entry for key [k] removed ([payload.pop(k)] on the
    dict the token's JSON parses to). *)
Definition dict_del (k : string) (p : payload) : payload :=
  filter (fun kv => negb (String.eqb (fst kv) k)) p.

(** alice's issued token with an [aud] claim added before signing. *)
Definition alice_token_aud : token :=
  Jose.encode
    [("user_id", JInt 1); ("email", JStr "alice@example.com"); ("role", JStr "user");
     ("exp", JInt 1700001800); ("iat", JInt 1700000000); ("aud", JStr "titanic-api")]
    JWTHandler.SECRET_KEY JWTHandler.ALGORITHM.

(** alice's hash with the padding bits of its last checksum character set
    (["H"] where bcrypt writes ["G"]). *)
Definition alice_hash_unclean : string :=
  "$2b$12$abcdefghijklmnopqrstuOabcdefghijklmnopqrstuvwxyzABCDH".

(** A login whose two clock reads straddle a second: [expire] is read at
    1700000000.9 s, [iat] at 1700000001.1 s. *)
Definition skew_env : env :=
  mkEnvAt (fun r => match r with
                    | IssueExp => 1700000000900000
                    | _ => 1700000001100000
                    end) 0 FastAPILegacy.

(** [issue_env] under a FastAPI release whose [HTTPBearer] answers 401. *)
Definition current_env : env := mkEnvAt (fun _ => 1700000000000000) 0 FastAPICurrent.

(* ------------------------------------------------------------------------- *)
(** * Classes of outcomes *)

(** An exception that is neither a [ValidationError] nor an [HTTPException]:
    the boundary answers it with 500. *)
Definition internal_exc (x : exc) : Prop :=
  match x with
  | ValidationError _ | HTTPException _ _ => False
  | _ => True
  end.

(** The outcomes jose's claim checks can have: success, [JWTError], or the
    [TypeError] and [OverflowError] that [int()] raises and jose lets
    through. *)
Definition jose_outcome (r : result unit) : Prop :=
  r = Ret tt \/ (exists m, r = Raise (JWTError m)) \/ (exists m, r = Raise (TypeError m)) \/
  (exists m, r = Raise (OverflowError m)).

(** The roles [create_user] accepts. *)
Definition role_ok (r : string) : Prop := r = "user" \/ r = "admin".

(* ========================================================================= *)
(** * Properties *)

(** ** Local time within [datetime]'s range *)

Lemma year_of_days_range : forall d,
  -719162 <= d <= 2932896 -> 1 <= year_of_days d <= 9999.
Proof.
  intros d Hd. unfold year_of_days. cbv zeta.
  set (z := d + 719468).
  assert (Hz : 306 <= z <= 3652364) by (unfold z; lia).
  clearbody z. clear d Hd.
  set (era := z / 146097).
  assert (Hera : 0 <= era < 25)
    by (unfold era; split; [apply Z.div_pos|apply Z.div_lt_upper_bound]; lia).
  assert (Hdoe : 0 <= z - era * 146097 < 146097).
  { unfold era. pose proof (Z.div_mod z 146097 ltac:(lia)).
    pose proof (Z.mod_pos_bound z 146097 ltac:(lia)). lia. }
  assert (H24 : era = 24 -> z - era * 146097 <= 146036) by lia.
  assert (H0 : era = 0 -> 306 <= z - era * 146097) by lia.
  clearbody era.
  set (doe := z - era * 146097) in *. clearbody doe.
  set (yoe := (doe - doe / 1460 + doe / 36524 - doe / 146096) / 365).
  assert (Hyoe : 0 <= yoe <= 399) by (unfold yoe; Z.div_mod_to_equations; lia).
  assert (Hy0 : yoe = 0 -> doe <= 365) by (unfold yoe; Z.div_mod_to_equations; lia).
  assert (Hy399 : yoe = 399 -> 145731 <= doe) by (unfold yoe; Z.div_mod_to_equations; lia).
  clearbody yoe.
  set (doy := doe - (365 * yoe + yoe / 4 - yoe / 100)).
  assert (Hlow : era = 0 -> yoe = 0 -> 306 <= doy <= 365)
    by (intros -> ->; unfold doy; cbn; lia).
  assert (Hhigh : era = 24 -> yoe = 399 -> 0 <= doy <= 305)
    by (intros -> ->; unfold doy; cbn; lia).
  clearbody doy.
  set (mp := (5 * doy + 2) / 153).
  assert (Hmp1 : 306 <= doy <= 365 -> 10 <= mp <= 11)
    by (unfold mp; Z.div_mod_to_equations; lia).
  assert (Hmp2 : 0 <= doy <= 305 -> 0 <= mp <= 9)
    by (unfold mp; Z.div_mod_to_equations; lia).
  clearbody mp.
  destruct (Z.ltb_spec mp 10) as [Hm|Hm].
  - destruct (Z.leb_spec (mp + 3) 2) as [Hm2|Hm2].
    + assert (era <> 24 \/ yoe <> 399)
        by (destruct (Z.eq_dec era 24), (Z.eq_dec yoe 399); subst; lia).
      lia.
    + assert (era <> 0 \/ yoe <> 0)
        by (destruct (Z.eq_dec era 0), (Z.eq_dec yoe 0); subst; lia).
      lia.
  - destruct (Z.leb_spec (mp - 9) 2) as [Hm2|Hm2].
    + assert (era <> 24 \/ yoe <> 399)
        by (destruct (Z.eq_dec era 24), (Z.eq_dec yoe 399); subst; lia).
      lia.
    + assert (era <> 0 \/ yoe <> 0)
        by (destruct (Z.eq_dec era 0), (Z.eq_dec yoe 0); subst; lia).
      lia.
Qed.

Lemma DATETIME_MIN_TS_eq : DATETIME_MIN_TS = -62135596800.
Proof. vm_compute. reflexivity. Qed.

Lemma DATETIME_MAX_TS_eq : DATETIME_MAX_TS = 253402300799.
Proof. vm_compute. reflexivity. Qed.

Lemma LOCALTIME_MIN_eq : LOCALTIME_MIN = -67768040609740800.
Proof. vm_compute. reflexivity. Qed.

Lemma LOCALTIME_MAX_eq : LOCALTIME_MAX = 67768036191676800.
Proof. vm_compute. reflexivity. Qed.

Lemma localtime_year_in_range : forall tz timet,
  DATETIME_MIN_TS <= timet + tz <= DATETIME_MAX_TS ->
  exists y, localtime_year tz timet = Ret y /\ check_year y = Ret tt.
Proof.
  intros tz timet H. rewrite DATETIME_MIN_TS_eq, DATETIME_MAX_TS_eq in H.
  unfold localtime_year. rewrite LOCALTIME_MIN_eq, LOCALTIME_MAX_eq.
  replace ((timet + tz <? -67768040609740800) || (67768036191676800 <=? timet + tz))
    with false by (symmetry; apply orb_false_iff; split;
                   [apply Z.ltb_ge|apply Z.leb_gt]; lia).
  eexists. split; [reflexivity|].
  unfold check_year, year_of_ts.
  assert (Hd : -719162 <= (timet + tz) / 86400 < 2932897)
    by (split; [apply Z.div_le_lower_bound|apply Z.div_lt_upper_bound]; lia).
  assert (Hd' : -719162 <= (timet + tz) / 86400 <= 2932896) by lia.
  pose proof (year_of_days_range _ Hd') as Hy.
  replace ((year_of_days ((timet + tz) / 86400) <? 1) ||
           (9999 <? year_of_days ((timet + tz) / 86400))) with false
    by (symmetry; apply orb_false_iff; split; apply Z.ltb_ge; lia).
  reflexivity.
Qed.

(** [datetime.fromtimestamp] needs a day of margin below [datetime.min] for
    its fold probe. *)
Lemma local_datetime_in_range : forall tz timet us,
  DATETIME_MIN_TS + 86400 <= timet + tz <= DATETIME_MAX_TS ->
  local_datetime tz timet us = Ret ((timet + tz) * USEC + us).
Proof.
  intros tz timet us H. unfold local_datetime.
  destruct (localtime_year_in_range tz timet) as [y [-> Hy]]; [lia|]. cbn [bind].
  rewrite Hy. cbn [bind].
  destruct (localtime_year_in_range tz (timet - max_fold_seconds)) as [y' [-> Hy']];
    [unfold max_fold_seconds; lia|].
  cbn [bind]. rewrite Hy'. reflexivity.
Qed.

Lemma fromtimestamp_int : forall tz E,
  DATETIME_MIN_TS + 86400 <= E + tz <= DATETIME_MAX_TS ->
  TIME_T_MIN <= E <= TIME_T_MAX ->
  fromtimestamp tz (JInt E) = Ret ((E + tz) * USEC).
Proof.
  intros tz E H HT. unfold fromtimestamp, py_timestamp.
  replace ((E <? TIME_T_MIN) || (TIME_T_MAX <? E)) with false
    by (symmetry; apply orb_false_iff; split; apply Z.ltb_ge; lia).
  cbn [bind]. rewrite local_datetime_in_range by exact H. f_equal. lia.
Qed.

(** ** Token lifetime *)

Lemma timegm_add_seconds : forall t s, timegm (t + s * USEC) = timegm t + s.
Proof. intros t s. unfold timegm, USEC. apply Z.div_add. lia. Qed.

Lemma timegm_bounds : forall t, timegm t * USEC <= t < (timegm t + 1) * USEC.
Proof.
  intros t. unfold timegm, USEC.
  pose proof (Z.div_mod t 1000000 ltac:(lia)).
  pose proof (Z.mod_pos_bound t 1000000 ltac:(lia)). lia.
Qed.

Lemma timegm_nonneg : forall t, 0 <= t -> 0 <= timegm t.
Proof. intros t Ht. unfold timegm, USEC. apply Z.div_pos; lia. Qed.

(** ** Characters and bytes *)

Lemma bytes_of_app : forall a b, bytes_of (a ++ b) = (bytes_of a ++ bytes_of b)%list.
Proof.
  induction a as [|c a IH]; intros b; cbn; [reflexivity|].
  unfold bytes_of in IH. rewrite IH. reflexivity.
Qed.

Lemma bytes_of_length : forall s, length (bytes_of s) = String.length s.
Proof. induction s as [|c s IH]; cbn; [reflexivity|]. unfold bytes_of in IH. now rewrite IH. Qed.

Lemma bytes_of_range : forall s, Forall (fun b => 0 <= b < 256) (bytes_of s).
Proof.
  induction s as [|c s IH]; cbn; constructor; [|exact IH].
  pose proof (nat_ascii_bounded c). lia.
Qed.

Lemma string_of_codes_bytes : forall s, string_of_codes (bytes_of s) = s.
Proof.
  induction s as [|c s IH]; cbn; [reflexivity|].
  unfold string_of_codes, bytes_of in IH. rewrite IH.
  rewrite Nat2Z.id, ascii_nat_embedding. reflexivity.
Qed.

Lemma bytes_string_of_codes : forall cs,
  Forall (fun c => 0 <= c < 256) cs -> bytes_of (string_of_codes cs) = cs.
Proof.
  induction cs as [|c cs IH]; intros H; cbn; [reflexivity|].
  inversion H as [|? ? Hc Hcs]; subst.
  unfold bytes_of, string_of_codes in IH. rewrite IH by exact Hcs.
  rewrite nat_ascii_embedding by lia. rewrite Z2Nat.id by lia. reflexivity.
Qed.

Lemma utf8_decode_length : forall n l,
  (length l <= n)%nat -> (length (utf8_decode l) <= length l)%nat.
Proof.
  induction n as [|n IH]; intros l Hl.
  - destruct l; cbn in *; lia.
  - destruct l as [|b0 r0]; [cbn; lia|]. cbn [length] in Hl. cbn [utf8_decode].
    repeat match goal with
           | |- context [if ?b then _ else _] => destruct b
           | |- context [match ?l with [] => _ | _ :: _ => _ end] =>
               let x := fresh "b" in let r := fresh "r" in destruct l as [|x r]
           end;
      cbn [length] in *;
      first [ lia
            | match goal with
              | |- context [utf8_decode ?x] =>
                  let H := fresh in
                  assert (H : (length x <= n)%nat) by (cbn [length] in *; lia);
                  pose proof (IH x H); cbn [length] in *; lia
              end ].
Qed.

Lemma py_len_le_length : forall s, (py_len s <= String.length s)%nat.
Proof.
  intros s. unfold py_len, codes. rewrite <- bytes_of_length.
  apply (utf8_decode_length (length (bytes_of s))). lia.
Qed.

Lemma utf8_decode_ascii : forall l,
  forallb (fun b => b <? 128) l = true -> utf8_decode l = l.
Proof.
  induction l as [|b l IH]; intros H; cbn in *; [reflexivity|].
  apply andb_true_iff in H as [Hb Hl]. rewrite Hb. f_equal. apply IH; exact Hl.
Qed.

Lemma codes_eqb_eq : forall a b, codes_eqb a b = true -> a = b.
Proof.
  induction a as [|x a IH]; intros [|y b] H; cbn in H; try discriminate; [reflexivity|].
  apply andb_true_iff in H as [Hxy Hab]. apply Z.eqb_eq in Hxy. subst y.
  f_equal. apply IH; exact Hab.
Qed.

Lemma codes_eqb_refl : forall a, codes_eqb a a = true.
Proof. induction a as [|x a IH]; cbn; [reflexivity|]. rewrite Z.eqb_refl. exact IH. Qed.

Lemma validate_secret_ok : forall s,
  (String.length s <= MAX_PASSWORD_SIZE)%nat -> validate_secret s = Ret tt.
Proof.
  intros s Hs. unfold validate_secret. pose proof (py_len_le_length s).
  replace (Nat.ltb MAX_PASSWORD_SIZE (py_len s)) with false
    by (symmetry; apply Nat.ltb_ge; lia).
  reflexivity.
Qed.

Lemma norm_digest_args_ok : forall s ident,
  contains_nul s = false -> (String.length s <= MAX_PASSWORD_SIZE)%nat ->
  norm_digest_args s ident = Ret (digest_variant s ident).
Proof.
  intros s ident Hnul Hs. unfold norm_digest_args.
  replace (Nat.ltb MAX_PASSWORD_SIZE (String.length s)) with false
    by (symmetry; apply Nat.ltb_ge; lia).
  rewrite Hnul. reflexivity.
Qed.

Lemma calc_checksum_ok : forall digest ident rounds salt s,
  contains_nul s = false -> (String.length s <= MAX_PASSWORD_SIZE)%nat ->
  calc_checksum digest ident rounds salt s =
    Ret (let '(s', ident') := digest_variant s ident in digest s' (bcrypt_config ident' rounds salt)).
Proof.
  intros digest ident rounds salt s Hnul Hs. unfold calc_checksum.
  rewrite norm_digest_args_ok by assumption. cbn [bind].
  destruct (digest_variant s ident). reflexivity.
Qed.

(** ** bcrypt's alphabet and the padding repair *)

Lemma bcrypt64_forall : forall (P : Z -> bool),
  forallb P bcrypt64_charmap = true -> forall c, bcrypt64_code c = true -> P c = true.
Proof.
  intros P HP c Hc. unfold bcrypt64_code in Hc.
  apply existsb_exists in Hc as [x [Hin Hx]]. apply Z.eqb_eq in Hx. subst x.
  rewrite forallb_forall in HP. apply HP. exact Hin.
Qed.

Lemma bcrypt64_code_ascii : forall c, bcrypt64_code c = true -> (0 <=? c) && (c <? 128) && negb (c =? 36) = true.
Proof. apply bcrypt64_forall. vm_compute. reflexivity. Qed.

Lemma repair_last_code : forall m c, (m = 15 \/ m = 3) ->
  bcrypt64_code c = true -> bcrypt64_code (repair_last m c) = true.
Proof.
  intros m c [-> | ->]; revert c; apply bcrypt64_forall; vm_compute; reflexivity.
Qed.

Lemma repair_last_idem : forall m c, (m = 15 \/ m = 3) ->
  bcrypt64_code c = true -> repair_last m (repair_last m c) = repair_last m c.
Proof.
  intros m c Hm Hc. apply Z.eqb_eq. revert c Hc.
  destruct Hm as [-> | ->]; apply bcrypt64_forall; vm_compute; reflexivity.
Qed.

Lemma map_last_length : forall f l, length (map_last f l) = length l.
Proof.
  intros f l. induction l as [|x l IH]; [reflexivity|].
  destruct l as [|y l]; [reflexivity|]. change (S (length (map_last f (y :: l))) = S (length (y :: l))).
  rewrite IH. reflexivity.
Qed.

Lemma map_last_forallb : forall (P : Z -> bool) f l,
  (forall c, P c = true -> P (f c) = true) ->
  forallb P l = true -> forallb P (map_last f l) = true.
Proof.
  intros P f l Hf. induction l as [|x l IH]; intros H; [reflexivity|].
  cbn in H. apply andb_true_iff in H as [Hx Hl].
  destruct l as [|y l]; cbn.
  - rewrite Hf by exact Hx. reflexivity.
  - rewrite Hx. apply IH. exact Hl.
Qed.

Lemma map_last_cons : forall f x l, l <> [] -> map_last f (x :: l) = x :: map_last f l.
Proof. intros f x [|y l] H; [contradiction|reflexivity]. Qed.

Lemma map_last_idem : forall f l,
  (forall c, In c l -> f (f c) = f c) -> map_last f (map_last f l) = map_last f l.
Proof.
  intros f l. induction l as [|x l IH]; intros H; [reflexivity|].
  destruct l as [|y l].
  - cbn. rewrite H by (left; reflexivity). reflexivity.
  - rewrite map_last_cons by discriminate.
    rewrite map_last_cons.
    2:{ intros Hn. apply (f_equal (@length Z)) in Hn. rewrite map_last_length in Hn. discriminate. }
    rewrite IH; [reflexivity|]. intros c Hc. apply H. right. exact Hc.
Qed.

Lemma bcrypt64_codes_ascii : forall l,
  bcrypt64_codes l = true -> forallb (fun b => b <? 128) l = true.
Proof.
  unfold bcrypt64_codes. induction l as [|x l IH]; intros H; cbn [forallb] in *; [reflexivity|].
  apply andb_true_iff in H as [Hx Hl]. pose proof (bcrypt64_code_ascii x Hx) as Ha.
  apply andb_true_iff in Ha as [Ha _]. apply andb_true_iff in Ha as [_ Ha].
  rewrite Ha. apply IH. exact Hl.
Qed.

Lemma bcrypt64_codes_range : forall l,
  bcrypt64_codes l = true -> Forall (fun c => 0 <= c < 256) l.
Proof.
  unfold bcrypt64_codes. induction l as [|x l IH]; intros H; cbn [forallb] in H; constructor.
  - apply andb_true_iff in H as [Hx _]. pose proof (bcrypt64_code_ascii x Hx) as Ha.
    apply andb_true_iff in Ha as [Ha _]. apply andb_true_iff in Ha as [H1 H2].
    apply Z.leb_le in H1. apply Z.ltb_lt in H2. lia.
  - apply IH. apply andb_true_iff in H as [_ Hl]. exact Hl.
Qed.

Lemma bcrypt64_codes_no_dollar : forall l,
  bcrypt64_codes l = true -> forallb (fun x => negb (x =? 36)) l = true.
Proof.
  unfold bcrypt64_codes. induction l as [|x l IH]; intros H; cbn [forallb] in *; [reflexivity|].
  apply andb_true_iff in H as [Hx Hl]. pose proof (bcrypt64_code_ascii x Hx) as Ha.
  apply andb_true_iff in Ha as [_ Ha]. rewrite Ha. apply IH. exact Hl.
Qed.

Lemma bcrypt64_codes_app : forall a b,
  bcrypt64_codes (a ++ b)%list = bcrypt64_codes a && bcrypt64_codes b.
Proof. intros a b. unfold bcrypt64_codes. apply forallb_app. Qed.

Lemma check_repair_unused_length : forall l, length (check_repair_unused l) = length l.
Proof.
  intros l. unfold check_repair_unused.
  destruct (_ =? 2); [apply map_last_length|].
  destruct (_ =? 3); [apply map_last_length|reflexivity].
Qed.

Lemma check_repair_unused_codes : forall l,
  bcrypt64_codes l = true -> bcrypt64_codes (check_repair_unused l) = true.
Proof.
  intros l H. unfold check_repair_unused, bcrypt64_codes in *.
  destruct (_ =? 2); [apply map_last_forallb; [|exact H]; intros c; apply repair_last_code; auto|].
  destruct (_ =? 3); [apply map_last_forallb; [|exact H]; intros c; apply repair_last_code; auto|exact H].
Qed.

Lemma check_repair_unused_idem : forall l,
  bcrypt64_codes l = true -> check_repair_unused (check_repair_unused l) = check_repair_unused l.
Proof.
  intros l H.
  assert (Hin : forall c, In c l -> bcrypt64_code c = true).
  { intros c Hc. unfold bcrypt64_codes in H. rewrite forallb_forall in H. apply H. exact Hc. }
  unfold check_repair_unused at 1. rewrite check_repair_unused_length.
  unfold check_repair_unused.
  destruct (_ =? 2).
  - apply map_last_idem. intros c Hc. apply repair_last_idem; auto.
  - destruct (_ =? 3); [|reflexivity].
    apply map_last_idem. intros c Hc. apply repair_last_idem; auto.
Qed.

(** ** Parsing a hash *)

Lemma split_on_none : forall sep l,
  forallb (fun x => negb (x =? sep)) l = true -> split_on sep l = [l].
Proof.
  intros sep l. induction l as [|x l IH]; intros H; [reflexivity|].
  cbn in H. apply andb_true_iff in H as [Hx Hl]. apply negb_true_iff in Hx.
  cbn. rewrite Hx, IH by exact Hl. reflexivity.
Qed.

Lemma firstn_app_length : forall (A : Type) (a b : list A) n,
  length a = n -> firstn n (a ++ b)%list = a.
Proof.
  intros A a b n <-. rewrite firstn_app, Nat.sub_diag, firstn_O, app_nil_r.
  apply firstn_all.
Qed.

Lemma skipn_app_length : forall (A : Type) (a b : list A) n,
  length a = n -> skipn n (a ++ b)%list = b.
Proof.
  intros A a b n <-. rewrite skipn_app, Nat.sub_diag, skipn_O, skipn_all. reflexivity.
Qed.

Lemma bcrypt_config_2b_12 : forall salt, bcrypt_config "$2b$" 12 salt = "$2b$12$" ++ salt.
Proof. reflexivity. Qed.

Lemma int_of_codes_raises : forall cs x, int_of_codes cs = Raise x -> exists m, x = ValueError m.
Proof.
  intros cs x H. unfold int_of_codes, long_from_string, invalid_literal in H.
  repeat match type of H with
         | context [match ?e with _ => _ end] => destruct e
         end;
    try discriminate; injection H as <-; eexists; reflexivity.
Qed.

Lemma bcrypt_from_string_raises : forall h x,
  bcrypt_from_string h = Raise x -> exists m, x = ValueError m.
Proof.
  intros h x H. unfold bcrypt_from_string in H.
  destruct (parse_ident bcrypt_idents h) as [[ident tail]|];
    [|injection H as <-; eexists; reflexivity].
  destruct (String.eqb ident "$2x$"); [injection H as <-; eexists; reflexivity|].
  destruct (split_on 36 tail) as [|rs [|data [|? ?]]];
    try (injection H as <-; eexists; reflexivity).
  destruct (int_of_codes rs) as [rounds|y] eqn:Hr; cbn [bind] in H;
    [|injection H as <-; exact (int_of_codes_raises _ _ Hr)].
  destruct (negb (codes_eqb rs (format_02d rounds))); [injection H as <-; eexists; reflexivity|].
  unfold norm_checksum, norm_salt, norm_rounds in H.
  repeat match type of H with
         | context [match ?e with _ => _ end] => destruct e
         | context [if ?e then _ else _] => destruct e
         end; cbn [bind] in H;
    try discriminate; injection H as <-; eexists; reflexivity.
Qed.

Lemma bcrypt_from_string_ident : forall h r,
  bcrypt_from_string h = Ret r -> parse_ident bcrypt_idents h <> None.
Proof. intros h r H Hn. unfold bcrypt_from_string in H. rewrite Hn in H. discriminate. Qed.

(** passlib's own output, parsed back: a salt of bcrypt's alphabet (padding
    bits cleared) and a checksum as bcrypt returns it. *)
Lemma bcrypt_from_string_own : forall salt chk,
  length salt = 22%nat -> bcrypt64_codes salt = true ->
  check_repair_unused salt = salt ->
  clean_checksum chk = true ->
  bcrypt_from_string (codes ("$2b$12$" ++ string_of_codes salt ++ chk)) =
    Ret ("$2b$", 12, string_of_codes salt, Some chk).
Proof.
  intros salt chk Hsl Hsb Hsr Hc.
  unfold clean_checksum, bcrypt64_str in Hc.
  apply andb_true_iff in Hc as [Hc Hcr]. apply andb_true_iff in Hc as [Hcl Hcb].
  apply Nat.eqb_eq in Hcl. apply codes_eqb_eq in Hcr.
  set (c := bytes_of chk) in *.
  assert (Hclen : length c = 31%nat) by (unfold c; rewrite bytes_of_length; exact Hcl).
  assert (Hbytes : bytes_of ("$2b$12$" ++ string_of_codes salt ++ chk) =
                   ([36; 50; 98; 36; 49; 50; 36] ++ salt ++ c)%list).
  { rewrite !bytes_of_app, bytes_string_of_codes by (apply bcrypt64_codes_range; exact Hsb).
    reflexivity. }
  assert (Hall : bcrypt64_codes (salt ++ c)%list = true)
    by (rewrite bcrypt64_codes_app, Hsb, Hcb; reflexivity).
  unfold codes. rewrite Hbytes.
  rewrite utf8_decode_ascii.
  2:{ rewrite forallb_app. rewrite (bcrypt64_codes_ascii _ Hall). reflexivity. }
  unfold bcrypt_from_string. cbn [app].
  change (parse_ident bcrypt_idents (36 :: 50 :: 98 :: 36 :: 49 :: 50 :: 36 :: salt ++ c)%list)
    with (Some ("$2b$", (49 :: 50 :: 36 :: salt ++ c)%list)).
  cbn iota beta. change (String.eqb "$2b$" "$2x$") with false. cbn iota.
  change (split_on 36 (49 :: 50 :: 36 :: salt ++ c)%list)
    with (match split_on 36 (50 :: 36 :: salt ++ c)%list with
          | w :: ws => (49 :: w) :: ws | [] => [[49]] end).
  change (split_on 36 (50 :: 36 :: salt ++ c)%list)
    with (match split_on 36 (36 :: salt ++ c)%list with
          | w :: ws => (50 :: w) :: ws | [] => [[50]] end).
  change (split_on 36 (36 :: salt ++ c)%list) with ([] :: split_on 36 (salt ++ c)%list).
  rewrite split_on_none by (apply bcrypt64_codes_no_dollar; exact Hall).
  cbn iota beta.
  change (int_of_codes [49; 50]) with (Ret 12). cbn [bind].
  change (negb (codes_eqb [49; 50] (format_02d 12))) with false. cbn iota.
  rewrite firstn_app_length, skipn_app_length by exact Hsl.
  destruct c as [|c0 c'] eqn:Hc0; [discriminate|].
  unfold norm_checksum. rewrite Hclen, Hcb, Hcr. cbn [negb Nat.eqb bind].
  unfold norm_salt. rewrite Hsb, Hsl, Hsr. cbn [negb Nat.ltb Nat.leb bind].
  change (norm_rounds 12) with (Ret 12 : result Z). cbn [bind option_map].
  rewrite <- Hc0. unfold c. rewrite string_of_codes_bytes. reflexivity.
Qed.

(** What passlib stores for a password: ["$2b$12$"], the salt with its
    padding bits cleared, and bcrypt's checksum; it parses back into these
    fields and verifies against the password. *)
Lemma passlib_hash_own : forall digest salt pw,
  (forall s c, clean_checksum (digest s c) = true) ->
  String.length salt = 22%nat -> bcrypt64_str salt = true ->
  contains_nul pw = false -> (String.length pw <= MAX_PASSWORD_SIZE)%nat ->
  let salt' := string_of_codes (check_repair_unused (codes salt)) in
  let chk := digest pw ("$2b$12$" ++ salt') in
  passlib_hash digest salt pw = Ret ("$2b$12$" ++ salt' ++ chk) /\
  bcrypt_from_string (codes ("$2b$12$" ++ salt' ++ chk)) = Ret ("$2b$", 12, salt', Some chk) /\
  passlib_verify digest pw ("$2b$12$" ++ salt' ++ chk) = Ret true.
Proof.
  intros digest salt pw Hdig Hsl Hsb Hnul Hsize salt' chk.
  unfold bcrypt64_str in Hsb.
  assert (Hcodes : codes salt = bytes_of salt)
    by (unfold codes; apply utf8_decode_ascii, bcrypt64_codes_ascii; exact Hsb).
  set (s' := check_repair_unused (codes salt)) in salt'.
  assert (Hs'b : bcrypt64_codes s' = true)
    by (unfold s'; rewrite Hcodes; apply check_repair_unused_codes; exact Hsb).
  assert (Hs'l : length s' = 22%nat)
    by (unfold s'; rewrite check_repair_unused_length, Hcodes, bytes_of_length; exact Hsl).
  assert (Hs'r : check_repair_unused s' = s')
    by (unfold s'; rewrite Hcodes; apply check_repair_unused_idem; exact Hsb).
  assert (Hparse := bcrypt_from_string_own s' chk Hs'l Hs'b Hs'r (Hdig _ _)).
  fold salt' in Hparse.
  assert (Hcalc : calc_checksum digest "$2b$" 12 salt' pw = Ret chk).
  { rewrite calc_checksum_ok by assumption. reflexivity. }
  split; [|split; [exact Hparse|]].
  - unfold passlib_hash. rewrite validate_secret_ok by exact Hsize. cbn [bind].
    fold s' salt'. rewrite Hcalc. reflexivity.
  - unfold passlib_verify.
    destruct (parse_ident bcrypt_idents (codes ("$2b$12$" ++ salt' ++ chk))) eqn:Hid;
      [|exfalso; exact (bcrypt_from_string_ident _ _ Hparse Hid)].
    rewrite validate_secret_ok by exact Hsize. cbn [bind].
    rewrite Hparse. cbn [bind]. rewrite Hcalc. cbn [bind]. rewrite String.eqb_refl. reflexivity.
Qed.

(** ** Looking a user up *)

Lemma query_by_id_found : forall db v u,
  query_by_id db v = Ret (Some u) -> exists i, find_by_id db i = Some u.
Proof.
  intros db v u H. unfold query_by_id in H.
  destruct v as [| |i|f|s|l|kvs]; try discriminate.
  - injection H as H. exists i. exact H.
  - destruct (float_integral f) as [i|]; [|discriminate]. injection H as H. exists i. exact H.
  - destruct (contains_nul s); [discriminate|].
    destruct (pg_int4in (server db) (bytes_of s)) as [i|x]; cbn [bind] in H; [|discriminate].
    injection H as H. exists i. exact H.
  - destruct l as [|x l]; [discriminate|].
    destruct (psycopg2_adapt (JList (x :: l))); cbn [bind] in H; discriminate.
Qed.

Lemma find_by_id_in : forall db i u, find_by_id db i = Some u -> In u (users db) /\ id u = i.
Proof.
  intros db i u H. apply find_some in H as [Hin Hid]. apply Z.eqb_eq in Hid. auto.
Qed.

Lemma query_by_id_in : forall db v u, query_by_id db v = Ret (Some u) -> In u (users db).
Proof.
  intros db v u H. destruct (query_by_id_found db v u H) as [i Hi].
  exact (proj1 (find_by_id_in db i u Hi)).
Qed.

Lemma psycopg2_adapt_raises : forall v x, psycopg2_adapt v = Raise x -> internal_exc x.
Proof.
  fix IH 1. intros v x H. destruct v as [| | | |s|l|kvs]; cbn in H; try discriminate.
  - destruct (contains_nul s); [injection H as <-; exact I|discriminate].
  - induction l as [|y l IHl]; [discriminate|].
    destruct (psycopg2_adapt y) eqn:Hy; cbn [bind] in H.
    + exact (IHl H).
    + injection H as <-. exact (IH y _ Hy).
  - injection H as <-. exact I.
Qed.

Lemma pg_int4in_raises : forall srv l x, pg_int4in srv l = Raise x -> internal_exc x.
Proof.
  intros srv l x H. destruct srv; cbn in H.
  - unfold pg_strtoint32_legacy in H.
    destruct (pg_sign (skip_spaces l)) as [neg l'].
    destruct l' as [|c r]; [injection H as <-; exact I|].
    destruct (negb (is_ascii_digit c)); [injection H as <-; exact I|].
    destruct (pg_scan_decimal_legacy 0 (c :: r)) as [[tmp rest]|y] eqn:Hs; cbn [bind] in H.
    + repeat match type of H with context [if ?b then _ else _] => destruct b end;
        try discriminate; injection H as <-; exact I.
    + injection H as <-. revert Hs. generalize 0 as t. generalize (c :: r) as m.
      induction m as [|d m IHm]; intros t Hs; cbn in Hs; [discriminate|].
      destruct (is_ascii_digit d); [|discriminate].
      destruct (2147483648 <? t * 10 + (d - 48)); [injection Hs as <-; exact I|].
      exact (IHm _ Hs).
  - unfold pg_strtoint32_16 in H.
    destruct (pg_sign (skip_spaces l)) as [neg l'].
    destruct (pg_base l') as [base l''].
    destruct (pg_scan base (base =? 10) false 0 l'') as [[[tmp moved] rest]|y] eqn:Hs;
      cbn [bind] in H.
    + repeat match type of H with context [if ?b then _ else _] => destruct b end;
        try discriminate; injection H as <-; exact I.
    + injection H as <-. revert Hs. generalize false as mv. generalize 0 as t.
      induction l'' as [|d m IHm]; intros t mv Hs; cbn in Hs; [discriminate|].
      destruct (pg_digit base d).
      * destruct (2147483648 / base <? t); [injection Hs as <-; exact I|exact (IHm _ _ Hs)].
      * destruct (d =? 95); [|discriminate].
        destruct ((base =? 10) && negb mv); [injection Hs as <-; exact I|].
        destruct m as [|d' m']; [injection Hs as <-; exact I|].
        destruct (pg_digit base d'); [exact (IHm _ _ Hs)|injection Hs as <-; exact I].
Qed.

(** [query_by_id] raises only database and driver errors. *)
Lemma query_by_id_raises : forall db v x, query_by_id db v = Raise x -> internal_exc x.
Proof.
  intros db v x H. unfold query_by_id in H.
  destruct v as [| |i|f|s|l|kvs]; try discriminate.
  - injection H as <-. exact I.
  - destruct (contains_nul s); [injection H as <-; exact I|].
    destruct (pg_int4in (server db) (bytes_of s)) as [i|y] eqn:Hp; cbn [bind] in H;
      [discriminate|].
    injection H as <-. exact (pg_int4in_raises _ _ _ Hp).
  - destruct l as [|y l]; [injection H as <-; exact I|].
    destruct (psycopg2_adapt (JList (y :: l))) eqn:Ha; cbn [bind] in H;
      injection H as <-; [exact I|exact (psycopg2_adapt_raises _ _ Ha)].
  - injection H as <-. exact I.
Qed.

(** [AuthService.get_current_user] on a token that decodes: the outcome is
    decided by the row the decoded [user_id] selects. *)
Lemma get_current_user_decoded :
  forall (e : env) (db : Session) (tok : token) (c : claims),
    JWTHandler.decode_token e tok = Ret (Some c) ->
    AuthService.get_current_user e db tok =
      match query_by_id db (c_user_id c) with
      | Raise x => Raise x
      | Ret None => Raise (ValidationError AuthService.USER_NOT_FOUND)
      | Ret (Some u) =>
          if is_active u then Ret u
          else Raise (ValidationError AuthService.ACCOUNT_DISABLED)
      end.
Proof.
  intros e db tok c Hdec.
  unfold AuthService.get_current_user. rewrite Hdec. cbn [bind].
  destruct (query_by_id db (c_user_id c)) as [[u|]|x]; cbn [bind]; [|reflexivity|reflexivity].
  destruct (is_active u); reflexivity.
Qed.

(** ** Token validation *)

Lemma py_int_cases : forall v,
  (exists z, py_int v = Ret z) \/ (exists m, py_int v = Raise (ValueError m)) \/
  (exists m, py_int v = Raise (TypeError m)) \/ (exists m, py_int v = Raise (OverflowError m)).
Proof.
  intros v. destruct v as [|b|z|f|s|l|kvs]; cbn [py_int].
  - right; right; left; eexists; reflexivity.
  - left; eexists; reflexivity.
  - left; eexists; reflexivity.
  - destruct f; cbn; [left|right; right; right|right; left|left]; eexists; reflexivity.
  - unfold int_of_str. destruct (int_of_codes (codes s)) as [z|x] eqn:H; [left; eexists; reflexivity|].
    destruct (int_of_codes_raises _ _ H) as [m ->]. right; left; eexists; reflexivity.
  - right; right; left; eexists; reflexivity.
  - right; right; left; eexists; reflexivity.
Qed.

Lemma jose_outcome_bind : forall m k,
  jose_outcome m -> jose_outcome k -> jose_outcome (_ <- m ;; k).
Proof.
  intros m k Hm Hk.
  destruct Hm as [->|[[s ->]|[[s ->]|[s ->]]]]; cbn [bind]; [exact Hk| | |];
    unfold jose_outcome; eauto 6.
Qed.

Lemma int_claim_cases : forall msg v,
  (exists z, Jose.int_claim msg v = Ret z) \/
  (exists m, Jose.int_claim msg v = Raise (JWTError m)) \/
  (exists m, Jose.int_claim msg v = Raise (TypeError m)) \/
  (exists m, Jose.int_claim msg v = Raise (OverflowError m)).
Proof.
  intros msg v. unfold Jose.int_claim.
  destruct (py_int_cases v) as [[z ->]|[[m ->]|[[m ->]|[m ->]]]]; eauto 6.
Qed.

Lemma int_claim_outcome : forall msg v (k : Z -> result unit),
  (forall z, jose_outcome (k z)) -> jose_outcome (z <- Jose.int_claim msg v ;; k z).
Proof.
  intros msg v k Hk.
  destruct (int_claim_cases msg v) as [[z ->]|[[m ->]|[[m ->]|[m ->]]]]; cbn [bind];
    [apply Hk| | |]; unfold jose_outcome; eauto 6.
Qed.

Lemma validate_claims_cases : forall clock p, jose_outcome (Jose.validate_claims clock p).
Proof.
  intros clock p. unfold Jose.validate_claims.
  assert (Hret : jose_outcome (Ret tt)) by (left; reflexivity).
  assert (Hjwt : forall m, jose_outcome (Raise (JWTError m))) by (intros m; right; left; eauto).
  repeat apply jose_outcome_bind.
  - unfold Jose.validate_iat. destruct (dict_get "iat" p); [|exact Hret].
    apply int_claim_outcome. intros; exact Hret.
  - unfold Jose.validate_nbf. destruct (dict_get "nbf" p); [|exact Hret].
    apply int_claim_outcome. intros z. destruct (_ <? z); [apply Hjwt|exact Hret].
  - unfold Jose.validate_exp. destruct (dict_get "exp" p); [|exact Hret].
    apply int_claim_outcome. intros z. destruct (z <? _); [apply Hjwt|exact Hret].
  - unfold Jose.validate_aud. destruct (dict_get "aud" p); [apply Hjwt|exact Hret].
  - unfold Jose.validate_string_claim. destruct (dict_get "sub" p) as [[]|]; first [exact Hret|apply Hjwt].
  - unfold Jose.validate_string_claim. destruct (dict_get "jti" p) as [[]|]; first [exact Hret|apply Hjwt].
  - unfold Jose.validate_at_hash. destruct (dict_get "at_hash" p); [apply Hjwt|exact Hret].
Qed.

Lemma jose_decode_cases : forall clock tok key algs,
  (exists alg p k, tok = Signed alg p k /\ Jose.decode clock tok key algs = Ret p /\
                   Jose.validate_claims clock p = Ret tt) \/
  (exists m, Jose.decode clock tok key algs = Raise (JWTError m)) \/
  (exists m, Jose.decode clock tok key algs = Raise (TypeError m)) \/
  (exists m, Jose.decode clock tok key algs = Raise (OverflowError m)).
Proof.
  intros clock [raw|alg p k] key algs; cbn [Jose.decode].
  - right; left; eexists; reflexivity.
  - destruct (negb (existsb (String.eqb alg) algs)); [right; left; eexists; reflexivity|].
    destruct (negb (String.eqb k key)); [right; left; eexists; reflexivity|].
    destruct (validate_claims_cases clock p) as [Hv|[[m Hv]|[[m Hv]|[m Hv]]]]; rewrite Hv;
      cbn [bind].
    + left. exists alg, p, k. auto.
    + right; left; eexists; reflexivity.
    + right; right; left; eexists; reflexivity.
    + right; right; right; eexists; reflexivity.
Qed.

Lemma py_timestamp_raises : forall v x, py_timestamp v = Raise x -> internal_exc x.
Proof.
  intros v x H. unfold py_timestamp, double_to_timeval in H.
  repeat match type of H with
         | context [match ?e with _ => _ end] => destruct e
         end;
    try discriminate; injection H as <-; exact I.
Qed.

Lemma localtime_year_raises : forall tz t x, localtime_year tz t = Raise x -> internal_exc x.
Proof.
  intros tz t x. unfold localtime_year.
  destruct (_ || _); intros H; [injection H as <-; exact I | discriminate].
Qed.

Lemma check_year_raises : forall y x, check_year y = Raise x -> internal_exc x.
Proof.
  intros y x. unfold check_year.
  destruct (_ || _); intros H; [injection H as <-; exact I | discriminate].
Qed.

Lemma local_datetime_raises : forall tz t us x, local_datetime tz t us = Raise x -> internal_exc x.
Proof.
  intros tz t us x H. unfold local_datetime in H.
  destruct (localtime_year tz t) as [y|y] eqn:E1; cbn [bind] in H;
    [|injection H as <-; exact (localtime_year_raises _ _ _ E1)].
  destruct (check_year y) as [[]|z] eqn:E2; cbn [bind] in H;
    [|injection H as <-; exact (check_year_raises _ _ E2)].
  destruct (localtime_year tz (t - max_fold_seconds)) as [p|p] eqn:E3; cbn [bind] in H;
    [|injection H as <-; exact (localtime_year_raises _ _ _ E3)].
  destruct (check_year p) as [[]|z] eqn:E4; cbn [bind] in H;
    [discriminate|injection H as <-; exact (check_year_raises _ _ E4)].
Qed.

Lemma fromtimestamp_raises : forall tz v x, fromtimestamp tz v = Raise x -> internal_exc x.
Proof.
  intros tz v x H. unfold fromtimestamp in H.
  destruct (py_timestamp v) as [[t us]|y] eqn:Hp; cbn [bind] in H.
  - exact (local_datetime_raises _ _ _ _ H).
  - injection H as <-. exact (py_timestamp_raises _ _ Hp).
Qed.

(** [decode_token] catches [JWTError] only; what escapes is an internal
    error. *)
Lemma decode_token_raises : forall e tok x,
  JWTHandler.decode_token e tok = Raise x -> internal_exc x.
Proof.
  intros e tok x H. unfold JWTHandler.decode_token in H.
  destruct (jose_decode_cases (utcnow e) tok JWTHandler.SECRET_KEY [JWTHandler.ALGORITHM])
    as [[alg [p [k [_ [Hd _]]]]]|[[m Hd]|[[m Hd]|[m Hd]]]]; rewrite Hd in H.
  - destruct (py_truthy (py_get "exp" p)); [|discriminate].
    destruct (fromtimestamp (tz_offset e) (py_get "exp" p)) as [l|y] eqn:Hf; cbn [bind] in H.
    + destruct (l <? utcnow e DecodeExp); discriminate.
    + injection H as <-. exact (fromtimestamp_raises _ _ _ Hf).
  - discriminate.
  - injection H as <-. exact I.
  - injection H as <-. exact I.
Qed.

(** [create_access_token] when the clock's first read is within
    [datetime]'s range. *)
Lemma create_access_token_issues :
  forall e uid em rl,
    0 <= utcnow e IssueExp -> timegm (utcnow e IssueExp) + 1800 <= DATETIME_MAX_TS ->
    JWTHandler.create_access_token e uid em rl =
      Ret (Signed "HS256"
             [("user_id", JInt uid); ("email", JStr em); ("role", JStr rl);
              ("exp", JInt (timegm (utcnow e IssueExp) + 1800));
              ("iat", JInt (timegm (utcnow e IssueIat)))]
             JWTHandler.SECRET_KEY).
Proof.
  intros e uid em rl H0 Hmax.
  unfold JWTHandler.create_access_token.
  replace (utcnow e IssueExp + JWTHandler.ACCESS_TOKEN_EXPIRE_MINUTES * 60 * USEC)
    with (utcnow e IssueExp + 1800 * USEC) by (unfold JWTHandler.ACCESS_TOKEN_EXPIRE_MINUTES; lia).
  pose proof (timegm_bounds (utcnow e IssueExp)).
  destruct (Z.ltb_spec JWTHandler.DATETIME_MAX_US (utcnow e IssueExp + 1800 * USEC)) as [Hlt|_].
  - exfalso. unfold JWTHandler.DATETIME_MAX_US, USEC in *. lia.
  - rewrite timegm_add_seconds. reflexivity.
Qed.

(** [decode_token] on a token [create_access_token] issued. *)
Lemma decode_issued_token :
  forall e uid em rl E I,
    JWTHandler.decode_token e
      (Signed "HS256"
         [("user_id", JInt uid); ("email", JStr em); ("role", JStr rl);
          ("exp", JInt E); ("iat", JInt I)] JWTHandler.SECRET_KEY) =
    if E <? timegm (utcnow e JoseExp) then Ret None
    else if Z.eqb E 0 then Ret (Some (mkClaims (JInt uid) (JStr em) (JStr rl)))
    else
      match fromtimestamp (tz_offset e) (JInt E) with
      | Raise x => Raise x
      | Ret local =>
          if local <? utcnow e DecodeExp then Ret None
          else Ret (Some (mkClaims (JInt uid) (JStr em) (JStr rl)))
      end.
Proof.
  intros e uid em rl E I.
  unfold JWTHandler.decode_token, Jose.decode. cbn -[fromtimestamp timegm].
  destruct (E <? timegm (utcnow e JoseExp)); cbn -[fromtimestamp]; [reflexivity|].
  destruct (Z.eqb E 0); cbn -[fromtimestamp]; [reflexivity|].
  destruct (fromtimestamp (tz_offset e) (JInt E)); reflexivity.
Qed.

(** A token whose [exp] second is not before the clock and whose local
    expiry is not before [utcnow()] decodes to its identity claims. *)
Lemma decode_issued_token_valid :
  forall e uid em rl E I,
    0 <= tz_offset e -> 1 <= E -> E + tz_offset e <= DATETIME_MAX_TS ->
    utcnow e JoseExp <= E * USEC -> utcnow e DecodeExp <= E * USEC ->
    JWTHandler.decode_token e
      (Signed "HS256"
         [("user_id", JInt uid); ("email", JStr em); ("role", JStr rl);
          ("exp", JInt E); ("iat", JInt I)] JWTHandler.SECRET_KEY) =
    Ret (Some (mkClaims (JInt uid) (JStr em) (JStr rl))).
Proof.
  intros e uid em rl E I Htz HE Hmax Hj Hd.
  rewrite decode_issued_token.
  pose proof (timegm_bounds (utcnow e JoseExp)).
  replace (E <? timegm (utcnow e JoseExp)) with false
    by (symmetry; apply Z.ltb_ge; unfold USEC in *; nia).
  replace (Z.eqb E 0) with false by (symmetry; apply Z.eqb_neq; lia).
  rewrite fromtimestamp_int.
  2:{ rewrite DATETIME_MIN_TS_eq. lia. }
  2:{ rewrite DATETIME_MAX_TS_eq in Hmax. unfold TIME_T_MIN, TIME_T_MAX. lia. }
  replace ((E + tz_offset e) * USEC <? utcnow e DecodeExp) with false
    by (symmetry; apply Z.ltb_ge; unfold USEC in *; nia).
  reflexivity.
Qed.

(* ========================================================================= *)
(** * The claims *)

(** C1: for a token [decode] accepts, [resolve] looks the decoded [user_id]
    up in the store and returns the row found, whose [role] and [is_active]
    are the store's (the token's [email] and [role] play no part); that row
    belongs to the table, under the id looked up.  It fails with the
    disabled-account [ValidationError] whenever that row is inactive, with
    "user not found" when there is none, and with the lookup's own error when
    the database refuses the value. *)
Theorem resolve_returns_live_user :
  forall (e : env) (db : Session) (tok : token) (c : claims),
    JWTHandler.decode_token e tok = Ret (Some c) ->
    (forall u, query_by_id db (c_user_id c) = Ret (Some u) ->
       (exists i, find_by_id db i = Some u /\ In u (users db) /\ id u = i) /\
       AuthService.get_current_user e db tok =
         (if is_active u then Ret u
          else Raise (ValidationError AuthService.ACCOUNT_DISABLED))) /\
    (forall u, query_by_id db (c_user_id c) = Ret (Some u) -> is_active u = false ->
       AuthService.get_current_user e db tok =
         Raise (ValidationError AuthService.ACCOUNT_DISABLED)) /\
    (query_by_id db (c_user_id c) = Ret None ->
       AuthService.get_current_user e db tok =
         Raise (ValidationError AuthService.USER_NOT_FOUND)) /\
    (forall x, query_by_id db (c_user_id c) = Raise x ->
       AuthService.get_current_user e db tok = Raise x /\ internal_exc x).
Proof.
  intros e db tok c Hdec.
  pose proof (get_current_user_decoded e db tok c Hdec) as Hr.
  split; [|split; [|split]].
  - intros u Hu. split.
    + destruct (query_by_id_found _ _ _ Hu) as [i Hi]. exists i.
      split; [exact Hi|]. exact (find_by_id_in _ _ _ Hi).
    + rewrite Hr, Hu. reflexivity.
  - intros u Hu Hoff. rewrite Hr, Hu, Hoff. reflexivity.
  - intros Hn. rewrite Hr, Hn. reflexivity.
  - intros x Hx. rewrite Hr, Hx. split; [reflexivity|exact (query_by_id_raises _ _ _ Hx)].
Qed.

Lemma resolve_returns_live_user_witness :
  JWTHandler.decode_token issue_env alice_token =
    Ret (Some (mkClaims (JInt 1) (JStr "alice@example.com") (JStr "user"))) /\
  query_by_id db_alice_disabled (JInt 1) = Ret (Some alice_disabled) /\
  AuthService.get_current_user issue_env db_alice_disabled alice_token =
    Raise (ValidationError AuthService.ACCOUNT_DISABLED).
Proof.
  assert (Hdec : JWTHandler.decode_token issue_env alice_token =
    Ret (Some (mkClaims (JInt 1) (JStr "alice@example.com") (JStr "user"))))
    by (vm_compute; reflexivity).
  assert (Hq : query_by_id db_alice_disabled (JInt 1) = Ret (Some alice_disabled))
    by reflexivity.
  split; [exact Hdec|]. split; [exact Hq|].
  exact (proj1 (proj2 (resolve_returns_live_user issue_env db_alice_disabled alice_token _ Hdec))
           alice_disabled Hq eq_refl).
Defined.

(** [login] on an email with no row. *)
Lemma login_unknown_email : forall digest e db l,
  query_by_email db (login_email l) = None ->
  AuthService.login digest e db l = Raise (ValidationError AuthService.INVALID_CREDENTIALS) /\
  AuthRoutes.login digest e db l = Raise (HTTPException 401 AuthService.INVALID_CREDENTIALS).
Proof.
  intros digest e db l H.
  assert (H1 : AuthService.login digest e db l =
                 Raise (ValidationError AuthService.INVALID_CREDENTIALS))
    by (unfold AuthService.login; rewrite H; reflexivity).
  split; [exact H1|]. unfold AuthRoutes.login. rewrite H1. reflexivity.
Qed.

Lemma norm_digest_args_refuses : forall s ident,
  contains_nul s = true \/ (MAX_PASSWORD_SIZE < String.length s)%nat ->
  exists m, norm_digest_args s ident = Raise (ValueError m).
Proof.
  intros s ident H. unfold norm_digest_args.
  destruct (Nat.ltb MAX_PASSWORD_SIZE (String.length s)) eqn:Hl; [eexists; reflexivity|].
  destruct H as [H|H]; [rewrite H; eexists; reflexivity|].
  apply Nat.ltb_ge in Hl. lia.
Qed.

Lemma calc_checksum_refuses : forall digest ident rounds salt s,
  contains_nul s = true \/ (MAX_PASSWORD_SIZE < String.length s)%nat ->
  exists m, calc_checksum digest ident rounds salt s = Raise (ValueError m).
Proof.
  intros digest ident rounds salt s H. unfold calc_checksum.
  destruct (norm_digest_args_refuses s ident H) as [m ->]. exists m. reflexivity.
Qed.

(** [verify] either answers with a boolean for a parsed hash and an
    acceptable password, or raises [ValueError]. *)
Lemma passlib_verify_cases : forall digest p h,
  (forall ident rounds salt chk,
     parse_bcrypt h = Some (ident, rounds, salt, chk) ->
     contains_nul p = false -> (String.length p <= MAX_PASSWORD_SIZE)%nat ->
     passlib_verify digest p h =
       Ret (let '(s', i') := digest_variant p ident in
            String.eqb (digest s' (bcrypt_config i' rounds salt)) chk)) /\
  (parse_bcrypt h = None \/ contains_nul p = true \/
   (MAX_PASSWORD_SIZE < String.length p)%nat ->
     exists m, passlib_verify digest p h = Raise (ValueError m)).
Proof.
  intros digest p h. unfold passlib_verify, parse_bcrypt.
  destruct (parse_ident bcrypt_idents (codes h)) as [[ident0 tail]|] eqn:Hid.
  - destruct (bcrypt_from_string (codes h)) as [[[[ident rounds] salt] [chk|]]|x] eqn:Hf.
    + split.
      * intros ident' rounds' salt' chk' Heq Hnul Hsize.
        injection Heq as <- <- <- <-.
        rewrite validate_secret_ok by exact Hsize. cbn [bind].
        rewrite calc_checksum_ok by assumption. cbn [bind].
        destruct (digest_variant p ident). reflexivity.
      * intros [Hn|Hbad]; [discriminate|].
        unfold validate_secret.
        destruct (Nat.ltb MAX_PASSWORD_SIZE (py_len p)); cbn [bind]; [eexists; reflexivity|].
        destruct (calc_checksum_refuses digest ident rounds salt p Hbad) as [m ->].
        eexists; reflexivity.
    + split; [intros; discriminate|]. intros _.
      unfold validate_secret.
      destruct (Nat.ltb MAX_PASSWORD_SIZE (py_len p)); cbn [bind]; eexists; reflexivity.
    + split; [intros; discriminate|]. intros _.
      unfold validate_secret.
      destruct (Nat.ltb MAX_PASSWORD_SIZE (py_len p)); cbn [bind]; [eexists; reflexivity|].
      destruct (bcrypt_from_string_raises _ _ Hf) as [m ->]. eexists; reflexivity.
  - split.
    + intros ident rounds salt chk Heq.
      destruct (bcrypt_from_string (codes h)) as [r|x] eqn:Hf; [|discriminate].
      exfalso. exact (bcrypt_from_string_ident _ _ Hf Hid).
    + intros _. eexists; reflexivity.
Qed.

(** C2 (amended): when the email has no row, and when it has a row whose hash
    the password fails to match ([verify] returns [false]), [login] raises the
    same [ValidationError] and the boundary answers the same 401 with the same
    detail.  When [verify] raises instead, the existing email is answered 500
    (the unknown one still 401); it does for every password with a NUL
    character or longer than 4096 bytes in UTF-8. *)
Theorem login_hides_email_existence :
  forall (digest : string -> string -> string) (e : env) (db : Session)
         (unknown known : UserLogin) (u : User),
    query_by_email db (login_email unknown) = None ->
    query_by_email db (login_email known) = Some u ->
    (JWTHandler.verify_password digest (login_password known) (password_hash u) = Ret false ->
     AuthService.login digest e db unknown =
       Raise (ValidationError AuthService.INVALID_CREDENTIALS) /\
     AuthService.login digest e db known =
       Raise (ValidationError AuthService.INVALID_CREDENTIALS) /\
     AuthRoutes.login digest e db unknown =
       Raise (HTTPException 401 AuthService.INVALID_CREDENTIALS) /\
     AuthRoutes.login digest e db known =
       Raise (HTTPException 401 AuthService.INVALID_CREDENTIALS)) /\
    (forall m,
     JWTHandler.verify_password digest (login_password known) (password_hash u) =
       Raise (ValueError m) ->
     AuthService.login digest e db known = Raise (ValueError m) /\
     response_status (AuthRoutes.login digest e db known) = 500 /\
     AuthRoutes.login digest e db unknown =
       Raise (HTTPException 401 AuthService.INVALID_CREDENTIALS)) /\
    (contains_nul (login_password known) = true \/
     (MAX_PASSWORD_SIZE < String.length (login_password known))%nat ->
     exists m, JWTHandler.verify_password digest (login_password known) (password_hash u) =
       Raise (ValueError m)).
Proof.
  intros digest e db unknown known u Hunk Hkn.
  destruct (login_unknown_email digest e db unknown Hunk) as [H1 H3].
  split; [|split].
  - intros Hver.
    assert (H2 : AuthService.login digest e db known =
                   Raise (ValidationError AuthService.INVALID_CREDENTIALS))
      by (unfold AuthService.login; rewrite Hkn, Hver; reflexivity).
    split; [exact H1|]. split; [exact H2|]. split; [exact H3|].
    unfold AuthRoutes.login. rewrite H2. reflexivity.
  - intros m Hver.
    assert (H2 : AuthService.login digest e db known = Raise (ValueError m))
      by (unfold AuthService.login; rewrite Hkn, Hver; reflexivity).
    split; [exact H2|]. split; [|exact H3].
    unfold AuthRoutes.login. rewrite H2. reflexivity.
  - intros Hbad. unfold JWTHandler.verify_password.
    apply (proj2 (passlib_verify_cases digest (login_password known) (password_hash u))).
    right. exact Hbad.
Qed.

Lemma login_hides_email_existence_witness :
  AuthRoutes.login sample_digest issue_env db_alice_active
    (mkUserLogin "alice@example.com" "wrong-password") =
    Raise (HTTPException 401 AuthService.INVALID_CREDENTIALS) /\
  AuthRoutes.login sample_digest issue_env db_alice_active
    (mkUserLogin "bob@example.com" pw_oversize) =
    Raise (HTTPException 401 AuthService.INVALID_CREDENTIALS) /\
  (exists m, AuthService.login sample_digest issue_env db_alice_active
     (mkUserLogin "alice@example.com" pw_oversize) = Raise (ValueError m) /\
   response_status (AuthRoutes.login sample_digest issue_env db_alice_active
     (mkUserLogin "alice@example.com" pw_oversize)) = 500).
Proof.
  destruct (login_hides_email_existence sample_digest issue_env db_alice_active
              (mkUserLogin "bob@example.com" "wrong-password")
              (mkUserLogin "alice@example.com" "wrong-password") alice_active
              eq_refl eq_refl) as [Hwrong _].
  destruct (login_hides_email_existence sample_digest issue_env db_alice_active
              (mkUserLogin "bob@example.com" pw_oversize)
              (mkUserLogin "alice@example.com" pw_oversize) alice_active
              eq_refl eq_refl) as [_ [Hraise Hbig]].
  destruct Hbig as [m Hm].
  { right. apply Nat.ltb_lt. vm_compute. reflexivity. }
  destruct (Hraise m Hm) as [Hs [H500 H401]].
  split; [apply (proj2 (proj2 (proj2 (Hwrong ltac:(vm_compute; reflexivity)))))|].
  split; [exact H401|]. exists m. split; [exact Hs|exact H500].
Defined.

(** C2 fails as stated: with the password ["ab\u0000cd"] (valid for
    [UserLogin]) login on an existing email raises passlib's [ValueError],
    which the route answers with 500, while the unknown email gets 401. *)
Lemma login_nul_password_reveals_email :
  AuthService.login sample_digest issue_env db_alice_active
    (mkUserLogin "alice@example.com" pw_with_nul) =
    Raise (ValueError "bcrypt does not allow NULL bytes in password") /\
  response_status (AuthRoutes.login sample_digest issue_env db_alice_active
    (mkUserLogin "alice@example.com" pw_with_nul)) = 500 /\
  response_status (AuthRoutes.login sample_digest issue_env db_alice_active
    (mkUserLogin "bob@example.com" pw_with_nul)) = 401.
Proof. vm_compute. repeat split. Qed.

(** C3 (amended): a request whose token decodes to the id of an existing but
    inactive user is stopped at the authentication gate: [resolve] raises
    "Compte désactivé", which [get_current_user] turns into a 401; the 400
    branch of [get_current_active_user], the role gate and the handler never
    run. *)
Theorem inactive_user_rejected_at_authentication :
  forall (R : Type) (role_gate : User -> result User) (handler : User -> result R)
         (e : env) (db : Session) (tok : token) (c : claims) (u : User),
    JWTHandler.decode_token e tok = Ret (Some c) ->
    query_by_id db (c_user_id c) = Ret (Some u) ->
    is_active u = false ->
    Dependencies.run_endpoint role_gate handler e db (Bearer tok) =
      ([Authenticate], Raise (HTTPException 401 AuthService.ACCOUNT_DISABLED)).
Proof.
  intros R role_gate handler e db tok c u Hdec Hq Hoff.
  pose proof (get_current_user_decoded e db tok c Hdec) as Hr.
  rewrite Hq, Hoff in Hr.
  unfold Dependencies.run_endpoint, Dependencies.run_role_gate,
    Dependencies.run_get_current_active_user, Dependencies.run_get_current_user,
    Dependencies.get_current_user.
  cbn [Dependencies.security bind]. rewrite Hr. reflexivity.
Qed.

Lemma inactive_user_rejected_at_authentication_witness :
  is_active alice_disabled = false /\
  Dependencies.run_endpoint Dependencies.require_user_or_admin ok_handler issue_env
    db_alice_disabled (Bearer alice_token) =
    ([Authenticate], Raise (HTTPException 401 AuthService.ACCOUNT_DISABLED)).
Proof.
  split; [reflexivity|].
  apply (inactive_user_rejected_at_authentication unit Dependencies.require_user_or_admin
           ok_handler issue_env db_alice_disabled alice_token
           (mkClaims (JInt 1) (JStr "alice@example.com") (JStr "user")) alice_disabled);
    vm_compute; reflexivity.
Defined.

(** C3 fails as stated: the disabled account is answered with 401, not 400. *)
Lemma inactive_user_gets_401_not_400 :
  response_status (snd (Dependencies.run_endpoint Dependencies.require_user_or_admin
    ok_handler issue_env db_alice_disabled (Bearer alice_token))) = 401 /\
  Z.eqb (response_status (snd (Dependencies.run_endpoint Dependencies.require_user_or_admin
    ok_handler issue_env db_alice_disabled (Bearer alice_token)))) 400 = false.
Proof. vm_compute. split; reflexivity. Qed.

(** C4 (amended): on a host whose local time is UTC, with the fixed secret and
    the clock at [t0] (microseconds) for issuance, [decode(encode(uid, email,
    role))] at time [T] returns the three identity fields exactly when [T] is
    at most [t0] truncated to whole seconds plus 30 minutes, and [None] at any
    later [T]. *)
Theorem token_roundtrip_on_utc_host :
  forall t0 T uid em rl,
    0 <= t0 -> timegm t0 + 1800 <= DATETIME_MAX_TS ->
    exists tok,
      JWTHandler.create_access_token (mkEnv t0 0) uid em rl = Ret tok /\
      JWTHandler.decode_token (mkEnv T 0) tok =
        Ret (if T <=? (timegm t0 + 1800) * USEC
             then Some (mkClaims (JInt uid) (JStr em) (JStr rl)) else None).
Proof.
  intros t0 T uid em rl H0 Hmax.
  eexists. split; [apply create_access_token_issues; assumption|].
  cbn [utcnow mkEnv].
  pose proof (timegm_nonneg t0 H0).
  destruct (Z.leb_spec T ((timegm t0 + 1800) * USEC)) as [HT|HT].
  - apply decode_issued_token_valid; cbn [utcnow tz_offset mkEnv]; lia.
  - rewrite decode_issued_token. cbn [utcnow tz_offset mkEnv].
    pose proof (timegm_bounds T).
    destruct (Z.ltb_spec (timegm t0 + 1800) (timegm T)) as [Hexp|Hexp]; [reflexivity|].
    replace (timegm t0 + 1800 =? 0) with false by (symmetry; apply Z.eqb_neq; lia).
    rewrite DATETIME_MAX_TS_eq in Hmax.
    rewrite fromtimestamp_int
      by (rewrite ?DATETIME_MIN_TS_eq, ?DATETIME_MAX_TS_eq; unfold TIME_T_MIN, TIME_T_MAX; lia).
    replace ((timegm t0 + 1800 + 0) * USEC <? T) with true
      by (symmetry; apply Z.ltb_lt; lia).
    reflexivity.
Qed.

Lemma token_roundtrip_on_utc_host_witness :
  exists tok,
    JWTHandler.create_access_token issue_env 7 "a@b.com" "admin" = Ret tok /\
    JWTHandler.decode_token (mkEnv 1700001000000000 0) tok =
      Ret (Some (mkClaims (JInt 7) (JStr "a@b.com") (JStr "admin"))).
Proof.
  destruct (token_roundtrip_on_utc_host 1700000000000000 1700001000000000 7 "a@b.com" "admin")
    as [tok [Hc Hd]]; [lia | rewrite DATETIME_MAX_TS_eq; vm_compute; congruence |].
  exists tok. split; [exact Hc|]. rewrite Hd. vm_compute. reflexivity.
Defined.

(** C4 fails as stated: issued at 1700000000.5 s, decoded at 1700001800.3 s
    (within 30 minutes of issuance), the token is already refused: [exp] holds
    whole seconds. *)
Lemma roundtrip_refused_within_30_minutes :
  (tok <- JWTHandler.create_access_token (mkEnv 1700000000500000 0) 7 "a@b.com" "admin" ;;
   JWTHandler.decode_token (mkEnv 1700001800300000 0) tok) = Ret None /\
  Z.leb 1700001800300000 (1700000000500000 + 30 * 60 * USEC) = true.
Proof. vm_compute. split; reflexivity. Qed.






(** On a host one hour east of UTC, the token alice received, decoded half a
    second after its expiry second, is still accepted: [fromtimestamp(exp)] is
    local time, compared with [utcnow()], and jose only sees whole seconds. *)
Lemma expired_token_accepted_east_of_utc :
  JWTHandler.decode_token (mkEnv 1700001800500000 3600) alice_token =
    Ret (Some (mkClaims (JInt 1) (JStr "alice@example.com") (JStr "user"))) /\
  Z.ltb (1700001800 * USEC) 1700001800500000 = true.
Proof. vm_compute. split; reflexivity. Qed.

(** On a host five hours west of UTC, the token is refused the moment it is
    issued. *)
Lemma fresh_token_refused_west_of_utc :
  JWTHandler.decode_token (mkEnv 1700000000000000 (-18000)) alice_token = Ret None.
Proof. vm_compute. reflexivity. Qed.

(** C6 (amended): [verify] returns a boolean when the hash is one passlib
    parses as a bcrypt hash with a checksum (which it returns with its padding
    bits cleared) and the plaintext has no NUL character and at most 4096
    bytes: [true] exactly when bcrypt's checksum of the plaintext (for a
    [$2$] hash, of the plaintext repeated to 72 bytes, under [$2a$]) under the
    hash's config equals that checksum.  Otherwise it raises [ValueError]. *)
Theorem verify_password_bool_or_value_error :
  forall (digest : string -> string -> string) (p h : string),
    (forall ident rounds salt chk,
       parse_bcrypt h = Some (ident, rounds, salt, chk) ->
       contains_nul p = false -> (String.length p <= MAX_PASSWORD_SIZE)%nat ->
       JWTHandler.verify_password digest p h =
         Ret (let '(s', i') := digest_variant p ident in
              String.eqb (digest s' (bcrypt_config i' rounds salt)) chk)) /\
    (parse_bcrypt h = None \/ contains_nul p = true \/
     (MAX_PASSWORD_SIZE < String.length p)%nat ->
       exists m, JWTHandler.verify_password digest p h = Raise (ValueError m)).
Proof. intros digest p h. exact (passlib_verify_cases digest p h). Qed.

Lemma verify_password_bool_or_value_error_witness :
  parse_bcrypt alice_hash_unclean =
    Some ("$2b$", 12, "abcdefghijklmnopqrstuO", "abcdefghijklmnopqrstuvwxyzABCDG") /\
  JWTHandler.verify_password sample_digest "pw1234" alice_hash_unclean = Ret true /\
  JWTHandler.verify_password sample_digest "pw12345" alice_hash_unclean = Ret false.
Proof.
  assert (Hp : parse_bcrypt alice_hash_unclean =
    Some ("$2b$", 12, "abcdefghijklmnopqrstuO", "abcdefghijklmnopqrstuvwxyzABCDG"))
    by (vm_compute; reflexivity).
  split; [exact Hp|]. split.
  - rewrite (proj1 (verify_password_bool_or_value_error sample_digest "pw1234"
                      alice_hash_unclean) _ _ _ _ Hp eq_refl ltac:(vm_compute; lia)).
    vm_compute. reflexivity.
  - rewrite (proj1 (verify_password_bool_or_value_error sample_digest "pw12345"
                      alice_hash_unclean) _ _ _ _ Hp eq_refl ltac:(vm_compute; lia)).
    vm_compute. reflexivity.
Defined.

(** C6 fails as stated: on a string that is not a bcrypt hash, [verify]
    raises instead of returning [false]. *)
Lemma verify_password_raises_on_malformed_hash :
  JWTHandler.verify_password sample_digest "pw1234" "not-a-hash" =
    Raise (ValueError "hash could not be identified").
Proof. vm_compute. reflexivity. Qed.

Lemma find_none_existsb : forall (A : Type) (f : A -> bool) (l : list A),
  find f l = None -> existsb f l = false.
Proof.
  intros A f l. induction l as [|a l IH]; intros H; cbn in *; [reflexivity|].
  destruct (f a); [discriminate|]. exact (IH H).
Qed.

Lemma find_app_single : forall (A : Type) (f : A -> bool) (l : list A) (x : A),
  find f (l ++ [x])%list =
    match find f l with
    | Some y => Some y
    | None => if f x then Some x else None
    end.
Proof.
  intros A f l x. induction l as [|a l IH]; cbn; [reflexivity|].
  destruct (f a); [reflexivity|exact IH].
Qed.

Lemma find_next_id_none : forall db,
  session_wf db -> find (fun u => Z.eqb (id u) (next_id db)) (users db) = None.
Proof.
  intros db Hwf. unfold session_wf in Hwf.
  induction Hwf as [|u l Hu Hl IH]; cbn; [reflexivity|].
  replace (Z.eqb (id u) (next_id db)) with false by (symmetry; apply Z.eqb_neq; lia).
  exact IH.
Qed.

(** The table after drawing an id. *)
Lemma insert_user_fresh : forall db em h act r,
  session_wf db -> next_id db <= INT4_MAX -> query_by_email db em = None ->
  insert_user db em h act r =
    (add_user {| users := users db; next_id := next_id db + 1; server := server db |}
       {| id := next_id db; email := em; password_hash := h; is_active := act; role := r |},
     Ret {| id := next_id db; email := em; password_hash := h; is_active := act; role := r |}).
Proof.
  intros db em h act r Hwf Hmax Hq. unfold insert_user.
  replace (INT4_MAX <? next_id db) with false by (symmetry; apply Z.ltb_ge; lia).
  rewrite (find_none_existsb _ _ _ (find_next_id_none db Hwf)).
  unfold query_by_email in Hq. rewrite (find_none_existsb _ _ _ Hq).
  reflexivity.
Qed.

(** What a successful insert did. *)
Lemma insert_user_ok_inv : forall db em h act r db' u,
  insert_user db em h act r = (db', Ret u) ->
  next_id db <= INT4_MAX /\
  existsb (fun v => Z.eqb (id v) (next_id db)) (users db) = false /\
  existsb (fun v => String.eqb (email v) em) (users db) = false /\
  u = {| id := next_id db; email := em; password_hash := h; is_active := act; role := r |} /\
  db' = add_user {| users := users db; next_id := next_id db + 1; server := server db |} u.
Proof.
  intros db em h act r db' u H. unfold insert_user in H.
  destruct (Z.ltb_spec INT4_MAX (next_id db)); [discriminate|].
  destruct (existsb _ (users db)) eqn:Hid; [discriminate|].
  destruct (existsb (fun v => String.eqb (email v) em) (users db)) eqn:Hem; [discriminate|].
  injection H as <- <-. auto 6.
Qed.

(** What a successful [create_user] did. *)
Lemma create_user_inv :
  forall (digest : string -> string -> string) (salt : string) (db db' : Session)
         (d : UserCreate) (u : User),
    AuthService.create_user digest salt db d = Ret (db', u) ->
    query_by_email db (create_email d) = None /\
    existsb (String.eqb (create_role d)) ["user"; "admin"] = true /\
    JWTHandler.hash_password digest salt (create_password d) = Ret (password_hash u) /\
    insert_user db (create_email d) (password_hash u) true (create_role d) = (db', Ret u).
Proof.
  intros digest salt db db' d u H.
  unfold AuthService.create_user in H.
  destruct (query_by_email db (create_email d)) eqn:Hq; [discriminate|].
  destruct (existsb (String.eqb (create_role d)) ["user"; "admin"]) eqn:Hr;
    cbn [negb] in H; [|discriminate].
  destruct (JWTHandler.hash_password digest salt (create_password d)) as [h|x] eqn:Hh;
    cbn [bind] in H; [|discriminate].
  destruct (insert_user db (create_email d) h true (create_role d)) as [db1 [v|x]] eqn:Hi;
    [|discriminate].
  injection H as <- <-.
  destruct (insert_user_ok_inv _ _ _ _ _ _ _ Hi) as (_ & _ & _ & Hv & _).
  rewrite Hv in Hi |- *. cbn [password_hash]. auto.
Qed.

(** A password passlib refuses makes [create_user] raise [ValueError]. *)
Lemma passlib_hash_refuses : forall digest salt s,
  contains_nul s = true \/ (MAX_PASSWORD_SIZE < String.length s)%nat ->
  exists m, passlib_hash digest salt s = Raise (ValueError m).
Proof.
  intros digest salt s H. unfold passlib_hash, validate_secret.
  destruct (Nat.ltb MAX_PASSWORD_SIZE (py_len s)); cbn [bind]; [eexists; reflexivity|].
  destruct (calc_checksum_refuses digest "$2b$" 12
              (string_of_codes (check_repair_unused (codes salt))) s H) as [m ->].
  eexists; reflexivity.
Qed.

(** C7 (amended): for an email with no row in a well-formed store whose id
    sequence is not exhausted, and a password with no NUL character and at
    most 4096 bytes in UTF-8, [register] with the default role stores an
    active user; [login] with the same credentials succeeds and returns a
    token; and on a host whose local time is UTC or ahead of it, [resolve] of
    that token returns that user, with the registered email and role
    ["user"], as long as jose's and [decode_token]'s reads of the clock are at
    most the first clock read of the login (whole seconds) plus 30 minutes.
    Every password with a NUL character or more than 4096 bytes makes
    [register] raise [ValueError], which the route answers with 500. *)
Theorem register_login_resolve :
  forall (digest : string -> string -> string) (salt : string) (db : Session)
         (em pw : string) (e e' : env),
    (forall s c, clean_checksum (digest s c) = true) ->
    String.length salt = 22%nat -> bcrypt64_str salt = true ->
    session_wf db -> next_id db <= INT4_MAX -> query_by_email db em = None ->
    (contains_nul pw = false -> (String.length pw <= MAX_PASSWORD_SIZE)%nat ->
     0 <= utcnow e IssueExp -> 0 <= tz_offset e' ->
     timegm (utcnow e IssueExp) + 1800 + tz_offset e' <= DATETIME_MAX_TS ->
     utcnow e' JoseExp <= (timegm (utcnow e IssueExp) + 1800) * USEC ->
     utcnow e' DecodeExp <= (timegm (utcnow e IssueExp) + 1800) * USEC ->
     exists db' u tok,
       AuthService.create_user digest salt db (user_create_default em pw) = Ret (db', u) /\
       is_active u = true /\
       AuthService.login digest e db' (mkUserLogin em pw) = Ret (tok, u) /\
       AuthService.get_current_user e' db' tok = Ret u /\
       email u = em /\ role u = "user") /\
    (forall pw', contains_nul pw' = true \/ (MAX_PASSWORD_SIZE < String.length pw')%nat ->
     exists m,
       AuthService.create_user digest salt db (user_create_default em pw') =
         Raise (ValueError m) /\
       response_status (AuthRoutes.register digest salt db (user_create_default em pw')) = 500).
Proof.
  intros digest salt db em pw e e' Hdig Hsl Hsb Hwf Hmax Hnew.
  split.
  - intros Hnul Hsize H0 Htz Hrange Hj Hd.
    destruct (passlib_hash_own digest salt pw Hdig Hsl Hsb Hnul Hsize) as [Hhash [_ Hver]].
    set (salt' := string_of_codes (check_repair_unused (codes salt))) in *.
    set (h := ("$2b$12$" ++ salt' ++ digest pw ("$2b$12$" ++ salt'))%string) in *.
    set (u := {| id := next_id db; email := em; password_hash := h;
                 is_active := true; role := "user" |}).
    set (db1 := {| users := users db; next_id := next_id db + 1; server := server db |}).
    pose proof (timegm_nonneg _ H0) as Ht0.
    exists (add_user db1 u), u.
    eexists.
    assert (Hcreate : AuthService.create_user digest salt db (user_create_default em pw) =
                      Ret (add_user db1 u, u)).
    { unfold AuthService.create_user. cbn [create_email create_role create_password
        user_create_default]. rewrite Hnew. cbn [existsb String.eqb negb orb].
      unfold JWTHandler.hash_password. rewrite Hhash. cbn [bind].
      rewrite insert_user_fresh by assumption. reflexivity. }
    assert (Hq : query_by_email (add_user db1 u) em = Some u).
    { unfold query_by_email, add_user. cbn [users db1].
      rewrite find_app_single. fold (query_by_email db em). rewrite Hnew.
      cbn [u email]. rewrite String.eqb_refl. reflexivity. }
    split; [exact Hcreate|]. split; [reflexivity|]. split.
    + unfold AuthService.login. cbn [login_email login_password]. rewrite Hq.
      unfold JWTHandler.verify_password. cbn [password_hash u]. rewrite Hver.
      cbn [bind negb is_active u].
      rewrite create_access_token_issues by lia. reflexivity.
    + split; [|split; reflexivity].
      rewrite (get_current_user_decoded _ _ _ (mkClaims (JInt (next_id db)) (JStr em) (JStr "user"))).
      * cbn [c_user_id query_by_id]. unfold find_by_id, add_user. cbn [users db1].
        rewrite find_app_single, find_next_id_none by exact Hwf.
        cbn [u id]. rewrite Z.eqb_refl. reflexivity.
      * apply decode_issued_token_valid; lia.
  - intros pw' Hbad.
    destruct (passlib_hash_refuses digest salt pw' Hbad) as [m Hm].
    assert (Hc : AuthService.create_user digest salt db (user_create_default em pw') =
                 Raise (ValueError m)).
    { unfold AuthService.create_user. cbn [create_email create_role create_password
        user_create_default]. rewrite Hnew. cbn [existsb String.eqb negb orb].
      unfold JWTHandler.hash_password. rewrite Hm. reflexivity. }
    exists m. split; [exact Hc|]. unfold AuthRoutes.register. rewrite Hc. reflexivity.
Qed.

Lemma register_login_resolve_witness :
  (exists db' u tok,
    AuthService.create_user sample_digest sample_salt (empty_session Postgres16)
      (user_create_default "carol@example.com" "pw1234") = Ret (db', u) /\
    is_active u = true /\
    AuthService.login sample_digest issue_env db' (mkUserLogin "carol@example.com" "pw1234") =
      Ret (tok, u) /\
    AuthService.get_current_user (mkEnv 1700000600000000 0) db' tok = Ret u /\
    email u = "carol@example.com" /\ role u = "user") /\
  (exists m,
    AuthService.create_user sample_digest sample_salt (empty_session Postgres16)
      (user_create_default "carol@example.com" pw_oversize) = Raise (ValueError m) /\
    response_status (AuthRoutes.register sample_digest sample_salt (empty_session Postgres16)
      (user_create_default "carol@example.com" pw_oversize)) = 500).
Proof.
  assert (Hdig : forall s c, clean_checksum (sample_digest s c) = true).
  { intros s c. unfold sample_digest. destruct (String.eqb s "pw1234"); vm_compute; reflexivity. }
  destruct (register_login_resolve sample_digest sample_salt (empty_session Postgres16)
              "carol@example.com" "pw1234" issue_env (mkEnv 1700000600000000 0)
              Hdig eq_refl eq_refl (Forall_nil _) ltac:(unfold INT4_MAX; cbn; lia) eq_refl)
    as [Hok Hbad].
  split.
  - apply Hok; cbn [utcnow tz_offset issue_env mkEnv];
      first [reflexivity | apply Nat.leb_le; reflexivity | lia
            | rewrite DATETIME_MAX_TS_eq; vm_compute; congruence
            | vm_compute; congruence].
  - apply Hbad. right. apply Nat.ltb_lt. vm_compute. reflexivity.
Defined.

(** C7 fails as stated: ["ab\u0000cd"] passes [UserCreate]'s [min_length=4],
    but passlib refuses NUL bytes, so [register] raises and the route answers
    500. *)
Lemma register_nul_password_fails :
  String.length pw_with_nul = 5%nat /\
  AuthService.create_user sample_digest sample_salt (empty_session Postgres16)
    (user_create_default "carol@example.com" pw_with_nul) =
    Raise (ValueError "bcrypt does not allow NULL bytes in password") /\
  response_status (AuthRoutes.register sample_digest sample_salt (empty_session Postgres16)
    (user_create_default "carol@example.com" pw_with_nul)) = 500.
Proof. vm_compute. repeat split. Qed.

(** C8: the chain of a guarded route, for any role gate and handler.  The
    trace lists the gates that ran: each one runs only when every earlier one
    returned a user, and the first exception ends the request. *)
Theorem gate_chain_short_circuits :
  forall (R : Type) (role_gate : User -> result User) (handler : User -> result R)
         (e : env) (db : Session) (h : auth_header),
    Dependencies.run_endpoint role_gate handler e db h =
      match Dependencies.get_current_user e db h with
      | Raise x => ([Authenticate], Raise x)
      | Ret u =>
          match Dependencies.get_current_active_user u with
          | Raise x => ([Authenticate; ActiveCheck], Raise x)
          | Ret u' =>
              match role_gate u' with
              | Raise x => ([Authenticate; ActiveCheck; RoleCheck], Raise x)
              | Ret u'' => ([Authenticate; ActiveCheck; RoleCheck; Handler], handler u'')
              end
          end
      end.
Proof.
  intros R role_gate handler e db h.
  unfold Dependencies.run_endpoint, Dependencies.run_role_gate,
    Dependencies.run_get_current_active_user, Dependencies.run_get_current_user, enter.
  destruct (Dependencies.get_current_user e db h) as [u|x]; cbn; [|reflexivity].
  destruct (Dependencies.get_current_active_user u) as [u'|x]; cbn; [|reflexivity].
  destruct (role_gate u') as [u''|x]; reflexivity.
Qed.

Lemma dict_get_del_other_acc : forall (k k' : string) (p : payload) (acc : option json),
  k' <> k ->
  fold_left (fun acc kv => if String.eqb (fst kv) k' then Some (snd kv) else acc)
    (dict_del k p) acc =
  fold_left (fun acc kv => if String.eqb (fst kv) k' then Some (snd kv) else acc) p acc.
Proof.
  intros k k' p. induction p as [|[a v] p IH]; intros acc Hne; cbn; [reflexivity|].
  destruct (String.eqb a k) eqn:Hak; cbn.
  - apply String.eqb_eq in Hak. subst a.
    replace (String.eqb k k') with false by (symmetry; apply String.eqb_neq; congruence).
    apply IH; exact Hne.
  - apply IH; exact Hne.
Qed.

Lemma dict_get_del_other : forall (k k' : string) (p : payload),
  k' <> k -> dict_get k' (dict_del k p) = dict_get k' p.
Proof. intros k k' p Hne. apply dict_get_del_other_acc; exact Hne. Qed.

Lemma dict_get_del_same_acc : forall (k : string) (p : payload) (acc : option json),
  fold_left (fun acc kv => if String.eqb (fst kv) k then Some (snd kv) else acc)
    (dict_del k p) acc = acc.
Proof.
  intros k p. induction p as [|[a v] p IH]; intros acc; cbn; [reflexivity|].
  destruct (String.eqb a k) eqn:Hak; cbn; [apply IH|].
  rewrite Hak. apply IH.
Qed.

Lemma dict_get_del_same : forall (k : string) (p : payload),
  dict_get k (dict_del k p) = None.
Proof. intros k p. apply dict_get_del_same_acc. Qed.

Lemma validate_claims_del_user_id : forall clock (p : payload),
  Jose.validate_claims clock (dict_del "user_id" p) = Jose.validate_claims clock p.
Proof.
  intros clock p.
  unfold Jose.validate_claims, Jose.validate_iat, Jose.validate_nbf, Jose.validate_exp,
    Jose.validate_aud, Jose.validate_string_claim, Jose.validate_at_hash.
  rewrite !dict_get_del_other by discriminate.
  reflexivity.
Qed.

Lemma py_get_del_other : forall (k k' : string) (p : payload),
  k' <> k -> py_get k' (dict_del k p) = py_get k' p.
Proof. intros k k' p Hne. unfold py_get. rewrite dict_get_del_other by exact Hne. reflexivity. Qed.

(** Removing [user_id] from a signed payload changes nothing in
    [decode_token] but the [user_id] it reports. *)
Lemma decode_token_del_user_id : forall (e : env) (alg k : string) (p : payload),
  JWTHandler.decode_token e (Signed alg (dict_del "user_id" p) k) =
    match JWTHandler.decode_token e (Signed alg p k) with
    | Ret (Some c) => Ret (Some (mkClaims JNull (c_email c) (c_role c)))
    | r => r
    end.
Proof.
  intros e alg k p.
  unfold JWTHandler.decode_token, Jose.decode.
  rewrite validate_claims_del_user_id.
  destruct (negb (existsb (String.eqb alg) [JWTHandler.ALGORITHM])); [reflexivity|].
  destruct (negb (String.eqb k JWTHandler.SECRET_KEY)); [reflexivity|].
  destruct (Jose.validate_claims (utcnow e) p) as [[]|x]; cbn [bind].
  - rewrite (py_get_del_other "user_id" "exp"), (py_get_del_other "user_id" "email"),
      (py_get_del_other "user_id" "role") by discriminate.
    replace (py_get "user_id" (dict_del "user_id" p)) with JNull
      by (unfold py_get; rewrite dict_get_del_same; reflexivity).
    destruct (py_truthy (py_get "exp" p)); [|reflexivity].
    destruct (fromtimestamp (tz_offset e) (py_get "exp" p)) as [l|x]; cbn [bind]; [|reflexivity].
    destruct (l <? utcnow e DecodeExp); reflexivity.
  - destruct x; reflexivity.
Qed.

Lemma decode_token_claims_shape : forall (e : env) (alg k : string) (p : payload) (c : claims),
  JWTHandler.decode_token e (Signed alg p k) = Ret (Some c) ->
  c = mkClaims (py_get "user_id" p) (py_get "email" p) (py_get "role" p).
Proof.
  intros e alg k p c H.
  unfold JWTHandler.decode_token, Jose.decode in H.
  destruct (negb (existsb (String.eqb alg) [JWTHandler.ALGORITHM])); [discriminate|].
  destruct (negb (String.eqb k JWTHandler.SECRET_KEY)); [discriminate|].
  destruct (Jose.validate_claims (utcnow e) p) as [[]|x]; cbn [bind] in H.
  - destruct (py_truthy (py_get "exp" p)); [|congruence].
    destruct (fromtimestamp (tz_offset e) (py_get "exp" p)) as [l|x]; cbn [bind] in H;
      [|discriminate].
    destruct (l <? utcnow e DecodeExp); congruence.
  - destruct x; discriminate.
Qed.

(** jose's checks after [exp] refuse an [aud] or an [at_hash] claim. *)
Lemma validate_claims_aud_at_hash : forall clock p,
  Jose.validate_iat p = Ret tt -> Jose.validate_nbf clock p = Ret tt ->
  Jose.validate_exp clock p = Ret tt ->
  dict_get "aud" p <> None \/ dict_get "at_hash" p <> None ->
  exists m, Jose.validate_claims clock p = Raise (JWTError m).
Proof.
  intros clock p Hi Hn He Hah. unfold Jose.validate_claims.
  rewrite Hi, Hn, He. cbn [bind].
  unfold Jose.validate_aud.
  destruct (dict_get "aud" p) as [a|] eqn:Ha; [eexists; reflexivity|].
  destruct Hah as [Hah|Hah]; [congruence|]. cbn [bind].
  unfold Jose.validate_string_claim.
  destruct (dict_get "sub" p) as [[]|]; cbn [bind]; try (eexists; reflexivity);
  destruct (dict_get "jti" p) as [[]|]; cbn [bind]; try (eexists; reflexivity);
  unfold Jose.validate_at_hash;
  destruct (dict_get "at_hash" p); try congruence; eexists; reflexivity.
Qed.

(** C9 (amended): whenever [decode] accepts a signed token, the claim set is
    exactly [user_id], [email] and [role] read with [payload.get] from the
    payload (null when absent); the same payload without [user_id] is accepted
    too, with a null [user_id], and [resolve] then fails with the user-not-found
    error, for every store.  A token signed with the secret that passes jose's
    [iat], [nbf] and [exp] checks (in particular an unexpired one) is still
    refused, [decode] returning [None], when it carries an [aud] or an
    [at_hash] claim. *)
Theorem decode_keeps_identity_claims_only :
  (forall (e : env) (alg k : string) (p : payload) (c : claims) (db : Session),
    JWTHandler.decode_token e (Signed alg p k) = Ret (Some c) ->
    c = mkClaims (py_get "user_id" p) (py_get "email" p) (py_get "role" p) /\
    JWTHandler.decode_token e (Signed alg (dict_del "user_id" p) k) =
      Ret (Some (mkClaims JNull (py_get "email" p) (py_get "role" p))) /\
    AuthService.get_current_user e db (Signed alg (dict_del "user_id" p) k) =
      Raise (ValidationError AuthService.USER_NOT_FOUND)) /\
  (forall (e : env) (p : payload),
    Jose.validate_iat p = Ret tt -> Jose.validate_nbf (utcnow e) p = Ret tt ->
    Jose.validate_exp (utcnow e) p = Ret tt ->
    dict_get "aud" p <> None \/ dict_get "at_hash" p <> None ->
    JWTHandler.decode_token e
      (Jose.encode p JWTHandler.SECRET_KEY JWTHandler.ALGORITHM) = Ret None).
Proof.
  split.
  - intros e alg k p c db H.
    pose proof (decode_token_claims_shape e alg k p c H) as Hc.
    assert (Hdel : JWTHandler.decode_token e (Signed alg (dict_del "user_id" p) k) =
                   Ret (Some (mkClaims JNull (py_get "email" p) (py_get "role" p)))).
    { rewrite decode_token_del_user_id, H, Hc. reflexivity. }
    split; [exact Hc|]. split; [exact Hdel|].
    rewrite (get_current_user_decoded _ _ _ _ Hdel). reflexivity.
  - intros e p Hi Hn He Hah.
    destruct (validate_claims_aud_at_hash (utcnow e) p Hi Hn He Hah) as [m Hm].
    unfold JWTHandler.decode_token, Jose.decode, Jose.encode. cbn [existsb String.eqb negb orb].
    rewrite String.eqb_refl. cbn [negb]. rewrite Hm. reflexivity.
Qed.

Lemma decode_keeps_identity_claims_only_witness :
  JWTHandler.decode_token issue_env alice_token =
    Ret (Some (mkClaims (JInt 1) (JStr "alice@example.com") (JStr "user"))) /\
  (mkClaims (JInt 1) (JStr "alice@example.com") (JStr "user") =
     mkClaims (JInt 1) (JStr "alice@example.com") (JStr "user") /\
   JWTHandler.decode_token issue_env
     (Signed "HS256"
        (dict_del "user_id"
           [("user_id", JInt 1); ("email", JStr "alice@example.com"); ("role", JStr "user");
            ("exp", JInt 1700001800); ("iat", JInt 1700000000)])
        JWTHandler.SECRET_KEY) =
     Ret (Some (mkClaims JNull (JStr "alice@example.com") (JStr "user"))) /\
   AuthService.get_current_user issue_env db_alice_active
     (Signed "HS256"
        (dict_del "user_id"
           [("user_id", JInt 1); ("email", JStr "alice@example.com"); ("role", JStr "user");
            ("exp", JInt 1700001800); ("iat", JInt 1700000000)])
        JWTHandler.SECRET_KEY) =
     Raise (ValidationError AuthService.USER_NOT_FOUND)) /\
  JWTHandler.decode_token issue_env alice_token_aud = Ret None.
Proof.
  split; [vm_compute; reflexivity|]. split.
  - apply (proj1 decode_keeps_identity_claims_only issue_env "HS256" JWTHandler.SECRET_KEY
             [("user_id", JInt 1); ("email", JStr "alice@example.com"); ("role", JStr "user");
              ("exp", JInt 1700001800); ("iat", JInt 1700000000)]
             (mkClaims (JInt 1) (JStr "alice@example.com") (JStr "user")) db_alice_active).
    vm_compute. reflexivity.
  - apply (proj2 decode_keeps_identity_claims_only issue_env
             [("user_id", JInt 1); ("email", JStr "alice@example.com"); ("role", JStr "user");
              ("exp", JInt 1700001800); ("iat", JInt 1700000000); ("aud", JStr "titanic-api")]);
      [vm_compute; reflexivity ..|].
    left. vm_compute. discriminate.
Defined.

(** C9 fails as stated: a token signed with the secret, unexpired, but
    carrying an [aud] claim is refused ([decode] returns [None]), while the
    same payload without it decodes. *)
Lemma signed_unexpired_token_with_aud_refused :
  JWTHandler.decode_token issue_env alice_token_aud = Ret None /\
  JWTHandler.decode_token issue_env alice_token =
    Ret (Some (mkClaims (JInt 1) (JStr "alice@example.com") (JStr "user"))).
Proof. vm_compute. split; reflexivity. Qed.

Lemma role_in_user_admin : forall r : string,
  existsb (String.eqb r) ["user"; "admin"] = true -> r = "user" \/ r = "admin".
Proof.
  intros r H. cbn in H.
  destruct (String.eqb r "user") eqn:Hu; [left; apply String.eqb_eq; exact Hu|].
  destruct (String.eqb r "admin") eqn:Ha; [right; apply String.eqb_eq; exact Ha|].
  discriminate.
Qed.

Lemma insert_user_roles : forall db em h act r,
  Forall (fun u => role_ok (role u)) (users db) -> role_ok r ->
  Forall (fun u => role_ok (role u)) (users (fst (insert_user db em h act r))).
Proof.
  intros db em h act r Hdb Hr. unfold insert_user.
  destruct (INT4_MAX <? next_id db); [exact Hdb|].
  destruct (existsb _ (users db)); [exact Hdb|].
  destruct (existsb _ (users db)); [exact Hdb|].
  cbn. apply Forall_app. split; [exact Hdb|]. constructor; [exact Hr|constructor].
Qed.

Lemma create_user_roles : forall digest salt db d db' u,
  AuthService.create_user digest salt db d = Ret (db', u) ->
  Forall (fun u => role_ok (role u)) (users db) ->
  Forall (fun u => role_ok (role u)) (users db').
Proof.
  intros digest salt db d db' u H Hdb.
  destruct (create_user_inv digest salt db db' d u H) as (_ & Hr & _ & Hi).
  replace db' with (fst (insert_user db (create_email d) (password_hash u) true (create_role d)))
    by (rewrite Hi; reflexivity).
  apply insert_user_roles; [exact Hdb|]. exact (role_in_user_admin _ Hr).
Qed.

Lemma commit_roles : forall pending db,
  Forall (fun '(_, _, r) => role_ok r) pending ->
  Forall (fun u => role_ok (role u)) (users db) ->
  Forall (fun u => role_ok (role u)) (users (fst (CreateUsers.commit db pending))).
Proof.
  induction pending as [|[[em h] r] pending IH]; intros db Hp Hdb; cbn [CreateUsers.commit];
    [exact Hdb|].
  inversion Hp as [|? ? Hr Hp']; subst.
  pose proof (insert_user_roles db em h true r Hdb Hr) as Hi.
  destruct (insert_user db em h true r) as [db1 [v|x]]; cbn [fst] in *.
  - apply IH; assumption.
  - exact Hi.
Qed.

Lemma stage_users_roles : forall digest salt_of db us pending,
  CreateUsers.stage_users digest salt_of db us = Ret pending ->
  Forall (fun d => role_ok (create_role d)) us ->
  Forall (fun '(_, _, r) => role_ok r) pending.
Proof.
  intros digest salt_of db us. induction us as [|d us IH]; intros pending H Hus;
    cbn [CreateUsers.stage_users] in H.
  - injection H as <-. constructor.
  - inversion Hus as [|? ? Hd Hus']; subst.
    destruct (query_by_email db (create_email d)); [exact (IH _ H Hus')|].
    destruct (JWTHandler.hash_password _ _ _) as [h|x]; cbn [bind] in H; [|discriminate].
    destruct (CreateUsers.stage_users digest salt_of db us) as [rest|x] eqn:Hs;
      cbn [bind] in H; [|discriminate].
    injection H as <-. constructor; [exact Hd|exact (IH _ eq_refl Hus')].
Qed.

Lemma default_users_roles : Forall (fun d => role_ok (create_role d)) CreateUsers.default_users.
Proof.
  repeat (apply Forall_cons; [cbn; unfold role_ok; auto|]). apply Forall_nil.
Qed.

Lemma create_default_users_roles : forall digest salt_of db,
  Forall (fun u => role_ok (role u)) (users db) ->
  Forall (fun u => role_ok (role u))
    (users (fst (CreateUsers.create_default_users digest salt_of db))).
Proof.
  intros digest salt_of db Hdb. unfold CreateUsers.create_default_users.
  destruct (CreateUsers.stage_users digest salt_of db CreateUsers.default_users)
    as [pending|x] eqn:Hs; [|exact Hdb].
  pose proof (commit_roles pending db (stage_users_roles _ _ _ _ _ Hs default_users_roles) Hdb)
    as Hc.
  destruct (CreateUsers.commit db pending) as [db' [[]|x]]; [exact Hc|exact Hdb].
Qed.

Lemma init_complete_data_roles : forall digest salt_of c t n p s db,
  Forall (fun u => role_ok (role u)) (users db) ->
  Forall (fun u => role_ok (role u))
    (users (fst (InitData.init_complete_data digest salt_of c t n p s db))).
Proof.
  intros digest salt_of c t n p s db Hdb. unfold InitData.init_complete_data.
  destruct (negb c); [exact Hdb|]. destruct (negb t); [exact Hdb|].
  destruct (CreateUsers.stage_users digest salt_of db CreateUsers.default_users)
    as [pending|x] eqn:Hs; [|exact Hdb].
  destruct (negb n); [exact Hdb|].
  pose proof (commit_roles pending db (stage_users_roles _ _ _ _ _ Hs default_users_roles) Hdb)
    as Hc.
  destruct (CreateUsers.commit db pending) as [db' [[]|x]]; [|exact Hdb].
  destruct (negb p); [exact Hdb|exact Hc].
Qed.

Lemma reachable_roles : forall digest db,
  reachable digest db -> Forall (fun u => role_ok (role u)) (users db).
Proof.
  intros digest db Hr.
  induction Hr as [srv|db salt d db' u Hr IH Hc|db Hr IH|db salt_of Hr IH
                  |db salt_of c t n p s Hr IH].
  - constructor.
  - exact (create_user_roles _ _ _ _ _ _ Hc IH).
  - exact IH.
  - exact (create_default_users_roles _ _ _ IH).
  - exact (init_complete_data_roles _ _ _ _ _ _ _ _ IH).
Qed.

Lemma resolved_user_in_store : forall (e : env) (db : Session) (h : auth_header) (u : User),
  Dependencies.get_current_user e db h = Ret u -> In u (users db).
Proof.
  intros e db h u H.
  unfold Dependencies.get_current_user in H.
  destruct (Dependencies.security (fastapi e) h) as [tok|x]; cbn [bind] in H; [|discriminate].
  destruct (AuthService.get_current_user e db tok) as [v|x] eqn:Hg.
  - injection H as ->.
    unfold AuthService.get_current_user in Hg.
    destruct (JWTHandler.decode_token e tok) as [[c|]|x]; cbn [bind] in Hg; try discriminate.
    destruct (query_by_id db (c_user_id c)) as [[w|]|x] eqn:Hq; cbn [bind] in Hg;
      try discriminate.
    destruct (negb (is_active w)); [discriminate|].
    injection Hg as <-. exact (query_by_id_in _ _ _ Hq).
  - destruct x; discriminate.
Qed.

(** C10: in every store the repository's writes produce from an empty
    database (registration, a registration whose insert fails,
    [create_users.py], [init_data.py]), each user's role is ["user"] or
    ["admin"]; so on every request whose chain reaches the role gate
    [require_user_or_admin] with a resolved active user, the gate accepts that
    user and its 403 branch never runs. *)
Theorem registered_users_pass_any_role_gate :
  forall (digest : string -> string -> string) (db : Session),
    reachable digest db ->
    Forall (fun u => role u = "user" \/ role u = "admin") (users db) /\
    (forall (e : env) (h : auth_header) (u : User),
       snd (Dependencies.run_get_current_active_user e db h) = Ret u ->
       Dependencies.run_role_gate Dependencies.require_user_or_admin e db h =
         ([Authenticate; ActiveCheck; RoleCheck], Ret u)).
Proof.
  intros digest db Hreg.
  pose proof (reachable_roles digest db Hreg) as Hroles.
  split; [exact Hroles|].
  intros e h u H.
  unfold Dependencies.run_role_gate, Dependencies.run_get_current_active_user,
    Dependencies.run_get_current_user, enter in *.
  destruct (Dependencies.get_current_user e db h) as [v|x] eqn:Hg; cbn in H |- *;
    [|discriminate].
  unfold Dependencies.get_current_active_user in *.
  destruct (negb (is_active v)); cbn in H |- *; [discriminate|].
  injection H as <-.
  pose proof (resolved_user_in_store e db h v Hg) as Hin.
  rewrite Forall_forall in Hroles.
  unfold Dependencies.require_user_or_admin.
  destruct (Hroles v Hin) as [Hr|Hr]; rewrite Hr; reflexivity.
Qed.

Lemma registered_users_pass_any_role_gate_witness :
  reachable sample_digest
    (fst (CreateUsers.create_default_users sample_digest (fun _ => sample_salt)
            (empty_session Postgres16))) /\
  map role (users (fst (CreateUsers.create_default_users sample_digest (fun _ => sample_salt)
                          (empty_session Postgres16)))) = ["admin"; "user"; "user"] /\
  Forall (fun u => role u = "user" \/ role u = "admin")
    (users (fst (CreateUsers.create_default_users sample_digest (fun _ => sample_salt)
                   (empty_session Postgres16)))) /\
  (forall (e : env) (h : auth_header) (u : User),
     snd (Dependencies.run_get_current_active_user e
            (fst (CreateUsers.create_default_users sample_digest (fun _ => sample_salt)
                    (empty_session Postgres16))) h) = Ret u ->
     Dependencies.run_role_gate Dependencies.require_user_or_admin e
       (fst (CreateUsers.create_default_users sample_digest (fun _ => sample_salt)
               (empty_session Postgres16))) h =
       ([Authenticate; ActiveCheck; RoleCheck], Ret u)).
Proof.
  assert (Hreg : reachable sample_digest
    (fst (CreateUsers.create_default_users sample_digest (fun _ => sample_salt)
            (empty_session Postgres16))))
    by (apply reachable_create_users; apply reachable_empty).
  split; [exact Hreg|]. split; [vm_compute; reflexivity|].
  exact (registered_users_pass_any_role_gate sample_digest _ Hreg).
Defined.

(* ------------------------------------------------------------------------- *)
(** * Further properties of the authentication code *)

Lemma query_by_email_none_not_in : forall (db : Session) (em : string),
  query_by_email db em = None -> ~ In em (map email (users db)).
Proof.
  intros db em Hq Hin. apply in_map_iff in Hin as [v [Hv Hin]].
  pose proof (find_none _ _ Hq v Hin) as Hf. cbn in Hf.
  rewrite Hv, String.eqb_refl in Hf. discriminate.
Qed.

Lemma NoDup_snoc : forall (A : Type) (l : list A) (x : A),
  NoDup l -> ~ In x l -> NoDup (l ++ [x])%list.
Proof.
  intros A l x Hl Hx. induction Hl as [|a l Ha Hl IH]; cbn.
  - constructor; [intros []|constructor].
  - constructor.
    + intros Hin. apply in_app_or in Hin as [Hin|[Hin|[]]]; [contradiction|].
      apply Hx. left. symmetry. exact Hin.
    + apply IH. intros Hin. apply Hx. right. exact Hin.
Qed.

(** What a successful [create_user] stored. *)
Lemma create_user_result :
  forall (digest : string -> string -> string) (salt : string) (db db' : Session)
         (d : UserCreate) (u : User),
    AuthService.create_user digest salt db d = Ret (db', u) ->
    query_by_email db (create_email d) = None /\
    u = {| id := next_id db; email := create_email d; password_hash := password_hash u;
           is_active := true; role := create_role d |} /\
    db' = add_user {| users := users db; next_id := next_id db + 1; server := server db |} u.
Proof.
  intros digest salt db db' d u H.
  destruct (create_user_inv _ _ _ _ _ _ H) as (Hq & _ & _ & Hi).
  destruct (insert_user_ok_inv _ _ _ _ _ _ _ Hi) as (_ & _ & _ & Hu & Hdb).
  split; [exact Hq|]. split; [|exact Hdb].
  rewrite Hu at 1. rewrite Hu. reflexivity.
Qed.

(** [create_user] keeps the table's keys sound: ids below the counter and
    distinct, emails distinct. *)
Lemma create_user_keeps_keys :
  forall (digest : string -> string -> string) (salt : string) (db db' : Session)
         (d : UserCreate) (u : User),
    session_wf db -> NoDup (map email (users db)) -> NoDup (map id (users db)) ->
    AuthService.create_user digest salt db d = Ret (db', u) ->
    session_wf db' /\ NoDup (map email (users db')) /\ NoDup (map id (users db')).
Proof.
  intros digest salt db db' d u Hwf Hem Hid H.
  destruct (create_user_result _ _ _ _ _ _ H) as (Hq & Hu & ->).
  unfold add_user, session_wf in *; cbn [users next_id].
  rewrite !map_app. cbn [map].
  split; [|split].
  - apply Forall_app. split.
    + eapply Forall_impl; [|exact Hwf]. intros v Hv; cbn in Hv; lia.
    + constructor; [rewrite Hu; cbn; lia|constructor].
  - apply NoDup_snoc; [exact Hem|]. rewrite Hu; cbn.
    apply query_by_email_none_not_in; exact Hq.
  - apply NoDup_snoc; [exact Hid|]. rewrite Hu; cbn.
    intros Hin. apply in_map_iff in Hin as [v [Hv Hin]].
    rewrite Forall_forall in Hwf. pose proof (Hwf v Hin). lia.
Qed.

(** Stores reached through [register] alone: every id is below the
    autoincrement counter, no two rows share an id, and no two rows share an
    email. *)
Theorem registered_store_keys :
  forall (digest : string -> string -> string) (db : Session),
    registered digest db ->
    session_wf db /\ NoDup (map email (users db)) /\ NoDup (map id (users db)).
Proof.
  intros digest db Hreg.
  induction Hreg as [srv|db salt d db' u Hreg IH Hc].
  - split; [constructor|split; constructor].
  - destruct IH as (Hwf & Hem & Hid).
    exact (create_user_keeps_keys _ _ _ _ _ _ Hwf Hem Hid Hc).
Qed.

Lemma registered_store_keys_witness :
  registered sample_digest db_alice_active /\
  (session_wf db_alice_active /\ NoDup (map email (users db_alice_active)) /\
   NoDup (map id (users db_alice_active))).
Proof.
  assert (Hreg : registered sample_digest db_alice_active).
  { apply (registered_create sample_digest (empty_session Postgres16) sample_salt
             (user_create_default "alice@example.com" "pw1234") db_alice_active alice_active).
    - apply registered_empty.
    - vm_compute. reflexivity. }
  split; [exact Hreg|].
  exact (registered_store_keys sample_digest db_alice_active Hreg).
Defined.

(** Insert then look up: after a successful [create_user] on a well-formed
    store, the new row is found by its id and by its email, and every lookup
    of another id or another email answers as before. *)
Theorem create_user_then_lookup :
  forall (digest : string -> string -> string) (salt : string) (db db' : Session)
         (d : UserCreate) (u : User),
    session_wf db ->
    AuthService.create_user digest salt db d = Ret (db', u) ->
    query_by_id db' (JInt (id u)) = Ret (Some u) /\
    query_by_email db' (email u) = Some u /\
    (forall i, i <> id u -> query_by_id db' (JInt i) = query_by_id db (JInt i)) /\
    (forall em, em <> email u -> query_by_email db' em = query_by_email db em).
Proof.
  intros digest salt db db' d u Hwf H.
  destruct (create_user_result _ _ _ _ _ _ H) as (Hq & Hu & ->).
  assert (Hid : id u = next_id db) by (rewrite Hu; reflexivity).
  assert (Hem : email u = create_email d) by (rewrite Hu; reflexivity).
  unfold query_by_id, find_by_id, query_by_email, add_user; cbn [users].
  split; [|split; [|split]].
  - rewrite find_app_single. rewrite Hid.
    rewrite find_next_id_none by exact Hwf. rewrite Z.eqb_refl. reflexivity.
  - rewrite find_app_single. rewrite Hem.
    fold (query_by_email db (create_email d)). rewrite Hq, String.eqb_refl. reflexivity.
  - intros i Hi. rewrite find_app_single.
    destruct (find (fun v => Z.eqb (id v) i) (users db)); [reflexivity|].
    replace (Z.eqb (id u) i) with false by (symmetry; apply Z.eqb_neq; congruence).
    reflexivity.
  - intros em Hne. rewrite find_app_single.
    destruct (find (fun v => String.eqb (email v) em) (users db)); [reflexivity|].
    replace (String.eqb (email u) em) with false
      by (symmetry; apply String.eqb_neq; congruence).
    reflexivity.
Qed.

Lemma create_user_then_lookup_witness :
  session_wf db_alice_active /\
  AuthService.create_user sample_digest sample_salt db_alice_active
    (user_create_default "carol@example.com" "pw1234") =
    Ret ({| users := [alice_active;
                      {| id := 2; email := "carol@example.com";
                         password_hash := alice_hash; is_active := true; role := "user" |}];
            next_id := 3; server := Postgres16 |},
         {| id := 2; email := "carol@example.com";
            password_hash := alice_hash; is_active := true; role := "user" |}) /\
  (query_by_id {| users := [alice_active;
                      {| id := 2; email := "carol@example.com";
                         password_hash := alice_hash; is_active := true; role := "user" |}];
            next_id := 3; server := Postgres16 |} (JInt 2) =
     Ret (Some {| id := 2; email := "carol@example.com";
                  password_hash := alice_hash; is_active := true; role := "user" |}) /\
   query_by_email {| users := [alice_active;
                      {| id := 2; email := "carol@example.com";
                         password_hash := alice_hash; is_active := true; role := "user" |}];
            next_id := 3; server := Postgres16 |} "carol@example.com" =
     Some {| id := 2; email := "carol@example.com";
             password_hash := alice_hash; is_active := true; role := "user" |} /\
   (forall i, i <> 2 ->
      query_by_id {| users := [alice_active;
                      {| id := 2; email := "carol@example.com";
                         password_hash := alice_hash; is_active := true; role := "user" |}];
            next_id := 3; server := Postgres16 |} (JInt i) = query_by_id db_alice_active (JInt i)) /\
   (forall em, em <> "carol@example.com" ->
      query_by_email {| users := [alice_active;
                      {| id := 2; email := "carol@example.com";
                         password_hash := alice_hash; is_active := true; role := "user" |}];
            next_id := 3; server := Postgres16 |} em = query_by_email db_alice_active em)).
Proof.
  assert (Hwf : session_wf db_alice_active)
    by (unfold session_wf; repeat constructor; cbn; lia).
  assert (Hc : AuthService.create_user sample_digest sample_salt db_alice_active
    (user_create_default "carol@example.com" "pw1234") =
    Ret ({| users := [alice_active;
                      {| id := 2; email := "carol@example.com";
                         password_hash := alice_hash; is_active := true; role := "user" |}];
            next_id := 3; server := Postgres16 |},
         {| id := 2; email := "carol@example.com";
            password_hash := alice_hash; is_active := true; role := "user" |}))
    by (vm_compute; reflexivity).
  split; [exact Hwf|]. split; [exact Hc|].
  exact (create_user_then_lookup _ _ _ _ _ _ Hwf Hc).
Defined.

(** [register] checks the email first: a taken email is answered 400 with
    "Un utilisateur avec cet email existe déjà" whatever the role and the
    password (nothing is hashed). *)
Theorem register_taken_email :
  forall (digest : string -> string -> string) (salt : string) (db : Session)
         (d : UserCreate) (v : User),
    query_by_email db (create_email d) = Some v ->
    AuthRoutes.register digest salt db d =
      Raise (HTTPException 400 AuthService.EMAIL_EXISTS).
Proof.
  intros digest salt db d v Hq.
  unfold AuthRoutes.register, AuthService.create_user. rewrite Hq. reflexivity.
Qed.

Lemma register_taken_email_witness :
  query_by_email db_alice_active
    (create_email (mkUserCreate "alice@example.com" pw_with_nul "root")) = Some alice_active /\
  AuthRoutes.register sample_digest sample_salt db_alice_active
    (mkUserCreate "alice@example.com" pw_with_nul "root") =
    Raise (HTTPException 400 AuthService.EMAIL_EXISTS).
Proof.
  split; [reflexivity|].
  apply (register_taken_email sample_digest sample_salt db_alice_active
           (mkUserCreate "alice@example.com" pw_with_nul "root") alice_active).
  reflexivity.
Defined.

(** With a free email, a role other than ["user"] and ["admin"] is answered
    400 with "Le rôle doit être 'user' ou 'admin'" whatever the password
    (nothing is hashed). *)
Theorem register_invalid_role :
  forall (digest : string -> string -> string) (salt : string) (db : Session)
         (d : UserCreate),
    query_by_email db (create_email d) = None ->
    create_role d <> "user" -> create_role d <> "admin" ->
    AuthRoutes.register digest salt db d =
      Raise (HTTPException 400 AuthService.INVALID_ROLE).
Proof.
  intros digest salt db d Hq Hu Ha.
  unfold AuthRoutes.register, AuthService.create_user. rewrite Hq. cbn [existsb].
  replace (String.eqb (create_role d) "user") with false
    by (symmetry; apply String.eqb_neq; exact Hu).
  replace (String.eqb (create_role d) "admin") with false
    by (symmetry; apply String.eqb_neq; exact Ha).
  reflexivity.
Qed.

Lemma register_invalid_role_witness :
  AuthRoutes.register sample_digest sample_salt db_alice_active
    (mkUserCreate "bob@example.com" pw_with_nul "Admin") =
    Raise (HTTPException 400 AuthService.INVALID_ROLE).
Proof.
  apply register_invalid_role; [reflexivity|discriminate|discriminate].
Defined.

(** [login] checks the password before the account's state: a wrong
    password is answered 401 "Email ou mot de passe incorrect" whether or not
    the account is active (as for an unknown email), and only the right
    password on a disabled account gets 401 "Compte désactivé". *)
Theorem login_password_checked_before_active :
  forall (digest : string -> string -> string) (e : env) (db : Session)
         (em pw : string) (u : User),
    query_by_email db em = Some u ->
    (JWTHandler.verify_password digest pw (password_hash u) = Ret false ->
     AuthRoutes.login digest e db (mkUserLogin em pw) =
       Raise (HTTPException 401 AuthService.INVALID_CREDENTIALS)) /\
    (JWTHandler.verify_password digest pw (password_hash u) = Ret true ->
     is_active u = false ->
     AuthRoutes.login digest e db (mkUserLogin em pw) =
       Raise (HTTPException 401 AuthService.ACCOUNT_DISABLED)).
Proof.
  intros digest e db em pw u Hq.
  unfold AuthRoutes.login, AuthService.login. cbn [login_email login_password].
  rewrite Hq. split.
  - intros Hv. rewrite Hv. reflexivity.
  - intros Hv Ha. rewrite Hv. cbn [bind negb]. rewrite Ha. reflexivity.
Qed.

Lemma login_password_checked_before_active_witness :
  (JWTHandler.verify_password sample_digest "wrong1" (password_hash alice_disabled) = Ret false /\
   AuthRoutes.login sample_digest issue_env db_alice_disabled
     (mkUserLogin "alice@example.com" "wrong1") =
     Raise (HTTPException 401 AuthService.INVALID_CREDENTIALS)) /\
  (JWTHandler.verify_password sample_digest "pw1234" (password_hash alice_disabled) = Ret true /\
   is_active alice_disabled = false /\
   AuthRoutes.login sample_digest issue_env db_alice_disabled
     (mkUserLogin "alice@example.com" "pw1234") =
     Raise (HTTPException 401 AuthService.ACCOUNT_DISABLED)).
Proof.
  assert (Hq : query_by_email db_alice_disabled "alice@example.com" = Some alice_disabled)
    by reflexivity.
  assert (Hf : JWTHandler.verify_password sample_digest "wrong1" (password_hash alice_disabled)
               = Ret false) by (vm_compute; reflexivity).
  assert (Ht : JWTHandler.verify_password sample_digest "pw1234" (password_hash alice_disabled)
               = Ret true) by (vm_compute; reflexivity).
  split.
  - split; [exact Hf|].
    exact (proj1 (login_password_checked_before_active sample_digest issue_env db_alice_disabled
                    "alice@example.com" "wrong1" alice_disabled Hq) Hf).
  - split; [exact Ht|]. split; [reflexivity|].
    exact (proj2 (login_password_checked_before_active sample_digest issue_env db_alice_disabled
                    "alice@example.com" "pw1234" alice_disabled Hq) Ht eq_refl).
Defined.

(** A successful [login] returns the stored row of the email, which is
    active, and a token signed with the secret under HS256 whose claims are
    that row's id, email and role, with [exp] the first clock read truncated
    to whole seconds plus 1800 and [iat] the second clock read truncated to
    whole seconds. *)
Theorem login_token_from_stored_row :
  forall (digest : string -> string -> string) (e : env) (db : Session)
         (l : UserLogin) (tok : token) (u : User),
    AuthService.login digest e db l = Ret (tok, u) ->
    query_by_email db (login_email l) = Some u /\ is_active u = true /\
    tok = Signed "HS256"
            [("user_id", JInt (id u)); ("email", JStr (email u)); ("role", JStr (role u));
             ("exp", JInt (timegm (utcnow e IssueExp) + 1800));
             ("iat", JInt (timegm (utcnow e IssueIat)))]
            JWTHandler.SECRET_KEY.
Proof.
  intros digest e db l tok u H.
  unfold AuthService.login in H.
  destruct (query_by_email db (login_email l)) as [v|] eqn:Hq; [|discriminate].
  destruct (JWTHandler.verify_password digest (login_password l) (password_hash v))
    as [[|]|x]; cbn [bind negb] in H; try discriminate.
  destruct (is_active v) eqn:Ha; cbn [negb] in H; [|discriminate].
  unfold JWTHandler.create_access_token in H.
  destruct (JWTHandler.DATETIME_MAX_US <? utcnow e IssueExp +
              JWTHandler.ACCESS_TOKEN_EXPIRE_MINUTES * 60 * USEC);
    cbn [bind] in H; [discriminate|].
  injection H as <- <-.
  split; [reflexivity|]. split; [exact Ha|].
  assert (Ht : timegm (utcnow e IssueExp + 1800000000) = timegm (utcnow e IssueExp) + 1800)
    by exact (timegm_add_seconds (utcnow e IssueExp) 1800).
  unfold Jose.encode, JWTHandler.ALGORITHM. rewrite Ht. reflexivity.
Qed.

Lemma login_token_from_stored_row_witness :
  exists tok,
    AuthService.login sample_digest skew_env db_alice_active
      (mkUserLogin "alice@example.com" "pw1234") = Ret (tok, alice_active) /\
    tok = Signed "HS256"
            [("user_id", JInt 1); ("email", JStr "alice@example.com"); ("role", JStr "user");
             ("exp", JInt 1700001800); ("iat", JInt 1700000001)] JWTHandler.SECRET_KEY /\
    (query_by_email db_alice_active (login_email (mkUserLogin "alice@example.com" "pw1234"))
       = Some alice_active /\
     is_active alice_active = true /\
     tok = Signed "HS256"
       [("user_id", JInt (id alice_active)); ("email", JStr (email alice_active));
        ("role", JStr (role alice_active));
        ("exp", JInt (timegm (utcnow skew_env IssueExp) + 1800));
        ("iat", JInt (timegm (utcnow skew_env IssueIat)))]
       JWTHandler.SECRET_KEY).
Proof.
  eexists.
  assert (Hl : AuthService.login sample_digest skew_env db_alice_active
    (mkUserLogin "alice@example.com" "pw1234") =
    Ret (Signed "HS256"
            [("user_id", JInt 1); ("email", JStr "alice@example.com"); ("role", JStr "user");
             ("exp", JInt 1700001800); ("iat", JInt 1700000001)] JWTHandler.SECRET_KEY,
         alice_active))
    by (vm_compute; reflexivity).
  split; [exact Hl|]. split; [reflexivity|].
  exact (login_token_from_stored_row _ _ _ _ _ _ Hl).
Defined.

(** At the top of [datetime]'s range, [utcnow() + timedelta(minutes=30)]
    overflows: a login with the right password on an active account is then
    answered 500 "Erreur lors de la connexion". *)
Theorem login_overflow_near_datetime_max :
  forall (digest : string -> string -> string) (e : env) (db : Session)
         (em pw : string) (u : User),
    query_by_email db em = Some u ->
    JWTHandler.verify_password digest pw (password_hash u) = Ret true ->
    is_active u = true ->
    JWTHandler.DATETIME_MAX_US < utcnow e IssueExp + 1800 * USEC ->
    AuthRoutes.login digest e db (mkUserLogin em pw) =
      Raise (HTTPException 500 "Erreur lors de la connexion").
Proof.
  intros digest e db em pw u Hq Hv Ha Hmax.
  unfold AuthRoutes.login, AuthService.login. cbn [login_email login_password].
  rewrite Hq, Hv. cbn [bind negb]. rewrite Ha. cbn [negb].
  unfold JWTHandler.create_access_token, JWTHandler.ACCESS_TOKEN_EXPIRE_MINUTES.
  replace (JWTHandler.DATETIME_MAX_US <? utcnow e IssueExp + 30 * 60 * USEC) with true
    by (symmetry; apply Z.ltb_lt; lia).
  reflexivity.
Qed.

Lemma login_overflow_near_datetime_max_witness :
  AuthRoutes.login sample_digest (mkEnv 253402300000000000 0) db_alice_active
    (mkUserLogin "alice@example.com" "pw1234") =
    Raise (HTTPException 500 "Erreur lors de la connexion").
Proof.
  apply (login_overflow_near_datetime_max sample_digest (mkEnv 253402300000000000 0)
           db_alice_active "alice@example.com" "pw1234" alice_active).
  - reflexivity.
  - vm_compute. reflexivity.
  - reflexivity.
  - apply Z.ltb_lt. vm_compute. reflexivity.
Defined.

Lemma dict_get_absent_acc : forall (k : string) (p : payload) (acc : option json),
  (forall kv, In kv p -> fst kv <> k) ->
  fold_left (fun acc kv => if String.eqb (fst kv) k then Some (snd kv) else acc) p acc = acc.
Proof.
  intros k p. induction p as [|kv p IH]; intros acc H; cbn; [reflexivity|].
  replace (String.eqb (fst kv) k) with false
    by (symmetry; apply String.eqb_neq; apply H; left; reflexivity).
  apply IH. intros kv' Hin. apply H. right. exact Hin.
Qed.

Lemma dict_get_absent : forall (k : string) (p : payload),
  (forall kv, In kv p -> fst kv <> k) -> dict_get k p = None.
Proof. intros k p H. apply dict_get_absent_acc. exact H. Qed.

(** A token signed with the secret whose payload holds only [user_id],
    [email] and [role] (no [exp]) never expires: [decode_token] accepts it at
    every clock, on every host. *)
Theorem token_without_exp_never_expires :
  forall (e : env) (p : payload),
    (forall kv, In kv p -> fst kv = "user_id" \/ fst kv = "email" \/ fst kv = "role") ->
    JWTHandler.decode_token e (Signed "HS256" p JWTHandler.SECRET_KEY) =
      Ret (Some (mkClaims (py_get "user_id" p) (py_get "email" p) (py_get "role" p))).
Proof.
  intros e p Hp.
  assert (Habs : forall k, k <> "user_id" -> k <> "email" -> k <> "role" -> dict_get k p = None).
  { intros k H1 H2 H3. apply dict_get_absent. intros kv Hin.
    destruct (Hp kv Hin) as [-> | [-> | ->]]; congruence. }
  unfold JWTHandler.decode_token, Jose.decode, Jose.validate_claims, Jose.validate_iat,
    Jose.validate_nbf, Jose.validate_exp, Jose.validate_aud, Jose.validate_string_claim,
    Jose.validate_at_hash.
  rewrite (Habs "iat"), (Habs "nbf"), (Habs "exp"), (Habs "aud"), (Habs "sub"),
    (Habs "jti"), (Habs "at_hash") by discriminate.
  cbn -[py_get].
  unfold py_get at 1. rewrite (Habs "exp") by discriminate.
  reflexivity.
Qed.

Lemma token_without_exp_never_expires_witness :
  JWTHandler.decode_token (mkEnv 253402300000000000 (-36000))
    (Signed "HS256" [("user_id", JInt 1); ("email", JStr "alice@example.com");
                     ("role", JStr "user")] JWTHandler.SECRET_KEY) =
    Ret (Some (mkClaims (JInt 1) (JStr "alice@example.com") (JStr "user"))).
Proof.
  apply (token_without_exp_never_expires (mkEnv 253402300000000000 (-36000))
           [("user_id", JInt 1); ("email", JStr "alice@example.com"); ("role", JStr "user")]).
  intros kv Hin. cbn in Hin.
  destruct Hin as [<- | [<- | [<- | [] ] ] ]; cbn; auto.
Defined.

(** The chain of a guarded route, gate by gate. *)
Lemma run_endpoint_cases :
  forall (R : Type) (role_gate : User -> result User) (handler : User -> result R)
         (e : env) (db : Session) (h : auth_header),
    Dependencies.run_endpoint role_gate handler e db h =
      match Dependencies.get_current_user e db h with
      | Raise x => ([Authenticate], Raise x)
      | Ret u =>
          match Dependencies.get_current_active_user u with
          | Raise x => ([Authenticate; ActiveCheck], Raise x)
          | Ret u' =>
              match role_gate u' with
              | Raise x => ([Authenticate; ActiveCheck; RoleCheck], Raise x)
              | Ret u'' => ([Authenticate; ActiveCheck; RoleCheck; Handler], handler u'')
              end
          end
      end.
Proof.
  intros R role_gate handler e db h.
  unfold Dependencies.run_endpoint, Dependencies.run_role_gate,
    Dependencies.run_get_current_active_user, Dependencies.run_get_current_user, enter.
  destruct (Dependencies.get_current_user e db h) as [u|x]; cbn; [|reflexivity].
  destruct (Dependencies.get_current_active_user u) as [u'|x]; cbn; [|reflexivity].
  destruct (role_gate u') as [u''|x]; reflexivity.
Qed.

Lemma run_active_endpoint_cases :
  forall (R : Type) (handler : User -> result R) (e : env) (db : Session) (h : auth_header),
    Dependencies.run_active_endpoint handler e db h =
      match Dependencies.get_current_user e db h with
      | Raise x => ([Authenticate], Raise x)
      | Ret u =>
          if is_active u then ([Authenticate; ActiveCheck; Handler], handler u)
          else ([Authenticate; ActiveCheck], Raise (HTTPException 400 "Utilisateur inactif"))
      end.
Proof.
  intros R handler e db h.
  unfold Dependencies.run_active_endpoint, Dependencies.run_get_current_active_user,
    Dependencies.run_get_current_user, enter.
  destruct (Dependencies.get_current_user e db h) as [u|x]; cbn; [|reflexivity].
  unfold Dependencies.get_current_active_user.
  destruct (is_active u); reflexivity.
Qed.

(** [HTTPBearer()] answers before anything else, on every guarded route: a
    request with no [Authorization] header, or with another scheme, is
    refused by the first gate, and no store lookup, no other gate and no
    handler runs.  The answer depends on the FastAPI release, which the
    requirements leave unpinned: 403 "Not authenticated" and 403 "Invalid
    authentication credentials" under the releases the code was written for,
    401 "Not authenticated" for both under the current one. *)
Theorem missing_bearer_refused_first :
  forall (R : Type) (role_gate : User -> result User) (handler : User -> result R)
         (e : env) (db : Session) (raw : string),
    let no_header := match fastapi e with
                     | FastAPILegacy => HTTPException 403 "Not authenticated"
                     | FastAPICurrent => HTTPException 401 "Not authenticated"
                     end in
    let other_scheme := match fastapi e with
                        | FastAPILegacy => HTTPException 403 "Invalid authentication credentials"
                        | FastAPICurrent => HTTPException 401 "Not authenticated"
                        end in
    Dependencies.run_endpoint role_gate handler e db NoAuthorization =
      ([Authenticate], Raise no_header) /\
    Dependencies.run_endpoint role_gate handler e db (OtherScheme raw) =
      ([Authenticate], Raise other_scheme) /\
    Dependencies.run_active_endpoint handler e db NoAuthorization =
      ([Authenticate], Raise no_header) /\
    Dependencies.run_active_endpoint handler e db (OtherScheme raw) =
      ([Authenticate], Raise other_scheme).
Proof.
  intros R role_gate handler e db raw no_header other_scheme.
  rewrite !run_endpoint_cases, !run_active_endpoint_cases.
  unfold Dependencies.get_current_user, Dependencies.security, no_header, other_scheme.
  destruct (fastapi e); split; [|split; [|split]|..|split; [|split]]; reflexivity.
Qed.

Lemma missing_bearer_refused_first_witness :
  Dependencies.run_endpoint Dependencies.require_admin ok_handler issue_env db_alice_active
    NoAuthorization = ([Authenticate], Raise (HTTPException 403 "Not authenticated")) /\
  Dependencies.run_endpoint Dependencies.require_admin ok_handler current_env db_alice_active
    NoAuthorization = ([Authenticate], Raise (HTTPException 401 "Not authenticated")) /\
  Dependencies.run_active_endpoint ok_handler current_env db_alice_active
    (OtherScheme "Basic YWxpY2U6cHcxMjM0") =
    ([Authenticate], Raise (HTTPException 401 "Not authenticated")).
Proof.
  split; [|split].
  - exact (proj1 (missing_bearer_refused_first unit Dependencies.require_admin ok_handler
                    issue_env db_alice_active "")).
  - exact (proj1 (missing_bearer_refused_first unit Dependencies.require_admin ok_handler
                    current_env db_alice_active "")).
  - exact (proj2 (proj2 (proj2 (missing_bearer_refused_first unit Dependencies.require_admin
                    ok_handler current_env db_alice_active "Basic YWxpY2U6cHcxMjM0")))).
Defined.

Lemma internal_exc_status : forall (A : Type) (x : exc),
  internal_exc x -> response_status (Raise x : result A) = 500.
Proof. intros A x H. destruct x; cbn in H |- *; tauto. Qed.

(** A Bearer token the first gate cannot resolve ends the request there, on
    every guarded route: 401 "Token invalide ou expiré" when [decode_token]
    returns [None], 401 "Utilisateur non trouvé" when it decodes to a
    [user_id] with no row; when [decode_token] or the lookup raises (a
    [TypeError] or [OverflowError] from jose's or [fromtimestamp]'s reading
    of a claim, a database error on a [user_id] of the wrong type), that
    exception escapes and the answer is 500. *)
Theorem unresolved_token_refused_401 :
  forall (R : Type) (role_gate : User -> result User) (handler : User -> result R)
         (e : env) (db : Session) (tok : token),
    (JWTHandler.decode_token e tok = Ret None ->
     Dependencies.run_endpoint role_gate handler e db (Bearer tok) =
       ([Authenticate], Raise (HTTPException 401 AuthService.INVALID_TOKEN))) /\
    (forall c, JWTHandler.decode_token e tok = Ret (Some c) ->
     query_by_id db (c_user_id c) = Ret None ->
     Dependencies.run_endpoint role_gate handler e db (Bearer tok) =
       ([Authenticate], Raise (HTTPException 401 AuthService.USER_NOT_FOUND))) /\
    (forall x, JWTHandler.decode_token e tok = Raise x ->
     Dependencies.run_endpoint role_gate handler e db (Bearer tok) = ([Authenticate], Raise x) /\
     response_status (snd (Dependencies.run_endpoint role_gate handler e db (Bearer tok))) = 500) /\
    (forall c x, JWTHandler.decode_token e tok = Ret (Some c) ->
     query_by_id db (c_user_id c) = Raise x ->
     Dependencies.run_endpoint role_gate handler e db (Bearer tok) = ([Authenticate], Raise x) /\
     response_status (snd (Dependencies.run_endpoint role_gate handler e db (Bearer tok))) = 500).
Proof.
  intros R role_gate handler e db tok.
  rewrite run_endpoint_cases.
  unfold Dependencies.get_current_user, Dependencies.security. cbn [bind].
  split; [|split; [|split]].
  - intros Hd. unfold AuthService.get_current_user. rewrite Hd. reflexivity.
  - intros c Hd Hq. rewrite (get_current_user_decoded _ _ _ _ Hd), Hq. reflexivity.
  - intros x Hd. pose proof (decode_token_raises _ _ _ Hd) as Hx.
    unfold AuthService.get_current_user. rewrite Hd. cbn [bind].
    destruct x; cbn in Hx; try contradiction; split; reflexivity.
  - intros c x Hd Hq. pose proof (query_by_id_raises _ _ _ Hq) as Hx.
    rewrite (get_current_user_decoded _ _ _ _ Hd), Hq.
    destruct x; cbn in Hx; try contradiction; split; reflexivity.
Qed.

Lemma unresolved_token_refused_401_witness :
  Dependencies.run_endpoint Dependencies.require_admin ok_handler (mkEnv 1800000000000000 0)
    db_alice_active (Bearer alice_token) =
    ([Authenticate], Raise (HTTPException 401 AuthService.INVALID_TOKEN)) /\
  Dependencies.run_endpoint Dependencies.require_admin ok_handler issue_env
    (empty_session Postgres16) (Bearer alice_token) =
    ([Authenticate], Raise (HTTPException 401 AuthService.USER_NOT_FOUND)) /\
  (Dependencies.run_endpoint Dependencies.require_admin ok_handler issue_env db_alice_active
     (Bearer (Signed "HS256" [("user_id", JInt 1); ("iat", JNull)] JWTHandler.SECRET_KEY)) =
     ([Authenticate], Raise (TypeError
        "int() argument must be a string, a bytes-like object or a real number, not 'NoneType'")) /\
   response_status (snd (Dependencies.run_endpoint Dependencies.require_admin ok_handler issue_env
     db_alice_active
     (Bearer (Signed "HS256" [("user_id", JInt 1); ("iat", JNull)] JWTHandler.SECRET_KEY)))) = 500) /\
  (Dependencies.run_endpoint Dependencies.require_admin ok_handler issue_env db_alice_active
     (Bearer (Signed "HS256" [("user_id", JBool true)] JWTHandler.SECRET_KEY)) =
     ([Authenticate], Raise (DBError "operator does not exist: integer = boolean")) /\
   response_status (snd (Dependencies.run_endpoint Dependencies.require_admin ok_handler issue_env
     db_alice_active
     (Bearer (Signed "HS256" [("user_id", JBool true)] JWTHandler.SECRET_KEY)))) = 500).
Proof.
  split; [|split; [|split]].
  - apply (proj1 (unresolved_token_refused_401 unit Dependencies.require_admin ok_handler
                    (mkEnv 1800000000000000 0) db_alice_active alice_token)).
    vm_compute. reflexivity.
  - apply (proj1 (proj2 (unresolved_token_refused_401 unit Dependencies.require_admin ok_handler
                    issue_env (empty_session Postgres16) alice_token))
             (mkClaims (JInt 1) (JStr "alice@example.com") (JStr "user")));
      vm_compute; reflexivity.
  - apply (proj1 (proj2 (proj2 (unresolved_token_refused_401 unit Dependencies.require_admin
                    ok_handler issue_env db_alice_active
                    (Signed "HS256" [("user_id", JInt 1); ("iat", JNull)]
                       JWTHandler.SECRET_KEY))))).
    vm_compute. reflexivity.
  - apply (proj2 (proj2 (proj2 (unresolved_token_refused_401 unit Dependencies.require_admin
                    ok_handler issue_env db_alice_active
                    (Signed "HS256" [("user_id", JBool true)] JWTHandler.SECRET_KEY))))
             (mkClaims (JBool true) JNull JNull));
      vm_compute; reflexivity.
Defined.

(** The admin-only routes ([Depends(require_admin)]): the handler runs
    exactly when the token resolves to an active user whose stored role is
    ["admin"]; an active user with another role gets 403 "Droits
    administrateur requis" from the role gate. *)
Theorem admin_route_runs_only_for_admins :
  forall (R : Type) (handler : User -> result R) (e : env) (db : Session) (h : auth_header),
    (In Handler (fst (Dependencies.run_endpoint Dependencies.require_admin handler e db h)) <->
     exists u, Dependencies.get_current_user e db h = Ret u /\
               is_active u = true /\ role u = "admin") /\
    (forall u, Dependencies.get_current_user e db h = Ret u ->
     is_active u = true -> role u <> "admin" ->
     Dependencies.run_endpoint Dependencies.require_admin handler e db h =
       ([Authenticate; ActiveCheck; RoleCheck],
        Raise (HTTPException 403 "Droits administrateur requis"))).
Proof.
  intros R handler e db h.
  rewrite run_endpoint_cases.
  unfold Dependencies.get_current_active_user, Dependencies.require_admin.
  split.
  - destruct (Dependencies.get_current_user e db h) as [u|x].
    + destruct (is_active u) eqn:Ha; cbn [negb].
      * destruct (String.eqb (role u) "admin") eqn:Hr; cbn [negb fst].
        -- split; [intros _; exists u; split; [reflexivity|split;
                     [exact Ha|apply String.eqb_eq; exact Hr]]|intros _; right; right; right; left; reflexivity].
        -- split; [intros Hin; cbn in Hin; intuition discriminate|].
           intros (v & Hv & _ & Hrv). injection Hv as <-. rewrite Hrv in Hr. discriminate.
      * cbn [fst]. split; [intros Hin; cbn in Hin; intuition discriminate|].
        intros (v & Hv & Hav & _). injection Hv as <-. congruence.
    + cbn [fst]. split; [intros Hin; cbn in Hin; intuition discriminate|].
      intros (v & Hv & _). discriminate.
  - intros u Hg Ha Hr. rewrite Hg, Ha. cbn [negb].
    replace (String.eqb (role u) "admin") with false
      by (symmetry; apply String.eqb_neq; exact Hr).
    reflexivity.
Qed.

(** [GET /users] for an admin: 200 with every stored row's public fields
    ([id], [email], [role], [is_active]; never the hash), in table order,
    [count] the number of rows and the message "<n> utilisateurs trouvés". *)
Theorem users_route_lists_every_user :
  forall (e : env) (db : Session) (h : auth_header) (u : User),
    Dependencies.get_current_user e db h = Ret u ->
    is_active u = true -> role u = "admin" ->
    Dependencies.run_endpoint Dependencies.require_admin (AuthRoutes.get_all_users db) e db h =
      ([Authenticate; ActiveCheck; RoleCheck; Handler],
       Ret {| success := true;
              message := str_of_nat (length (users db)) ++ " utilisateurs trouvés";
              data := Some (map from_orm (users db));
              count := Some (Z.of_nat (length (users db)));
              metadata := [] |}).
Proof.
  intros e db h u Hg Ha Hr.
  rewrite run_endpoint_cases, Hg.
  unfold Dependencies.get_current_active_user, Dependencies.require_admin.
  rewrite Ha. cbn [negb]. rewrite Hr. cbn [negb String.eqb Ascii.eqb Bool.eqb].
  unfold AuthRoutes.get_all_users, AuthService.get_all_users, success_response.
  destruct (users db) as [|v vs]; [reflexivity|].
  rewrite length_map. reflexivity.
Qed.

Lemma users_route_lists_every_user_witness :
  Dependencies.run_endpoint Dependencies.require_admin
    (AuthRoutes.get_all_users
       {| users := [{| id := 1; email := "admin@titanic.com"; password_hash := alice_hash;
                       is_active := true; role := "admin" |}; alice_active];
          next_id := 3; server := Postgres16 |})
    issue_env
    {| users := [{| id := 1; email := "admin@titanic.com"; password_hash := alice_hash;
                    is_active := true; role := "admin" |}; alice_active];
       next_id := 3; server := Postgres16 |}
    (Bearer (Signed "HS256" [("user_id", JInt 1); ("email", JStr "admin@titanic.com");
                             ("role", JStr "admin"); ("exp", JInt 1700001800);
                             ("iat", JInt 1700000000)] JWTHandler.SECRET_KEY)) =
    ([Authenticate; ActiveCheck; RoleCheck; Handler],
     Ret {| success := true;
            message := str_of_nat 2 ++ " utilisateurs trouvés";
            data := Some (map from_orm
                            [{| id := 1; email := "admin@titanic.com"; password_hash := alice_hash;
                                is_active := true; role := "admin" |}; alice_active]);
            count := Some 2;
            metadata := [] |}).
Proof.
  apply (users_route_lists_every_user issue_env
    {| users := [{| id := 1; email := "admin@titanic.com"; password_hash := alice_hash;
                    is_active := true; role := "admin" |}; alice_active];
       next_id := 3; server := Postgres16 |}
    (Bearer (Signed "HS256" [("user_id", JInt 1); ("email", JStr "admin@titanic.com");
                             ("role", JStr "admin"); ("exp", JInt 1700001800);
                             ("iat", JInt 1700000000)] JWTHandler.SECRET_KEY))
    {| id := 1; email := "admin@titanic.com"; password_hash := alice_hash;
       is_active := true; role := "admin" |}).
  - vm_compute. reflexivity.
  - reflexivity.
  - reflexivity.
Defined.

(** [GET /me] answers only with the stored row the token resolves to, and
    reports it active: one item, [count] 1, with that row's id, email and
    role and [is_active] true. *)
Theorem me_reports_stored_active_row :
  forall (e : env) (db : Session) (h : auth_header) (r : StandardResponse payload),
    snd (Dependencies.run_active_endpoint AuthRoutes.get_me e db h) = Ret r ->
    exists u, Dependencies.get_current_user e db h = Ret u /\ In u (users db) /\
      is_active u = true /\ success r = true /\ count r = Some 1 /\
      data r = Some [[("id", JInt (id u)); ("email", JStr (email u));
                      ("role", JStr (role u)); ("is_active", JBool true)]].
Proof.
  intros e db h r H.
  rewrite run_active_endpoint_cases in H.
  destruct (Dependencies.get_current_user e db h) as [u|x] eqn:Hg; [|discriminate].
  destruct (is_active u) eqn:Ha; cbn [snd] in H; [|discriminate].
  injection H as <-.
  exists u. split; [reflexivity|]. split; [exact (resolved_user_in_store _ _ _ _ Hg)|].
  rewrite Ha. repeat split; reflexivity.
Qed.

Lemma me_reports_stored_active_row_witness :
  snd (Dependencies.run_active_endpoint AuthRoutes.get_me issue_env db_alice_active
         (Bearer alice_token)) =
    Ret (success_response
           (DItem [("id", JInt 1); ("email", JStr "alice@example.com"); ("role", JStr "user");
                   ("is_active", JBool true)])
           "Informations utilisateur récupérées" None) /\
  exists u, Dependencies.get_current_user issue_env db_alice_active (Bearer alice_token) = Ret u /\
    In u (users db_alice_active) /\ is_active u = true /\
    success (success_response
           (DItem [("id", JInt 1); ("email", JStr "alice@example.com"); ("role", JStr "user");
                   ("is_active", JBool true)])
           "Informations utilisateur récupérées" None) = true /\
    count (success_response
           (DItem [("id", JInt 1); ("email", JStr "alice@example.com"); ("role", JStr "user");
                   ("is_active", JBool true)])
           "Informations utilisateur récupérées" None) = Some 1 /\
    data (success_response
           (DItem [("id", JInt 1); ("email", JStr "alice@example.com"); ("role", JStr "user");
                   ("is_active", JBool true)])
           "Informations utilisateur récupérées" None) =
      Some [[("id", JInt (id u)); ("email", JStr (email u));
             ("role", JStr (role u)); ("is_active", JBool true)]].
Proof.
  assert (H : snd (Dependencies.run_active_endpoint AuthRoutes.get_me issue_env db_alice_active
         (Bearer alice_token)) =
    Ret (success_response
           (DItem [("id", JInt 1); ("email", JStr "alice@example.com"); ("role", JStr "user");
                   ("is_active", JBool true)])
           "Informations utilisateur récupérées" None)) by (vm_compute; reflexivity).
  split; [exact H|].
  exact (me_reports_stored_active_row _ _ _ _ H).
Defined.

(** [POST /logout] answers only for an active stored user, with no data and
    the message "Déconnexion réussie pour <email>" naming that user. *)
Theorem logout_names_stored_active_user :
  forall (e : env) (db : Session) (h : auth_header) (r : StandardResponse unit),
    snd (Dependencies.run_active_endpoint AuthRoutes.logout e db h) = Ret r ->
    exists u, Dependencies.get_current_user e db h = Ret u /\ In u (users db) /\
      is_active u = true /\ success r = true /\ data r = None /\ count r = Some 0 /\
      message r = "Déconnexion réussie pour " ++ email u.
Proof.
  intros e db h r H.
  rewrite run_active_endpoint_cases in H.
  destruct (Dependencies.get_current_user e db h) as [u|x] eqn:Hg; [|discriminate].
  destruct (is_active u) eqn:Ha; cbn [snd] in H; [|discriminate].
  injection H as <-.
  exists u. split; [reflexivity|]. split; [exact (resolved_user_in_store _ _ _ _ Hg)|].
  split; [exact Ha|]. repeat split; reflexivity.
Qed.

Lemma logout_names_stored_active_user_witness :
  snd (Dependencies.run_active_endpoint AuthRoutes.logout issue_env db_alice_active
         (Bearer alice_token)) =
    Ret (success_response DNone "Déconnexion réussie pour alice@example.com" None) /\
  exists u, Dependencies.get_current_user issue_env db_alice_active (Bearer alice_token) = Ret u /\
    In u (users db_alice_active) /\ is_active u = true /\
    success (success_response (A := unit) DNone "Déconnexion réussie pour alice@example.com" None) = true /\
    data (success_response (A := unit) DNone "Déconnexion réussie pour alice@example.com" None) = None /\
    count (success_response (A := unit) DNone "Déconnexion réussie pour alice@example.com" None) = Some 0 /\
    message (success_response (A := unit) DNone "Déconnexion réussie pour alice@example.com" None) =
      "Déconnexion réussie pour " ++ email u.
Proof.
  assert (H : snd (Dependencies.run_active_endpoint AuthRoutes.logout issue_env db_alice_active
         (Bearer alice_token)) =
    Ret (success_response DNone "Déconnexion réussie pour alice@example.com" None))
    by (vm_compute; reflexivity).
  split; [exact H|].
  exact (logout_names_stored_active_user _ _ _ _ H).
Defined.

Lemma string_length_app : forall a b : string,
  String.length (a ++ b) = (String.length a + String.length b)%nat.
Proof. induction a as [|c a IH]; intros b; cbn; [reflexivity|]. rewrite IH. reflexivity. Qed.

Lemma string_of_codes_length : forall l, String.length (string_of_codes l) = length l.
Proof.
  intros l. unfold string_of_codes.
  induction l as [|c l IH]; cbn; [reflexivity|]. f_equal. exact IH.
Qed.

(** [hash_password]'s output: ["$2b$12$"], the salt with the padding bits of
    its last character cleared, and the checksum, 60 characters; passlib
    parses it back into exactly that ident, cost, salt and checksum, and it
    verifies the password it was made from. *)
Theorem hash_password_format :
  forall (digest : string -> string -> string) (salt pw : string),
    (forall s c, clean_checksum (digest s c) = true) ->
    String.length salt = 22%nat -> bcrypt64_str salt = true ->
    contains_nul pw = false -> (String.length pw <= MAX_PASSWORD_SIZE)%nat ->
    let salt' := string_of_codes (check_repair_unused (codes salt)) in
    let chk := digest pw ("$2b$12$" ++ salt') in
    JWTHandler.hash_password digest salt pw = Ret ("$2b$12$" ++ salt' ++ chk) /\
    String.length salt' = 22%nat /\ bcrypt64_str salt' = true /\
    String.length ("$2b$12$" ++ salt' ++ chk) = 60%nat /\
    parse_bcrypt ("$2b$12$" ++ salt' ++ chk) = Some ("$2b$", 12, salt', chk) /\
    JWTHandler.verify_password digest pw ("$2b$12$" ++ salt' ++ chk) = Ret true.
Proof.
  intros digest salt pw Hdig Hsl Hsb Hnul Hsize salt' chk.
  destruct (passlib_hash_own digest salt pw Hdig Hsl Hsb Hnul Hsize) as (Hh & Hp & Hv).
  fold salt' chk in Hh, Hp, Hv.
  assert (Hcodes : codes salt = bytes_of salt)
    by (unfold codes; apply utf8_decode_ascii, bcrypt64_codes_ascii; exact Hsb).
  assert (Hs'b : bcrypt64_codes (check_repair_unused (codes salt)) = true)
    by (rewrite Hcodes; apply check_repair_unused_codes; exact Hsb).
  assert (Hl' : String.length salt' = 22%nat).
  { unfold salt'. rewrite string_of_codes_length, check_repair_unused_length, Hcodes,
      bytes_of_length. exact Hsl. }
  assert (Hchk := Hdig pw ("$2b$12$" ++ salt')). fold chk in Hchk.
  unfold clean_checksum in Hchk.
  apply andb_true_iff in Hchk as [Hchk _]. apply andb_true_iff in Hchk as [Hcl _].
  apply Nat.eqb_eq in Hcl.
  split; [exact Hh|]. split; [exact Hl'|]. split.
  - unfold bcrypt64_str, salt'. rewrite bytes_string_of_codes; [exact Hs'b|].
    apply bcrypt64_codes_range. exact Hs'b.
  - split; [rewrite !string_length_app, Hl', Hcl; reflexivity|].
    split; [unfold parse_bcrypt; rewrite Hp; reflexivity|exact Hv].
Qed.

Lemma hash_password_format_witness :
  string_of_codes (check_repair_unused (codes "abcdefghijklmnopqrstuv")) =
    "abcdefghijklmnopqrstuu" /\
  (let salt' := string_of_codes (check_repair_unused (codes "abcdefghijklmnopqrstuv")) in
   let chk := sample_digest "pw1234" ("$2b$12$" ++ salt') in
   JWTHandler.hash_password sample_digest "abcdefghijklmnopqrstuv" "pw1234" =
     Ret ("$2b$12$" ++ salt' ++ chk) /\
   String.length salt' = 22%nat /\ bcrypt64_str salt' = true /\
   String.length ("$2b$12$" ++ salt' ++ chk) = 60%nat /\
   parse_bcrypt ("$2b$12$" ++ salt' ++ chk) = Some ("$2b$", 12, salt', chk) /\
   JWTHandler.verify_password sample_digest "pw1234" ("$2b$12$" ++ salt' ++ chk) = Ret true).
Proof.
  split; [vm_compute; reflexivity|].
  apply hash_password_format.
  - intros s c. unfold sample_digest. destruct (String.eqb s "pw1234"); vm_compute; reflexivity.
  - reflexivity.
  - vm_compute. reflexivity.
  - reflexivity.
  - apply Nat.leb_le. reflexivity.
Defined.




Lemma query_by_email_add_user_keeps : forall (db : Session) (u : User) (em : string),
  query_by_email db em <> None -> query_by_email (add_user db u) em <> None.
Proof.
  intros db u em H. unfold query_by_email, add_user in *; cbn [users].
  rewrite find_app_single. destruct (find _ (users db)); [discriminate|contradiction].
Qed.




(** With a row whose id the sequence will draw again (ids 1, 1, 2, 3 after
    a manual insert), the first insert of [create_users.py] violates the
    primary key: it returns False and rolls back. *)
Lemma create_default_users_pk_clash :
  CreateUsers.create_default_users sample_digest (fun _ => sample_salt)
    {| users := [{| id := 1; email := "root@titanic.com"; password_hash := alice_hash;
                    is_active := true; role := "admin" |}];
       next_id := 1; server := Postgres16 |} =
    ({| users := [{| id := 1; email := "root@titanic.com"; password_hash := alice_hash;
                     is_active := true; role := "admin" |}];
        next_id := 2; server := Postgres16 |}, false).
Proof. vm_compute. reflexivity. Qed.
